(** * The user vertical of skillcert-backend-server

    A shallow embedding of [users.controller.ts], [users.service.ts] and
    [users.repository.ts], with the relational store behind TypeORM modelled
    as a table of rows plus a journal of the statements issued against it.

    The store is the users table alone.  Its key is of type uuid, as the
    repository's [docs/data.md] has it: an id that a caller gives is a text
    that the store reads as a key, in any of the spellings it accepts, and a
    statement whose id is no uuid fails in the store.  The rows of other
    tables that refer to a user are outside the model.

    Layout: JavaScript values, the data model, the store and its monad, the
    TypeORM primitives, the repository, the service and the controller; then
    the vocabulary of the statements and sample data; then the lemmas and
    theorems, and last the statements at sample inputs. *)

From Stdlib Require Import String Ascii List ZArith Lia Bool Sorted Permutation.
Import ListNotations.
Local Open Scope string_scope.
Local Open Scope Z_scope.

Set Implicit Arguments.

(* ===================================================================== *)
(** ** JavaScript values *)
(* ===================================================================== *)

(** A JS [number] as the controller produces it: [parseInt] yields an
    integer or [NaN].  Integers are kept exact (the rounding of doubles above
    2^53 is outside the model). *)
Inductive number : Type :=
| Num (z : Z)
| NaN.

Module Number.

Definition sub (a b : number) : number :=
  match a, b with
  | Num x, Num y => Num (x - y)
  | _, _ => NaN
  end.

Definition mul (a b : number) : number :=
  match a, b with
  | Num x, Num y => Num (x * y)
  | _, _ => NaN
  end.

(** ToBoolean on a number: [0] and [NaN] are falsy. *)
Definition truthy (a : number) : bool :=
  match a with
  | Num z => negb (z =? 0)
  | NaN => false
  end.

End Number.

(** ToBoolean on a string: only the empty string is falsy. *)
Definition truthy (s : string) : bool := negb (s =? "")%string.

(** ToBoolean on an optional property: [undefined] is falsy. *)
Definition truthy_opt (o : option string) : bool :=
  match o with
  | Some s => truthy s
  | None => false
  end.

Definition truthy_num (o : option number) : bool :=
  match o with
  | Some n => Number.truthy n
  | None => false
  end.

(** [o ?? d], and a parameter default [x = d]. *)
Definition or_else {A} (o : option A) (d : A) : A :=
  match o with
  | Some a => a
  | None => d
  end.

(** [String.prototype.toLowerCase] on ASCII text (wallet addresses are
    hexadecimal): [A]..[Z] go to [a]..[z], every other byte is kept. *)
Definition lower_ascii (c : ascii) : ascii :=
  let n := nat_of_ascii c in
  if (Nat.leb 65 n && Nat.leb n 90)%bool then ascii_of_nat (n + 32) else c.

Fixpoint toLowerCase (s : string) : string :=
  match s with
  | EmptyString => EmptyString
  | String c r => String (lower_ascii c) (toLowerCase r)
  end.

(** *** [parseInt(s, 10)] *)

(** A string is the UTF-8 text of the JavaScript string, byte by byte.
    [parseInt] first skips the white space of ECMAScript, WhiteSpace and
    LineTerminator: U+0009 to U+000D and U+0020 in one byte; U+00A0 in two;
    U+1680, U+2000 to U+200A, U+2028, U+2029, U+202F, U+205F, U+3000 and
    U+FEFF in three. *)
Definition is_white_space (c : ascii) : bool :=
  let n := nat_of_ascii c in
  (Nat.eqb n 9 || Nat.eqb n 10 || Nat.eqb n 11 || Nat.eqb n 12
   || Nat.eqb n 13 || Nat.eqb n 32)%bool.

Definition is_white_space2 (c d : ascii) : bool :=
  (Nat.eqb (nat_of_ascii c) 194 && Nat.eqb (nat_of_ascii d) 160)%bool.

Definition is_white_space3 (c d e : ascii) : bool :=
  let c := nat_of_ascii c in
  let d := nat_of_ascii d in
  let e := nat_of_ascii e in
  ((Nat.eqb c 225 && Nat.eqb d 154 && Nat.eqb e 128)
   || (Nat.eqb c 226 && Nat.eqb d 128
       && ((Nat.leb 128 e && Nat.leb e 138)
           || Nat.eqb e 168 || Nat.eqb e 169 || Nat.eqb e 175))
   || (Nat.eqb c 226 && Nat.eqb d 129 && Nat.eqb e 159)
   || (Nat.eqb c 227 && Nat.eqb d 128 && Nat.eqb e 128)
   || (Nat.eqb c 239 && Nat.eqb d 187 && Nat.eqb e 191))%bool.

Definition digit_value (c : ascii) : option Z :=
  let n := nat_of_ascii c in
  if (Nat.leb 48 n && Nat.leb n 57)%bool then Some (Z.of_nat (n - 48)) else None.

Fixpoint trim_start (s : string) : string :=
  match s with
  | String c r =>
      if is_white_space c then trim_start r
      else
        match r with
        | String d r1 =>
            if is_white_space2 c d then trim_start r1
            else
              match r1 with
              | String e r2 => if is_white_space3 c d e then trim_start r2 else s
              | EmptyString => s
              end
        | EmptyString => s
        end
  | EmptyString => EmptyString
  end.

(** The longest prefix of decimal digits, read as an integer; [None] when
    the prefix is empty. *)
Fixpoint read_digits (acc : option Z) (s : string) : option Z :=
  match s with
  | String c r =>
      match digit_value c with
      | Some d =>
          read_digits (Some (10 * match acc with Some a => a | None => 0 end + d)) r
      | None => acc
      end
  | EmptyString => acc
  end.

(** An optional sign in front of the digits. *)
Definition split_sign (t : string) : Z * string :=
  match t with
  | String "-" r => (-1, r)
  | String "+" r => (1, r)
  | _ => (1, t)
  end.

Definition parseInt (s : string) : number :=
  let '(sign, body) := split_sign (trim_start s) in
  match read_digits None body with
  | Some z => Num (sign * z)
  | None => NaN
  end.

(* ===================================================================== *)
(** ** Data model *)
(* ===================================================================== *)

(** Modelled from the spec: [enums/user-role.enum.ts] is not among the
    sources; the spec's data model has "learner or elevated/professor-admin
    role", and the DTO names [UserRole.USER] as the default. *)
Inductive UserRole : Type :=
| USER
| ADMIN.

Module User.
(** Modelled from the spec: [entities/user.entity.ts] is not among the
    sources.  The fields are those the service and the repository read;
    [password] is optional because the read projections leave it out, and
    [walletAddress] is [string | null].  Dates are instants. *)
Record t : Type := mk {
  id : string;
  name : string;
  email : string;
  password : option string;
  role : UserRole;
  walletAddress : option string;
  createdAt : Z;
  updatedAt : Z
}.
End User.

Module CreateUserDto.
Record t : Type := mk {
  name : string;
  email : string;
  password : string;
  role : option UserRole;
  walletAddress : option string
}.
End CreateUserDto.

Module UpdateUserDto.
(** Modelled from the spec: [dto/update-user.dto.ts] is not among the
    sources; the spec describes "partial field replacement", so every field
    of the create input is optional here. *)
Record t : Type := mk {
  name : option string;
  email : option string;
  password : option string;
  role : option UserRole;
  walletAddress : option string
}.

Definition empty : t := mk None None None None None.
End UpdateUserDto.

Module LinkWalletDto.
Record t : Type := mk { walletAddress : string }.
End LinkWalletDto.

Module DateRangeFilterDto.
(** Modelled from the spec: [common/dto/date-range-filter.dto.ts] is not
    among the sources; the repository reads two optional date strings. *)
Record t : Type := mk {
  startDate : option string;
  endDate : option string
}.
End DateRangeFilterDto.

(** An object literal: its own properties, in the order written. *)
Inductive JsValue : Type :=
| JString (s : string)
| JNull
| JDate (t : Z)
| JRole (r : UserRole).

Definition JsObject : Type := list (string * JsValue).

Definition keys (o : JsObject) : list string := map fst o.

Fixpoint prop (k : string) (o : JsObject) : option JsValue :=
  match o with
  | [] => None
  | (k', v) :: r => if (k' =? k)%string then Some v else prop k r
  end.


(** [UserResponseDto] is what [toResponseDto] builds: an object literal. *)
Definition UserResponseDto : Type := JsObject.

(* ===================================================================== *)
(** ** The store *)
(* ===================================================================== *)

Inductive Column : Type :=
| col_id | col_name | col_email | col_password | col_role
| col_walletAddress | col_createdAt | col_updatedAt.

Definition Column_eqb (a b : Column) : bool :=
  match a, b with
  | col_id, col_id | col_name, col_name | col_email, col_email
  | col_password, col_password | col_role, col_role
  | col_walletAddress, col_walletAddress
  | col_createdAt, col_createdAt | col_updatedAt, col_updatedAt => true
  | _, _ => false
  end.

(** The conditions the repository puts in a WHERE clause.  The value of a
    condition on [id] is the text the caller gave; the store reads it as a
    key before it compares. *)
Inductive Cond : Type :=
| IdIs (v : string)                (* user.id = :id *)
| IdIsNot (v : string)             (* user.id != :excludeId *)
| EmailIs (v : string)             (* user.email = :email *)
| WalletAddressIs (v : string)     (* user.walletAddress = :walletAddress *)
| CreatedAtFrom (t : Z)            (* user.createdAt >= :startDate *)
| CreatedAtTo (t : Z).             (* user.createdAt <= :endDate *)

Definition opt_is (o : option string) (v : string) : bool :=
  match o with
  | Some s => (s =? v)%string
  | None => false
  end.

(** SQL comparison, once the values have been read: text columns compare
    byte for byte, NULL matches nothing, and a key equals a key when both
    have the same spelling in the store. *)
Definition holds (c : Cond) (u : User.t) : bool :=
  match c with
  | IdIs v => (User.id u =? v)%string
  | IdIsNot v => negb (User.id u =? v)%string
  | EmailIs v => (User.email u =? v)%string
  | WalletAddressIs v => opt_is (User.walletAddress u) v
  | CreatedAtFrom t => t <=? User.createdAt u
  | CreatedAtTo t => User.createdAt u <=? t
  end.

Definition matches (w : list Cond) (u : User.t) : bool :=
  forallb (fun c => holds c u) w.

Record SelectQueryBuilder : Type := mkQB {
  qb_select : option (list Column);
  qb_orderBy : bool;               (* ORDER BY user.createdAt DESC *)
  qb_where : list Cond;
  qb_skip : option number;
  qb_take : option number
}.

Inductive Statement : Type :=
| Insert (row : User.t)
| Select (qb : SelectQueryBuilder)
| Count (w : list Cond)
| FindOne (w : list Cond) (sel : option (list Column))
| Update (id : string) (set : UpdateUserDto.t)
| Delete (id : string).

Record Db : Type := mkDb {
  table : list User.t;
  journal : list Statement
}.

Inductive Exception : Type :=
| BadRequestException (message : string)
| ConflictException (message : string)
| NotFoundException (message : string)
| QueryFailedError (message : string).

Inductive Result (A : Type) : Type :=
| Ok (a : A)
| Throw (e : Exception).

Arguments Ok {A} a.
Arguments Throw {A} e.

(** An awaited computation: it runs against the store and either returns or
    throws; the store keeps whatever was done before the throw. *)
Definition M (A : Type) : Type := Db -> Result A * Db.

Definition ret {A} (a : A) : M A := fun db => (Ok a, db).

Definition throw {A} (e : Exception) : M A := fun db => (Throw e, db).

Definition bind {A B} (m : M A) (k : A -> M B) : M B :=
  fun db =>
    match m db with
    | (Ok a, db') => k a db'
    | (Throw e, db') => (Throw e, db')
    end.

Declare Scope m_scope.
Delimit Scope m_scope with m.
Notation "x <- c1 ;; c2" := (bind c1 (fun x => c2))
  (at level 100, c1 at next level, right associativity) : m_scope.
Notation "' pat <- c1 ;; c2" := (bind c1 (fun x => let 'pat := x in c2))
  (at level 100, pat pattern, c1 at next level, right associativity) : m_scope.
Notation "c1 ;; c2" := (bind c1 (fun _ => c2))
  (at level 100, right associativity) : m_scope.
Local Open Scope m_scope.

Definition rows : M (list User.t) := fun db => (Ok (table db), db).

Definition write (t : list User.t) : M unit :=
  fun db => (Ok tt, mkDb t (journal db)).

(** One round-trip to the store. *)
Definition issue (s : Statement) : M unit :=
  fun db => (Ok tt, mkDb (table db) (journal db ++ [s])).

(** What lies outside the repository's sources and is used through its
    interface only. *)
Class Platform : Type := {
  (** [bcrypt.hash(data, rounds)], with the salt it draws made explicit *)
  bcrypt_hash : string -> Z -> string -> string;
  (** [common/constants.ts] is not among the sources *)
  PASSWORD_SALT_ROUNDS : Z;
  (** [new Date(s)] as an instant *)
  Date_parse : string -> Z;
  (** The store reading a text as a value of its key type, uuid: the key in
      the spelling the store keeps and prints, or nothing when the text is
      not a uuid.  Several texts may spell one key. *)
  uuid_in : string -> option string
}.

(** What the environment supplies to one request: the key the store
    generates on insert, which is a key in the store's own spelling, the
    clock, and the salt bcrypt draws. *)
Record Env {P : Platform} : Type := mkEnv {
  uuid : string;
  now : Z;
  salt : string;
  uuid_ok : uuid_in uuid = Some uuid
}.

Arguments mkEnv {P} uuid now salt uuid_ok.

(* ===================================================================== *)
(** ** TypeORM against the table *)
(* ===================================================================== *)

Module TypeOrm.
Section Store.
Context {P : Platform}.

(** ORDER BY createdAt DESC, as a stable insertion sort: rows with the same
    instant keep their table order (SQL leaves that order open). *)
Fixpoint insert_desc (x : User.t) (l : list User.t) : list User.t :=
  match l with
  | [] => [x]
  | y :: l' =>
      if User.createdAt y <=? User.createdAt x then x :: l
      else y :: insert_desc x l'
  end.

Definition orderByCreatedAtDesc (l : list User.t) : list User.t :=
  fold_right insert_desc [] l.

Definition selects (sel : option (list Column)) (c : Column) : bool :=
  match sel with
  | None => true
  | Some cs => existsb (Column_eqb c) cs
  end.

(** The column list of a read.  Every list in the repository names all
    columns but [password], so that is the one column a read can drop. *)
Definition project (sel : option (list Column)) (u : User.t) : User.t :=
  if selects sel col_password then u
  else User.mk (User.id u) (User.name u) (User.email u) None (User.role u)
         (User.walletAddress u) (User.createdAt u) (User.updatedAt u).

Definition wallet_clash (a b : option string) : bool :=
  match a, b with
  | Some x, Some y => (x =? y)%string
  | _, _ => false
  end.

(** Modelled from the spec: the entity's constraints ("email ... unique
    across all users", "walletAddress ... unique across all users when
    present", primary key [id]).  A row may not share its key, its email or
    its non-null wallet address with a row already there. *)
Definition insert_violation (u : User.t) (t : list User.t) : bool :=
  existsb (fun v =>
             (User.id v =? User.id u)%string
             || (User.email v =? User.email u)%string
             || wallet_clash (User.walletAddress v) (User.walletAddress u))%bool t.

(** The store reads the value of every condition on [id] as a key before it
    runs a statement. *)
Definition read_cond (c : Cond) : option Cond :=
  match c with
  | IdIs v => option_map IdIs (uuid_in v)
  | IdIsNot v => option_map IdIsNot (uuid_in v)
  | EmailIs _ | WalletAddressIs _ | CreatedAtFrom _ | CreatedAtTo _ => Some c
  end.

Fixpoint read_where (w : list Cond) : option (list Cond) :=
  match w with
  | [] => Some []
  | c :: w' =>
      match read_cond c, read_where w' with
      | Some c, Some w' => Some (c :: w')
      | _, _ => None
      end
  end.

(** What a statement fails with when a value given for [id] is not a uuid;
    no row is read or written. *)
Definition invalid_uuid : Exception :=
  QueryFailedError "invalid input syntax for type uuid".

(** [repository.create(fields)] only builds the entity in memory; the shape
    the repository passes is that of the create input. *)
Definition create (fields : CreateUserDto.t) : CreateUserDto.t := fields.

(** [repository.save(entity)] of an entity without a key: one INSERT; the
    store fills in [id], the role default and both timestamps. *)
Definition save (env : Env) (e : CreateUserDto.t) : M User.t :=
  let u := User.mk (uuid env) (CreateUserDto.name e) (CreateUserDto.email e)
             (Some (CreateUserDto.password e))
             (or_else (CreateUserDto.role e) USER)
             (CreateUserDto.walletAddress e) (now env) (now env) in
  issue (Insert u) ;;
  t <- rows ;;
  if insert_violation u t
  then throw (QueryFailedError "duplicate key value violates unique constraint")
  else write (t ++ [u]) ;; ret u.

(** [repository.count({ where })] and [queryBuilder.getCount()]. *)
Definition count (w : list Cond) : M Z :=
  issue (Count w) ;;
  match read_where w with
  | Some w =>
      t <- rows ;;
      ret (Z.of_nat (length (filter (matches w) t)))
  | None => throw invalid_uuid
  end.

(** [repository.findOne({ where, select })]: the first matching row. *)
Definition findOne (w : list Cond) (sel : option (list Column)) : M (option User.t) :=
  issue (FindOne w sel) ;;
  match read_where w with
  | Some w =>
      t <- rows ;;
      ret (option_map (project sel) (find (matches w) t))
  | None => throw invalid_uuid
  end.

Definition apply_set (at_ : Z) (set : UpdateUserDto.t) (u : User.t) : User.t :=
  User.mk (User.id u)
    (or_else (UpdateUserDto.name set) (User.name u))
    (or_else (UpdateUserDto.email set) (User.email u))
    (match UpdateUserDto.password set with
     | Some p => Some p
     | None => User.password u
     end)
    (or_else (UpdateUserDto.role set) (User.role u))
    (match UpdateUserDto.walletAddress set with
     | Some w => Some w
     | None => User.walletAddress u
     end)
    (User.createdAt u)
    at_.

Definition update_rows (key : string) (at_ : Z) (set : UpdateUserDto.t)
  (t : list User.t) : list User.t :=
  map (fun u => if (User.id u =? key)%string then apply_set at_ set u else u) t.

(** The same constraints on UPDATE: the row being set may not take the email
    or the wallet address of a row with another key. *)
Definition update_violation (key : string) (set : UpdateUserDto.t)
  (t : list User.t) : bool :=
  (existsb (fun u => (User.id u =? key)%string) t
   && existsb (fun v =>
                 negb (User.id v =? key)%string
                 && (opt_is (UpdateUserDto.email set) (User.email v)
                     || wallet_clash (UpdateUserDto.walletAddress set)
                          (User.walletAddress v))) t)%bool.

(** [repository.update(id, partial)]: UPDATE ... WHERE id = :id with the
    fields that are defined; the store maintains [updatedAt]. *)
Definition update (env : Env) (id : string) (set : UpdateUserDto.t) : M unit :=
  issue (Update id set) ;;
  match uuid_in id with
  | Some key =>
      t <- rows ;;
      if update_violation key set t
      then throw (QueryFailedError "duplicate key value violates unique constraint")
      else write (update_rows key (now env) set t)
  | None => throw invalid_uuid
  end.

Record DeleteResult : Type := mkDeleteResult { affected : option Z }.

(** [repository.delete(id)]: DELETE ... WHERE id = :id. *)
Definition delete (id : string) : M DeleteResult :=
  issue (Delete id) ;;
  match uuid_in id with
  | Some key =>
      t <- rows ;;
      write (filter (fun u => negb (User.id u =? key)%string) t) ;;
      ret (mkDeleteResult
             (Some (Z.of_nat (length (filter (fun u => (User.id u =? key)%string) t)))))
  | None => throw invalid_uuid
  end.

(** *** The query builder *)

Definition createQueryBuilder : SelectQueryBuilder :=
  mkQB None false [] None None.

Definition select (cs : list Column) (qb : SelectQueryBuilder) : SelectQueryBuilder :=
  mkQB (Some cs) (qb_orderBy qb) (qb_where qb) (qb_skip qb) (qb_take qb).

Definition orderBy_createdAt_DESC (qb : SelectQueryBuilder) : SelectQueryBuilder :=
  mkQB (qb_select qb) true (qb_where qb) (qb_skip qb) (qb_take qb).

Definition where_ (c : Cond) (qb : SelectQueryBuilder) : SelectQueryBuilder :=
  mkQB (qb_select qb) (qb_orderBy qb) [c] (qb_skip qb) (qb_take qb).

Definition andWhere (c : Cond) (qb : SelectQueryBuilder) : SelectQueryBuilder :=
  mkQB (qb_select qb) (qb_orderBy qb) (qb_where qb ++ [c]) (qb_skip qb) (qb_take qb).

Definition skip (n : number) (qb : SelectQueryBuilder) : SelectQueryBuilder :=
  mkQB (qb_select qb) (qb_orderBy qb) (qb_where qb) (Some n) (qb_take qb).

Definition take (n : number) (qb : SelectQueryBuilder) : SelectQueryBuilder :=
  mkQB (qb_select qb) (qb_orderBy qb) (qb_where qb) (qb_skip qb) (Some n).

Definition getCount (qb : SelectQueryBuilder) : M Z := count (qb_where qb).

(** OFFSET and LIMIT: absent means none; a value that is not a number or is
    negative is refused by the store. *)
Definition window (n : option number) : Result (option nat) :=
  match n with
  | None => Ok None
  | Some (Num z) =>
      if z <? 0 then Throw (QueryFailedError "OFFSET and LIMIT must not be negative")
      else Ok (Some (Z.to_nat z))
  | Some NaN => Throw (QueryFailedError "OFFSET and LIMIT must be numbers")
  end.

Definition paginate (off lim : option nat) (l : list User.t) : list User.t :=
  let l' := match off with Some n => List.skipn n l | None => l end in
  match lim with Some n => firstn n l' | None => l' end.

(** [queryBuilder.getManyAndCount()]: the page, and the count of the rows
    that match the WHERE clause whatever the page. *)
Definition getManyAndCount (qb : SelectQueryBuilder) : M (list User.t * Z) :=
  issue (Select qb) ;;
  match read_where (qb_where qb) with
  | Some w =>
      t <- rows ;;
      let matched := filter (matches w) t in
      let ordered := if qb_orderBy qb then orderByCreatedAtDesc matched else matched in
      match window (qb_skip qb), window (qb_take qb) with
      | Ok off, Ok lim =>
          ret (map (project (qb_select qb)) (paginate off lim ordered),
               Z.of_nat (length matched))
      | Throw e, _ => throw e
      | _, Throw e => throw e
      end
  | None => throw invalid_uuid
  end.

End Store.
End TypeOrm.

(* ===================================================================== *)
(** ** users.repository.ts *)
(* ===================================================================== *)

Module UsersRepository.
Section Repository.
Context {P : Platform}.

Definition read_columns : list Column :=
  [col_id; col_name; col_email; col_role; col_walletAddress;
   col_createdAt; col_updatedAt].

(** The builder is one object that the calls change in place; here each call
    returns the changed builder. *)
Definition applyDateFilters (queryBuilder : SelectQueryBuilder)
  (filters : DateRangeFilterDto.t) : SelectQueryBuilder :=
  let queryBuilder :=
    match DateRangeFilterDto.startDate filters with
    | Some startDate =>
        if truthy startDate
        then TypeOrm.andWhere (CreatedAtFrom (Date_parse startDate)) queryBuilder
        else queryBuilder
    | None => queryBuilder
    end in
  match DateRangeFilterDto.endDate filters with
  | Some endDate =>
      if truthy endDate
      then TypeOrm.andWhere (CreatedAtTo (Date_parse endDate)) queryBuilder
      else queryBuilder
  | None => queryBuilder
  end.

Definition create (env : Env) (createUserDto : CreateUserDto.t) : M User.t :=
  let user :=
    TypeOrm.create
      (CreateUserDto.mk
         (CreateUserDto.name createUserDto)
         (CreateUserDto.email createUserDto)
         (CreateUserDto.password createUserDto)
         (CreateUserDto.role createUserDto)
         (* Normalise wallet address to lowercase for consistent uniqueness checks *)
         (match CreateUserDto.walletAddress createUserDto with
          | Some w => if truthy w then Some (toLowerCase w) else None
          | None => None
          end)) in
  TypeOrm.save env user.

Definition findAll (page limit : option number)
  (filters : option DateRangeFilterDto.t) : M (list User.t * Z) :=
  let queryBuilder :=
    TypeOrm.orderBy_createdAt_DESC
      (TypeOrm.select read_columns TypeOrm.createQueryBuilder) in
  let queryBuilder :=
    match filters with
    | Some f => applyDateFilters queryBuilder f
    | None => queryBuilder
    end in
  let queryBuilder :=
    match page, limit with
    | Some page, Some limit =>
        if (Number.truthy page && Number.truthy limit)%bool
        then
          let skip := Number.mul (Number.sub page (Num 1)) limit in
          TypeOrm.take limit (TypeOrm.skip skip queryBuilder)
        else queryBuilder
    | _, _ => queryBuilder
    end in
  TypeOrm.getManyAndCount queryBuilder.

Definition findById (id : string) : M (option User.t) :=
  TypeOrm.findOne [IdIs id] (Some read_columns).

(** [onNotFound] is a callback that never returns: it throws. *)
Definition findByIdOrThrow (id : string) (onNotFound : option Exception) : M User.t :=
  user <- findById id ;;
  match user with
  | Some user => ret user
  | None =>
      match onNotFound with
      | Some e => throw e
      | None => throw (BadRequestException "cannot find user")
      end
  end.

Definition findByEmail (email : string) : M (option User.t) :=
  TypeOrm.findOne [EmailIs email] None.

(** Find a user by their linked wallet address (case-insensitive). *)
Definition findByWalletAddress (walletAddress : string) : M (option User.t) :=
  TypeOrm.findOne [WalletAddressIs (toLowerCase walletAddress)] (Some read_columns).

Definition update (env : Env) (id : string) (updateUserDto : UpdateUserDto.t)
  : M (option User.t) :=
  TypeOrm.update env id updateUserDto ;;
  findById id.

(** Persist only the walletAddress field for an existing user. *)
Definition linkWallet (env : Env) (id : string) (walletAddress : string)
  : M (option User.t) :=
  TypeOrm.update env id
    (UpdateUserDto.mk None None None None (Some (toLowerCase walletAddress))) ;;
  findById id.

Definition delete (id : string) : M bool :=
  result <- TypeOrm.delete id ;;
  ret (or_else (TypeOrm.affected result) 0 >? 0).

Definition exists_ (id : string) : M bool :=
  count <- TypeOrm.count [IdIs id] ;;
  ret (count >? 0).

Definition emailExists (email : string) (excludeId : option string) : M bool :=
  let query := TypeOrm.where_ (EmailIs email) TypeOrm.createQueryBuilder in
  let query :=
    match excludeId with
    | Some excludeId =>
        if truthy excludeId then TypeOrm.andWhere (IdIsNot excludeId) query else query
    | None => query
    end in
  count <- TypeOrm.getCount query ;;
  ret (count >? 0).

Definition walletExists (walletAddress : string) (excludeId : option string) : M bool :=
  let query :=
    TypeOrm.where_ (WalletAddressIs (toLowerCase walletAddress))
      TypeOrm.createQueryBuilder in
  let query :=
    match excludeId with
    | Some excludeId =>
        if truthy excludeId then TypeOrm.andWhere (IdIsNot excludeId) query else query
    | None => query
    end in
  count <- TypeOrm.getCount query ;;
  ret (count >? 0).

End Repository.
End UsersRepository.

(* ===================================================================== *)
(** ** users.service.ts *)
(* ===================================================================== *)

Module UsersService.
Section Service.
Context {P : Platform}.

Definition toResponseDto (user : User.t) : UserResponseDto :=
  [ ("id", JString (User.id user));
    ("name", JString (User.name user));
    ("email", JString (User.email user));
    ("role", JRole (User.role user));
    ("walletAddress",
      match User.walletAddress user with
      | Some w => JString w
      | None => JNull
      end);
    ("createdAt", JDate (User.createdAt user));
    ("updatedAt", JDate (User.updatedAt user)) ].

Definition create (env : Env) (createUserDto : CreateUserDto.t) : M UserResponseDto :=
  emailExists <- UsersRepository.emailExists (CreateUserDto.email createUserDto) None ;;
  (if emailExists : bool
   then throw (ConflictException "Email already exists")
   else ret tt) ;;
  (* Validate wallet uniqueness if provided at creation time *)
  match CreateUserDto.walletAddress createUserDto with
  | Some w =>
      if truthy w
      then
        walletExists <- UsersRepository.walletExists w None ;;
        if walletExists : bool
        then throw (ConflictException
                      "Wallet address is already linked to another account")
        else ret tt
      else ret tt
  | None => ret tt
  end ;;
  let hashedPassword :=
    bcrypt_hash (CreateUserDto.password createUserDto) PASSWORD_SALT_ROUNDS (salt env) in
  saved <- UsersRepository.create env
             (CreateUserDto.mk
                (CreateUserDto.name createUserDto)
                (CreateUserDto.email createUserDto)
                hashedPassword
                (CreateUserDto.role createUserDto)
                (CreateUserDto.walletAddress createUserDto)) ;;
  ret (toResponseDto saved).

Definition findAll (page limit : option number) : M (list UserResponseDto * Z) :=
  '(users, total) <- UsersRepository.findAll page limit None ;;
  ret (map toResponseDto users, total).

Definition findById (id : string) : M UserResponseDto :=
  if negb (truthy id) then throw (BadRequestException "User ID is required") else
  user <- UsersRepository.findById id ;;
  match user with
  | None => throw (NotFoundException ("User with ID " ++ id ++ " not found"))
  | Some user => ret (toResponseDto user)
  end.

(** The source overwrites [updateUserDto.password] in place; the changed
    input is [updateUserDto'] here. *)
Definition update (env : Env) (id : string) (updateUserDto : UpdateUserDto.t)
  : M UserResponseDto :=
  if negb (truthy id) then throw (BadRequestException "User ID is required") else
  userExists <- UsersRepository.exists_ id ;;
  (if userExists : bool then ret tt
   else throw (NotFoundException ("User with ID " ++ id ++ " not found"))) ;;
  match UpdateUserDto.email updateUserDto with
  | Some email =>
      if truthy email
      then
        emailExists <- UsersRepository.emailExists email (Some id) ;;
        if emailExists : bool
        then throw (ConflictException "Email already exists")
        else ret tt
      else ret tt
  | None => ret tt
  end ;;
  let updateUserDto' :=
    match UpdateUserDto.password updateUserDto with
    | Some password =>
        if truthy password
        then UpdateUserDto.mk
               (UpdateUserDto.name updateUserDto)
               (UpdateUserDto.email updateUserDto)
               (Some (bcrypt_hash password PASSWORD_SALT_ROUNDS (salt env)))
               (UpdateUserDto.role updateUserDto)
               (UpdateUserDto.walletAddress updateUserDto)
        else updateUserDto
    | None => updateUserDto
    end in
  updatedUser <- UsersRepository.update env id updateUserDto' ;;
  match updatedUser with
  | None => throw (NotFoundException ("User with ID " ++ id ++ " not found"))
  | Some updatedUser => ret (toResponseDto updatedUser)
  end.

Definition delete (id : string) : M unit :=
  if negb (truthy id) then throw (BadRequestException "User ID is required") else
  userExists <- UsersRepository.exists_ id ;;
  (if userExists : bool then ret tt
   else throw (NotFoundException ("User with ID " ++ id ++ " not found"))) ;;
  deleted <- UsersRepository.delete id ;;
  if deleted : bool then ret tt
  else throw (NotFoundException ("User with ID " ++ id ++ " not found")).

(** Fetch a user by their linked wallet address.  Address comparison is
    case-insensitive (stored lowercase in DB). *)
Definition findByWalletAddress (walletAddress : string) : M UserResponseDto :=
  if negb (truthy walletAddress)
  then throw (BadRequestException "Wallet address is required") else
  user <- UsersRepository.findByWalletAddress walletAddress ;;
  match user with
  | None =>
      throw (NotFoundException ("No user found with wallet address " ++ walletAddress))
  | Some user => ret (toResponseDto user)
  end.

(** Link a Web3 wallet address to an existing user profile.  Ensures the
    address is not already taken by another account. *)
Definition linkWallet (env : Env) (id : string) (dto : LinkWalletDto.t)
  : M UserResponseDto :=
  let walletAddress := LinkWalletDto.walletAddress dto in
  if negb (truthy id) then throw (BadRequestException "User ID is required") else
  (* Ensure the target user exists *)
  userExists <- UsersRepository.exists_ id ;;
  (if userExists : bool then ret tt
   else throw (NotFoundException ("User with ID " ++ id ++ " not found"))) ;;
  (* Prevent duplicate wallet links across accounts *)
  walletTaken <- UsersRepository.walletExists walletAddress (Some id) ;;
  (if walletTaken : bool
   then throw (ConflictException "Wallet address is already linked to another account")
   else ret tt) ;;
  updatedUser <- UsersRepository.linkWallet env id walletAddress ;;
  match updatedUser with
  | None => throw (NotFoundException ("User with ID " ++ id ++ " not found"))
  | Some updatedUser => ret (toResponseDto updatedUser)
  end.

End Service.
End UsersService.

(* ===================================================================== *)
(** ** users.controller.ts *)
(* ===================================================================== *)

Module UsersController.
Section Controller.
Context {P : Platform}.

Record Page : Type := mkPage {
  message : string;
  data : list UserResponseDto;
  total : Z;
  page : number;
  limit : number
}.

(** GET /users: an absent query parameter takes its default.  The
    validation pipe of the class checks objects built from a DTO class; the
    two parameters are plain strings and reach the handler as they came. *)
Definition findAll (page limit : option string) : M Page :=
  let page := or_else page "1" in
  let limit := or_else limit "10" in
  let pageNumber := parseInt page in
  let limitNumber := parseInt limit in
  '(users, total) <- UsersService.findAll (Some pageNumber) (Some limitNumber) ;;
  ret (mkPage "Users retrieved successfully" users total pageNumber limitNumber).

End Controller.
End UsersController.

(* ===================================================================== *)
(** ** Vocabulary of the statements *)
(* ===================================================================== *)

(** What a request leaves behind, and what it answers. *)
Definition answer {A} (m : M A) (db : Db) : Result A := fst (m db).
Definition rows_after {A} (m : M A) (db : Db) : list User.t := table (snd (m db)).
Definition journal_after {A} (m : M A) (db : Db) : list Statement := journal (snd (m db)).

(** The store after further statements were issued against it. *)
Definition logged (db : Db) (ss : list Statement) : Db :=
  mkDb (table db) (journal db ++ ss).

Definition user_exists (i : string) (t : list User.t) : Prop :=
  exists u, In u t /\ User.id u = i.

Definition email_taken (e : string) (t : list User.t) : Prop :=
  exists u, In u t /\ User.email u = e.

Definition email_taken_by_other (e i : string) (t : list User.t) : Prop :=
  exists u, In u t /\ User.email u = e /\ User.id u <> i.

(** Wallet addresses are compared through their lowercase form. *)
Definition wallet_taken (a : string) (t : list User.t) : Prop :=
  exists u, In u t /\ User.walletAddress u = Some (toLowerCase a).

Definition wallet_taken_by_other (a i : string) (t : list User.t) : Prop :=
  exists u, In u t /\ User.walletAddress u = Some (toLowerCase a) /\ User.id u <> i.




(** Every wallet address in the table is in lowercase form. *)
Definition stored_lowercase (t : list User.t) : Prop :=
  forall u w, In u t -> User.walletAddress u = Some w -> toLowerCase w = w.

(** What [linkWallet] asks the store to set. *)
Definition wallet_only (a : string) : UpdateUserDto.t :=
  UpdateUserDto.mk None None None None (Some (toLowerCase a)).

(** The keys of the public response shape. *)
Definition response_keys : list string :=
  ["id"; "name"; "email"; "role"; "walletAddress"; "createdAt"; "updatedAt"].

(** The public response shape: exactly the seven keys, and no [password]
    property. *)
Definition public_shape (r : UserResponseDto) : Prop :=
  keys r = response_keys /\ prop "password" r = None.

(** [returns m Q]: whenever [m] returns, its value satisfies [Q]. *)
Definition returns {A} (m : M A) (Q : A -> Prop) : Prop :=
  forall db a db', m db = (Ok a, db') -> Q a.

(** Most recent first. *)
Definition newer_or_same (a b : User.t) : Prop := User.createdAt b <= User.createdAt a.

(** A query string [parseInt] can read a number from: optional white space,
    an optional sign, then a decimal digit. *)
Definition leading_digit (s : string) : bool :=
  match s with
  | String c _ => match digit_value c with Some _ => true | None => false end
  | EmptyString => false
  end.

Definition numeric_prefix (s : string) : bool :=
  leading_digit (snd (split_sign (trim_start s))).

(** The reading of "the value parsed from [page] enters the offset
    computation": the SELECT that GET /users issues carries
    [skip = (page - 1) * limit]. *)
Definition offset_computed_from {P : Platform} (page limit : string) (db : Db) : Prop :=
  exists qb,
    In (Select qb)
      (journal_after (UsersController.findAll (Some page) (Some limit)) db)
    /\ qb_skip qb
       = Some (Number.mul (Number.sub (parseInt page) (Num 1)) (parseInt limit)).

(** The SELECT of a listing without OFFSET and LIMIT. *)
Definition select_all : SelectQueryBuilder :=
  mkQB (Some UsersRepository.read_columns) true [] None None.

(** *** Further vocabulary *)

(** The input [update] hands to the repository: a provided password has
    been replaced by its hash. *)
Definition rehashed {P : Platform} (env : Env) (dto : UpdateUserDto.t) : UpdateUserDto.t :=
  match UpdateUserDto.password dto with
  | Some password =>
      if truthy password
      then UpdateUserDto.mk (UpdateUserDto.name dto) (UpdateUserDto.email dto)
             (Some (bcrypt_hash password PASSWORD_SALT_ROUNDS (salt env)))
             (UpdateUserDto.role dto) (UpdateUserDto.walletAddress dto)
      else dto
  | None => dto
  end.

(** A row as a read with the repository's column list returns it. *)
Definition without_password (u : User.t) : User.t :=
  User.mk (User.id u) (User.name u) (User.email u) None (User.role u)
    (User.walletAddress u) (User.createdAt u) (User.updatedAt u).

(** [createdAt] lies within the bounds the filter gives (an absent or empty
    bound is no bound). *)
Definition in_range {P : Platform} (f : DateRangeFilterDto.t) (u : User.t) : Prop :=
  (forall s, DateRangeFilterDto.startDate f = Some s -> s <> "" ->
             Date_parse s <= User.createdAt u)
  /\ (forall s, DateRangeFilterDto.endDate f = Some s -> s <> "" ->
                User.createdAt u <= Date_parse s).

(** The records a listing answers with (none when it throws). *)
Definition listing {P : Platform} (page limit : option number) (db : Db)
  : list UserResponseDto :=
  match answer (UsersService.findAll page limit) db with
  | Ok (users, _) => users
  | Throw _ => []
  end.

(** A probe that answers, and answers whether [Q] holds; a call that the
    store refuses because an id it was given is not a uuid. *)
Definition decides (m : M bool) (db : Db) (Q : Prop) : Prop :=
  exists b, answer m db = Ok b /\ (b = true <-> Q).

Definition refused {A} (m : M A) (db : Db) : Prop :=
  answer m db = Throw TypeOrm.invalid_uuid.

(** A statement that changes rows. *)
Definition writes (s : Statement) : bool :=
  match s with
  | Insert _ | Update _ _ | Delete _ => true
  | Select _ | Count _ | FindOne _ _ => false
  end.

(** A computation that leaves the rows as they are, whatever it answers. *)
Definition keeps_table {A} (m : M A) : Prop :=
  forall db, rows_after m db = table db.

(** Statements that change no row. *)
Definition reads_only (ss : list Statement) : Prop :=
  forallb (fun s => negb (writes s)) ss = true.

(** The three failures the service raises itself. *)
Definition raised_by_service (e : Exception) : Prop :=
  match e with
  | BadRequestException _ | ConflictException _ | NotFoundException _ => True
  | QueryFailedError _ => False
  end.

(** A call that failed with [e] without changing a row and, when the
    service raised [e] itself, without issuing a statement that writes. *)
Definition nothing_written {A} (m : M A) (db : Db) (e : Exception) : Prop :=
  rows_after m db = table db
  /\ (raised_by_service e ->
      exists reads, reads_only reads
                    /\ journal_after m db = (journal db ++ reads)%list).

(* ===================================================================== *)
(** ** Sample data *)
(* ===================================================================== *)

(** The uuid input of PostgreSQL, the store the repository's documentation
    names, for the sample platform: sixteen bytes of two hexadecimal digits
    each, in either case; a hyphen may follow any group of four digits but
    the last, and the whole may stand in braces.  The key is printed in
    lower case, in groups of 8, 4, 4, 4 and 12 digits. *)
Module Postgres.

Definition hex_digit (c : ascii) : option ascii :=
  let n := nat_of_ascii c in
  if (Nat.leb 48 n && Nat.leb n 57)%bool then Some c
  else if (Nat.leb 97 n && Nat.leb n 102)%bool then Some c
  else if (Nat.leb 65 n && Nat.leb n 70)%bool then Some (ascii_of_nat (n + 32))
  else None.

(** [todo] bytes are still to be read. *)
Fixpoint read_bytes (todo : nat) (s : string) : option (string * string) :=
  match todo with
  | O => Some (EmptyString, s)
  | S todo' =>
      match s with
      | String a (String b r) =>
          match hex_digit a, hex_digit b with
          | Some x, Some y =>
              let i := (15 - todo')%nat in
              let r :=
                match r with
                | String "-" r' => if (Nat.odd i && Nat.ltb i 15)%bool then r' else r
                | _ => r
                end in
              match read_bytes todo' r with
              | Some (digits, rest) => Some (String x (String y digits), rest)
              | None => None
              end
          | _, _ => None
          end
      | _ => None
      end
  end.

Definition uuid_out (digits : string) : string :=
  substring 0 8 digits ++ "-" ++ substring 8 4 digits ++ "-"
  ++ substring 12 4 digits ++ "-" ++ substring 16 4 digits ++ "-"
  ++ substring 20 12 digits.

Definition uuid_in (s : string) : option string :=
  let braces := match s with String "{" _ => true | _ => false end in
  let body := match s with String "{" r => r | _ => s end in
  match read_bytes 16 body with
  | Some (digits, rest) =>
      let rest :=
        if braces then match rest with String "}" r => r | _ => "?" end
        else rest in
      match rest with
      | EmptyString => Some (uuid_out digits)
      | String _ _ => None
      end
  | None => None
  end.

End Postgres.

Module Sample.

Definition platform : Platform :=
  {| bcrypt_hash := fun data _ salt => "$2b$" ++ salt ++ "$" ++ data;
     PASSWORD_SALT_ROUNDS := 10;
     Date_parse := fun _ => 0;
     uuid_in := Postgres.uuid_in |}.

Definition ann_id : string := "a0000000-0000-4000-8000-000000000001".
Definition bob_id : string := "a0000000-0000-4000-8000-000000000002".
Definition cy_id : string := "a0000000-0000-4000-8000-000000000003".
Definition dan_id : string := "a0000000-0000-4000-8000-000000000004".
Definition eve_id : string := "a0000000-0000-4000-8000-000000000005".

(** A uuid that no sample row has, and a text that is not a uuid. *)
Definition nobody_id : string := "a0000000-0000-4000-8000-000000000009".
Definition not_a_uuid : string := "zz".

(** Ann's key in another spelling. *)
Definition ann_id_upper : string := "A0000000-0000-4000-8000-000000000001".

Definition ann : User.t :=
  User.mk ann_id "Ann" "ann@x.io" (Some "$2b$s1$secret1") USER (Some "0xabcdef") 100 100.
Definition bob : User.t :=
  User.mk bob_id "Bob" "bob@x.io" (Some "$2b$s2$secret2") ADMIN None 200 200.
Definition cy : User.t :=
  User.mk cy_id "Cy" "cy@x.io" (Some "$2b$s3$secret3") USER None 300 300.

Definition empty : Db := mkDb [] [].
Definition one : Db := mkDb [ann] [].
Definition three : Db := mkDb [ann; bob; cy] [].

Definition env4 : Env (P := platform) := mkEnv (P := platform) dan_id 400 "s4" eq_refl.
Definition env5 : Env (P := platform) := mkEnv (P := platform) eve_id 500 "s5" eq_refl.

Definition dan : CreateUserDto.t :=
  CreateUserDto.mk "Dan" "dan@x.io" "secret4" None (Some "0xABCdef0123").

Definition dan_response : UserResponseDto :=
  [ ("id", JString dan_id); ("name", JString "Dan"); ("email", JString "dan@x.io");
    ("role", JRole USER); ("walletAddress", JString "0xabcdef0123");
    ("createdAt", JDate 400); ("updatedAt", JDate 400) ].

(** The store [one] after Dan was created. *)
Definition after_dan : Db :=
  snd (UsersService.create env4 dan one).

(** A platform whose dates are written as instants. *)
Definition calendar : Platform :=
  {| bcrypt_hash := fun data _ salt => "$2b$" ++ salt ++ "$" ++ data;
     PASSWORD_SALT_ROUNDS := 10;
     Date_parse := fun s => match parseInt s with Num z => z | NaN => 0 end;
     uuid_in := Postgres.uuid_in |}.

Definition between_150_and_250 : DateRangeFilterDto.t :=
  DateRangeFilterDto.mk (Some "150") (Some "250").

Definition rename_ann : UpdateUserDto.t :=
  UpdateUserDto.mk (Some "Anna") None None None None.

Definition beef : LinkWalletDto.t := LinkWalletDto.mk "0xBEEF".

Definition anna_response : UserResponseDto :=
  [ ("id", JString ann_id); ("name", JString "Anna"); ("email", JString "ann@x.io");
    ("role", JRole USER); ("walletAddress", JString "0xabcdef");
    ("createdAt", JDate 100); ("updatedAt", JDate 400) ].

(** The store [three] after Ann was renamed. *)
Definition after_rename : Db :=
  snd (UsersService.update env4 ann_id rename_ann three).

Definition bob_linked : UserResponseDto :=
  [ ("id", JString bob_id); ("name", JString "Bob"); ("email", JString "bob@x.io");
    ("role", JRole ADMIN); ("walletAddress", JString "0xbeef");
    ("createdAt", JDate 200); ("updatedAt", JDate 400) ].

(** The store [three] after Bob linked a wallet. *)
Definition after_link : Db := snd (UsersService.linkWallet env4 bob_id beef three).

(** A request whose generated key is Ann's. *)
Definition env_clash : Env (P := platform) :=
  mkEnv (P := platform) ann_id 400 "s4" eq_refl.

(** A second Dan, with the first one's email. *)
Definition dan_again : CreateUserDto.t :=
  CreateUserDto.mk "Daniel" "dan@x.io" "secret6" (Some ADMIN) None.

(** Ann's address with another spelling of her email. *)
Definition ann_twin : CreateUserDto.t :=
  CreateUserDto.mk "Ann II" "Ann@x.io" "secret5" None None.







End Sample.

(* ===================================================================== *)
(** ** Strings, lists and the monad *)
(* ===================================================================== *)

Lemma truthy_true (s : string) : truthy s = true <-> s <> "".
Proof.
  unfold truthy. rewrite negb_true_iff. split.
  - intros H E. subst s. discriminate H.
  - intros H. apply String.eqb_neq. exact H.
Qed.

Lemma truthy_false (s : string) : truthy s = false <-> s = "".
Proof.
  unfold truthy. rewrite negb_false_iff. apply String.eqb_eq.
Qed.

Lemma toLowerCase_empty (s : string) : toLowerCase s = "" <-> s = "".
Proof.
  destruct s; simpl; split; intros H; try reflexivity; discriminate H.
Qed.

Lemma count_positive (p : User.t -> bool) (t : list User.t) :
  (Z.of_nat (length (filter p t)) >? 0) = existsb p t.
Proof.
  induction t as [|u t IH]; simpl.
  - reflexivity.
  - destruct (p u); simpl.
    + rewrite Z.gtb_ltb. apply Z.ltb_lt. lia.
    + exact IH.
Qed.

Lemma existsb_false_forall (p : User.t -> bool) (t : list User.t) :
  existsb p t = false <-> forall u, In u t -> p u = false.
Proof.
  induction t as [|v t IH]; simpl.
  - split; [intros _ u [] | reflexivity].
  - rewrite orb_false_iff, IH. split.
    + intros [Hv Ht] u [E | Hu]; [subst; exact Hv | apply Ht, Hu].
    + intros H. split; [apply H; left; reflexivity | intros u Hu; apply H; right; exact Hu].
Qed.

Lemma find_app_fresh (p : User.t -> bool) (t : list User.t) (u : User.t) :
  existsb p t = false -> p u = true -> find p (t ++ [u]) = Some u.
Proof.
  intros Ht Hu. induction t as [|v t IH]; simpl in *.
  - rewrite Hu. reflexivity.
  - apply orb_false_iff in Ht. destruct Ht as [Hv Ht].
    rewrite Hv. apply IH, Ht.
Qed.

Lemma find_existsb (p : User.t -> bool) (t : list User.t) :
  existsb p t = match find p t with Some _ => true | None => false end.
Proof.
  induction t as [|v t IH]; simpl; [reflexivity|].
  destruct (p v); simpl; [reflexivity | exact IH].
Qed.

Lemma opt_is_eq (o : option string) (v : string) : opt_is o v = true <-> o = Some v.
Proof.
  destruct o as [s|]; simpl.
  - rewrite String.eqb_eq. split; [intros; subst; reflexivity | intros H; injection H; auto].
  - split; intros H; discriminate H.
Qed.

Example toLowerCase_address : toLowerCase "0xABCdef0123" = "0xabcdef0123".
Proof. reflexivity. Qed.

Example parseInt_white_space :
  parseInt (String (ascii_of_nat 194) (String (ascii_of_nat 160) "2")) = Num 2
  /\ parseInt (String (ascii_of_nat 239)
                 (String (ascii_of_nat 187) (String (ascii_of_nat 191) " 7"))) = Num 7
  /\ parseInt (String (ascii_of_nat 226)
                 (String (ascii_of_nat 128) (String (ascii_of_nat 139) "7"))) = NaN.
Proof. repeat split; reflexivity. Qed.

Example parseInt_samples :
  parseInt "2" = Num 2 /\ parseInt " 10" = Num 10 /\ parseInt "-3" = Num (-3)
  /\ parseInt "12abc" = Num 12 /\ parseInt "abc" = NaN /\ parseInt "" = NaN
  /\ parseInt "-" = NaN.
Proof. repeat split; reflexivity. Qed.

Lemma lower_ascii_idempotent (c : ascii) : lower_ascii (lower_ascii c) = lower_ascii c.
Proof. destruct c as [[] [] [] [] [] [] [] []]; reflexivity. Qed.

Lemma toLowerCase_idempotent (s : string) : toLowerCase (toLowerCase s) = toLowerCase s.
Proof.
  induction s as [|c r IH]; simpl; [reflexivity|].
  rewrite lower_ascii_idempotent, IH. reflexivity.
Qed.




(** The probes, read as statements about the table. *)

Lemma by_id_spec (i : string) (t : list User.t) :
  existsb (matches [IdIs i]) t = true <-> user_exists i t.
Proof.
  rewrite existsb_exists. unfold user_exists, matches. simpl.
  split; intros (u & Hu & H); exists u; split; auto.
  - rewrite andb_true_r in H. apply String.eqb_eq, H.
  - rewrite andb_true_r. apply String.eqb_eq, H.
Qed.

Lemma by_email_spec (e : string) (t : list User.t) :
  existsb (matches [EmailIs e]) t = true <-> email_taken e t.
Proof.
  rewrite existsb_exists. unfold email_taken, matches. simpl.
  split; intros (u & Hu & H); exists u; split; auto.
  - rewrite andb_true_r in H. apply String.eqb_eq, H.
  - rewrite andb_true_r. apply String.eqb_eq, H.
Qed.

Lemma by_email_other_spec (e i : string) (t : list User.t) :
  existsb (matches [EmailIs e; IdIsNot i]) t = true <-> email_taken_by_other e i t.
Proof.
  rewrite existsb_exists. unfold email_taken_by_other, matches. simpl.
  split; intros (u & Hu & H); exists u; split; auto.
  - rewrite andb_true_r in H. apply andb_true_iff in H. destruct H as [H1 H2].
    split; [apply String.eqb_eq, H1 |].
    apply String.eqb_neq. apply negb_true_iff, H2.
  - destruct H as [H1 H2]. rewrite andb_true_r. apply andb_true_iff. split.
    + apply String.eqb_eq, H1.
    + apply negb_true_iff, String.eqb_neq, H2.
Qed.

Lemma by_wallet_spec (a : string) (t : list User.t) :
  existsb (matches [WalletAddressIs (toLowerCase a)]) t = true <-> wallet_taken a t.
Proof.
  rewrite existsb_exists. unfold wallet_taken, matches. simpl.
  split; intros (u & Hu & H); exists u; split; auto.
  - rewrite andb_true_r in H. apply opt_is_eq, H.
  - rewrite andb_true_r. apply opt_is_eq, H.
Qed.

Lemma by_wallet_other_spec (a i : string) (t : list User.t) :
  existsb (matches [WalletAddressIs (toLowerCase a); IdIsNot i]) t = true
  <-> wallet_taken_by_other a i t.
Proof.
  rewrite existsb_exists. unfold wallet_taken_by_other, matches. simpl.
  split; intros (u & Hu & H); exists u; split; auto.
  - rewrite andb_true_r in H. apply andb_true_iff in H. destruct H as [H1 H2].
    split; [apply opt_is_eq, H1 |].
    apply String.eqb_neq. apply negb_true_iff, H2.
  - destruct H as [H1 H2]. rewrite andb_true_r. apply andb_true_iff. split.
    + apply opt_is_eq, H1.
    + apply negb_true_iff, String.eqb_neq, H2.
Qed.

Lemma not_true_false (b : bool) (Q : Prop) : (b = true <-> Q) -> ~ Q -> b = false.
Proof.
  intros H N. destruct b; [exfalso; apply N, H; reflexivity | reflexivity].
Qed.

(* ===================================================================== *)
(** ** The repository, one call at a time *)
(* ===================================================================== *)

Ltac run := unfold bind, issue, rows, write, ret, throw, logged; simpl.

Section Properties.
Context {P : Platform}.

Lemma logged_logged (db : Db) (a b : list Statement) :
  logged (logged db a) b = logged db (a ++ b).
Proof. unfold logged. simpl. rewrite <- app_assoc. reflexivity. Qed.

Lemma table_logged (db : Db) (ss : list Statement) : table (logged db ss) = table db.
Proof. reflexivity. Qed.

(** A call that names a user by [i] asks the store about the key [k] that
    [i] spells, and is refused when [i] spells none. *)

Lemma exists_run (i k : string) (db : Db) :
  uuid_in i = Some k ->
  UsersRepository.exists_ i db
  = (Ok (existsb (matches [IdIs k]) (table db)), logged db [Count [IdIs i]]).
Proof.
  intros Hk. unfold UsersRepository.exists_, TypeOrm.count.
  cbn [TypeOrm.read_where TypeOrm.read_cond]. rewrite Hk. cbn [option_map]. run.
  rewrite count_positive. reflexivity.
Qed.

Lemma exists_refused (i : string) (db : Db) :
  uuid_in i = None ->
  UsersRepository.exists_ i db
  = (Throw TypeOrm.invalid_uuid, logged db [Count [IdIs i]]).
Proof.
  intros Hk. unfold UsersRepository.exists_, TypeOrm.count.
  cbn [TypeOrm.read_where TypeOrm.read_cond]. rewrite Hk. reflexivity.
Qed.

Lemma emailExists_run (e : string) (db : Db) :
  UsersRepository.emailExists e None db
  = (Ok (existsb (matches [EmailIs e]) (table db)), logged db [Count [EmailIs e]]).
Proof.
  unfold UsersRepository.emailExists, TypeOrm.getCount, TypeOrm.count. run.
  rewrite count_positive. reflexivity.
Qed.

Lemma emailExists_other_run (e i k : string) (db : Db) :
  i <> "" -> uuid_in i = Some k ->
  UsersRepository.emailExists e (Some i) db
  = (Ok (existsb (matches [EmailIs e; IdIsNot k]) (table db)),
     logged db [Count [EmailIs e; IdIsNot i]]).
Proof.
  intros Hi Hk. apply truthy_true in Hi.
  unfold UsersRepository.emailExists, TypeOrm.getCount, TypeOrm.count.
  rewrite Hi.
  cbn [TypeOrm.andWhere TypeOrm.where_ TypeOrm.createQueryBuilder qb_where app
       TypeOrm.read_where TypeOrm.read_cond].
  rewrite Hk. cbn [option_map]. run. rewrite count_positive. reflexivity.
Qed.

Lemma walletExists_run (a : string) (db : Db) :
  UsersRepository.walletExists a None db
  = (Ok (existsb (matches [WalletAddressIs (toLowerCase a)]) (table db)),
     logged db [Count [WalletAddressIs (toLowerCase a)]]).
Proof.
  unfold UsersRepository.walletExists, TypeOrm.getCount, TypeOrm.count. run.
  rewrite count_positive. reflexivity.
Qed.

Lemma walletExists_other_run (a i k : string) (db : Db) :
  i <> "" -> uuid_in i = Some k ->
  UsersRepository.walletExists a (Some i) db
  = (Ok (existsb (matches [WalletAddressIs (toLowerCase a); IdIsNot k]) (table db)),
     logged db [Count [WalletAddressIs (toLowerCase a); IdIsNot i]]).
Proof.
  intros Hi Hk. apply truthy_true in Hi.
  unfold UsersRepository.walletExists, TypeOrm.getCount, TypeOrm.count.
  rewrite Hi.
  cbn [TypeOrm.andWhere TypeOrm.where_ TypeOrm.createQueryBuilder qb_where app
       TypeOrm.read_where TypeOrm.read_cond].
  rewrite Hk. cbn [option_map]. run. rewrite count_positive. reflexivity.
Qed.

(** A probe whose [excludeId] is not a uuid is refused by the store. *)
Lemma probes_refused (x i : string) (db : Db) :
  i <> "" -> uuid_in i = None ->
  UsersRepository.emailExists x (Some i) db
  = (Throw TypeOrm.invalid_uuid, logged db [Count [EmailIs x; IdIsNot i]])
  /\ UsersRepository.walletExists x (Some i) db
     = (Throw TypeOrm.invalid_uuid,
        logged db [Count [WalletAddressIs (toLowerCase x); IdIsNot i]]).
Proof.
  intros Hi Hk. apply truthy_true in Hi.
  unfold UsersRepository.emailExists, UsersRepository.walletExists,
    TypeOrm.getCount, TypeOrm.count.
  rewrite Hi.
  cbn [TypeOrm.andWhere TypeOrm.where_ TypeOrm.createQueryBuilder qb_where app
       TypeOrm.read_where TypeOrm.read_cond].
  rewrite Hk. split; reflexivity.
Qed.

Lemma findById_run (i k : string) (db : Db) :
  uuid_in i = Some k ->
  UsersRepository.findById i db
  = (Ok (option_map (TypeOrm.project (Some UsersRepository.read_columns))
           (find (matches [IdIs k]) (table db))),
     logged db [FindOne [IdIs i] (Some UsersRepository.read_columns)]).
Proof.
  intros Hk. unfold UsersRepository.findById, TypeOrm.findOne.
  cbn [TypeOrm.read_where TypeOrm.read_cond]. rewrite Hk. reflexivity.
Qed.

Lemma findById_refused (i : string) (db : Db) :
  uuid_in i = None ->
  UsersRepository.findById i db
  = (Throw TypeOrm.invalid_uuid,
     logged db [FindOne [IdIs i] (Some UsersRepository.read_columns)]).
Proof.
  intros Hk. unfold UsersRepository.findById, TypeOrm.findOne.
  cbn [TypeOrm.read_where TypeOrm.read_cond]. rewrite Hk. reflexivity.
Qed.

Lemma findByWalletAddress_run (a : string) (db : Db) :
  UsersRepository.findByWalletAddress a db
  = (Ok (option_map (TypeOrm.project (Some UsersRepository.read_columns))
           (find (matches [WalletAddressIs (toLowerCase a)]) (table db))),
     logged db [FindOne [WalletAddressIs (toLowerCase a)]
                  (Some UsersRepository.read_columns)]).
Proof. reflexivity. Qed.

(** The response is built from the columns every read keeps. *)
Lemma toResponseDto_project (sel : option (list Column)) (u : User.t) :
  UsersService.toResponseDto (TypeOrm.project sel u) = UsersService.toResponseDto u.
Proof.
  unfold TypeOrm.project. destruct (TypeOrm.selects sel col_password); reflexivity.
Qed.

(* ===================================================================== *)
(** ** The service *)
(* ===================================================================== *)

(** The insert of a row whose key, email and wallet address are all free
    passes the constraints. *)
Lemma insert_allowed (u : User.t) (t : list User.t) :
  ~ user_exists (User.id u) t ->
  ~ email_taken (User.email u) t ->
  (forall w, User.walletAddress u = Some w ->
             forall v, In v t -> User.walletAddress v <> Some w) ->
  TypeOrm.insert_violation u t = false.
Proof.
  intros Hid Hemail Hwallet. unfold TypeOrm.insert_violation.
  apply existsb_false_forall. intros v Hv.
  apply orb_false_iff; split; [apply orb_false_iff; split|].
  - apply String.eqb_neq. intros E. apply Hid. exists v. auto.
  - apply String.eqb_neq. intros E. apply Hemail. exists v. auto.
  - unfold TypeOrm.wallet_clash.
    destruct (User.walletAddress v) as [x|] eqn:Ev; [|reflexivity].
    destruct (User.walletAddress u) as [y|] eqn:Eu; [|reflexivity].
    apply String.eqb_neq. intros E. subst y.
    apply (Hwallet x eq_refl v Hv). exact Ev.
Qed.

Lemma save_run (env : Env) (e : CreateUserDto.t) (db : Db) :
  let u := User.mk (uuid env) (CreateUserDto.name e) (CreateUserDto.email e)
             (Some (CreateUserDto.password e)) (or_else (CreateUserDto.role e) USER)
             (CreateUserDto.walletAddress e) (now env) (now env) in
  TypeOrm.save env e db
  = if TypeOrm.insert_violation u (table db)
    then (Throw (QueryFailedError "duplicate key value violates unique constraint"),
          logged db [Insert u])
    else (Ok u, mkDb (table db ++ [u]) (journal db ++ [Insert u])).
Proof.
  intros u. unfold TypeOrm.save. fold u. run.
  destruct (TypeOrm.insert_violation u (table db)); reflexivity.
Qed.

(** With the email and the wallet address free and an unused key from the
    store, [create] appends the row and answers with its public shape. *)
Lemma create_succeeds (env : Env) (dto : CreateUserDto.t) (db : Db) :
  let t := table db in
  let call := UsersService.create env dto in
  ~ email_taken (CreateUserDto.email dto) t ->
  (forall w, CreateUserDto.walletAddress dto = Some w -> w <> "" ->
             ~ wallet_taken w t) ->
  ~ user_exists (uuid env) t ->
  exists saved,
    answer call db = Ok (UsersService.toResponseDto saved)
    /\ rows_after call db = (t ++ [saved])%list
    /\ User.id saved = uuid env
    /\ User.name saved = CreateUserDto.name dto
    /\ User.email saved = CreateUserDto.email dto
    /\ User.password saved
       = Some (bcrypt_hash (CreateUserDto.password dto) PASSWORD_SALT_ROUNDS (salt env))
    /\ User.role saved = or_else (CreateUserDto.role dto) USER
    /\ (forall w, CreateUserDto.walletAddress dto = Some w -> w <> "" ->
                  User.walletAddress saved = Some (toLowerCase w))
    /\ (truthy_opt (CreateUserDto.walletAddress dto) = false ->
        User.walletAddress saved = None).
Proof.
  intros t call He' Hfree Hid. subst call.
  unfold answer, rows_after, UsersService.create, bind, ret, throw.
  rewrite emailExists_run. cbv beta iota. rewrite ?table_logged. fold t.
  assert (He := not_true_false (by_email_spec _ _) He').
  rewrite He. cbv beta iota.
  set (h := bcrypt_hash (CreateUserDto.password dto) PASSWORD_SALT_ROUNDS (salt env)).
  unfold UsersRepository.create, TypeOrm.create.
  cbn [CreateUserDto.walletAddress CreateUserDto.name CreateUserDto.email
       CreateUserDto.password CreateUserDto.role].
  destruct (CreateUserDto.walletAddress dto) as [w|] eqn:Hw.
  + destruct (truthy w) eqn:Htw.
    * assert (Hne : w <> "") by (apply truthy_true; exact Htw).
      rewrite walletExists_run. cbv beta iota. rewrite ?table_logged. fold t.
      rewrite (not_true_false (by_wallet_spec _ _) (Hfree w eq_refl Hne)).
      cbv beta iota. rewrite save_run. rewrite ?table_logged. fold t.
      rewrite insert_allowed.
      -- eexists. simpl. repeat split; try reflexivity.
         ++ intros w' E _. injection E as <-. reflexivity.
         ++ intros E. rewrite Htw in E. discriminate E.
      -- exact Hid.
      -- exact He'.
      -- simpl. intros w' E v Hv Ev. injection E as <-.
         apply (Hfree w eq_refl Hne). exists v. auto.
    * cbv beta iota. rewrite save_run. rewrite ?table_logged. fold t.
      rewrite insert_allowed.
      -- eexists. simpl. repeat split; try reflexivity.
         intros w' E Hne. injection E as <-. apply truthy_true in Hne.
         rewrite Hne in Htw. discriminate Htw.
      -- exact Hid.
      -- exact He'.
      -- simpl. intros w' E. discriminate E.
  + cbv beta iota. rewrite save_run. rewrite ?table_logged. fold t.
    rewrite insert_allowed.
    -- eexists. simpl. repeat split; try reflexivity.
       intros w' E. discriminate E.
    -- exact Hid.
    -- exact He'.
    -- simpl. intros w' E. discriminate E.
Qed.


(** *** Whatever a call returns *)

Lemma returns_ret {A} (a : A) (Q : A -> Prop) : Q a -> returns (ret a) Q.
Proof. intros H db b db' E. injection E as <- _. exact H. Qed.

Lemma returns_throw {A} (e : Exception) (Q : A -> Prop) : returns (throw e) Q.
Proof. intros db b db' E. discriminate E. Qed.

Lemma returns_bind {A B} (m : M A) (k : A -> M B) (Q : B -> Prop) :
  (forall a, returns (k a) Q) -> returns (bind m k) Q.
Proof.
  intros H db b db' E. unfold bind in E.
  destruct (m db) as [[a|e] db1]; [|discriminate E].
  exact (H a db1 b db' E).
Qed.

Ltac returns_steps :=
  repeat first
    [ apply returns_throw
    | apply returns_bind; intros ?; cbv beta
    | match goal with
      | |- returns (if ?b then _ else _) _ => destruct b
      | |- returns (match ?x with _ => _ end) _ => destruct x
      end ].

Lemma toResponseDto_public (u : User.t) : public_shape (UsersService.toResponseDto u).
Proof. split; reflexivity. Qed.

(** The response does not depend on the stored password. *)
Lemma toResponseDto_ignores_password (u : User.t) (p : option string) :
  UsersService.toResponseDto
    (User.mk (User.id u) (User.name u) (User.email u) p (User.role u)
       (User.walletAddress u) (User.createdAt u) (User.updatedAt u))
  = UsersService.toResponseDto u.
Proof. reflexivity. Qed.

(** C2.  Every service operation that returns user data returns the public
    response shape: the object has exactly the keys id, name, email, role,
    walletAddress, createdAt and updatedAt, and so no password property,
    plaintext or hashed. *)
Theorem responses_omit_password :
  (forall env dto db r,
      answer (UsersService.create env dto) db = Ok r -> public_shape r)
  /\ (forall page limit db rs total,
         answer (UsersService.findAll page limit) db = Ok (rs, total) ->
         Forall public_shape rs)
  /\ (forall id db r,
         answer (UsersService.findById id) db = Ok r -> public_shape r)
  /\ (forall env id dto db r,
         answer (UsersService.update env id dto) db = Ok r -> public_shape r)
  /\ (forall env id dto db r,
         answer (UsersService.linkWallet env id dto) db = Ok r -> public_shape r)
  /\ (forall a db r,
         answer (UsersService.findByWalletAddress a) db = Ok r -> public_shape r).
Proof.
  assert (lift : forall A (m : M A) (Q : A -> Prop),
             returns m Q -> forall db a, answer m db = Ok a -> Q a).
  { intros A m Q H db a E. unfold answer in E.
    destruct (m db) as [x db'] eqn:Em. simpl in E. subst x. exact (H db a db' Em). }
  refine (conj _ (conj _ (conj _ (conj _ (conj _ _))))).
  - intros env dto db. apply lift. unfold UsersService.create.
    returns_steps; apply returns_ret, toResponseDto_public.
  - intros page limit db rs total E. revert E.
    apply (lift _ (UsersService.findAll page limit)
             (fun x => Forall public_shape (fst x)) ).
    unfold UsersService.findAll. returns_steps. apply returns_ret. simpl.
    apply Forall_map, Forall_forall. intros u _. apply toResponseDto_public.
  - intros id db. apply lift. unfold UsersService.findById.
    returns_steps; apply returns_ret, toResponseDto_public.
  - intros env id dto db. apply lift. unfold UsersService.update.
    returns_steps; apply returns_ret, toResponseDto_public.
  - intros env id dto db. apply lift. unfold UsersService.linkWallet.
    returns_steps; apply returns_ret, toResponseDto_public.
  - intros a db. apply lift. unfold UsersService.findByWalletAddress.
    returns_steps; apply returns_ret, toResponseDto_public.
Qed.

(** *** After a successful [create] *)

Lemma create_returned (env : Env) (dto : CreateUserDto.t) (db : Db)
  (r : UserResponseDto) (db' : Db) :
  UsersService.create env dto db = (Ok r, db') ->
  exists saved,
    r = UsersService.toResponseDto saved
    /\ table db' = (table db ++ [saved])%list
    /\ User.id saved = uuid env
    /\ TypeOrm.insert_violation saved (table db) = false
    /\ User.walletAddress saved
       = match CreateUserDto.walletAddress dto with
         | Some w => if truthy w then Some (toLowerCase w) else None
         | None => None
         end.
Proof.
  unfold UsersService.create, bind, ret, throw.
  rewrite emailExists_run. cbv beta iota.
  destruct (existsb _ _); [intros E; discriminate E|]. cbv beta iota.
  unfold UsersRepository.create, TypeOrm.create.
  cbn [CreateUserDto.walletAddress CreateUserDto.name CreateUserDto.email
       CreateUserDto.password CreateUserDto.role].
  assert (fin : forall d : Db,
    (let (r0, db1) :=
       TypeOrm.save env
         (CreateUserDto.mk (CreateUserDto.name dto) (CreateUserDto.email dto)
            (bcrypt_hash (CreateUserDto.password dto) PASSWORD_SALT_ROUNDS (salt env))
            (CreateUserDto.role dto)
            match CreateUserDto.walletAddress dto with
            | Some w => if truthy w then Some (toLowerCase w) else None
            | None => None
            end) d in
     match r0 with
     | Ok a => (Ok (UsersService.toResponseDto a), db1)
     | Throw e => (Throw e, db1)
     end) = (Ok r, db') ->
    table d = table db ->
    exists saved,
      r = UsersService.toResponseDto saved
      /\ table db' = (table db ++ [saved])%list
      /\ User.id saved = uuid env
      /\ TypeOrm.insert_violation saved (table db) = false
      /\ User.walletAddress saved
         = match CreateUserDto.walletAddress dto with
           | Some w => if truthy w then Some (toLowerCase w) else None
           | None => None
           end).
  { intros d E Ht. rewrite save_run in E. rewrite Ht in E.
    cbn [CreateUserDto.walletAddress CreateUserDto.name CreateUserDto.email
         CreateUserDto.password CreateUserDto.role] in E.
    match type of E with
    | context [TypeOrm.insert_violation ?u _] => destruct (TypeOrm.insert_violation u (table db)) eqn:Hv
    end; [discriminate E|].
    injection E as <- <-. eexists. repeat split; try reflexivity. exact Hv. }
  destruct (CreateUserDto.walletAddress dto) as [w|] eqn:Hw.
  - destruct (truthy w) eqn:Htw.
    + rewrite walletExists_run. cbv beta iota.
      destruct (existsb _ _); [intros E; discriminate E|]. cbv beta iota.
      intros E. apply (fin _ E). reflexivity.
    + cbv beta iota. intros E. apply (fin _ E). reflexivity.
  - cbv beta iota. intros E. apply (fin _ E). reflexivity.
Qed.

Lemma insert_violation_key (u : User.t) (t : list User.t) :
  TypeOrm.insert_violation u t = false ->
  existsb (matches [IdIs (User.id u)]) t = false.
Proof.
  unfold TypeOrm.insert_violation. rewrite !existsb_false_forall.
  intros H v Hv. specialize (H v Hv).
  apply orb_false_iff in H. destruct H as [H _].
  apply orb_false_iff in H. destruct H as [H _].
  unfold matches. simpl. rewrite H. reflexivity.
Qed.

Lemma insert_violation_wallet (u : User.t) (t : list User.t) (w : string) :
  TypeOrm.insert_violation u t = false ->
  User.walletAddress u = Some w ->
  existsb (matches [WalletAddressIs w]) t = false.
Proof.
  unfold TypeOrm.insert_violation. rewrite !existsb_false_forall.
  intros H Hw v Hv. specialize (H v Hv).
  apply orb_false_iff in H. destruct H as [_ H].
  unfold matches. simpl. rewrite andb_true_r.
  rewrite Hw in H. unfold TypeOrm.wallet_clash in H. unfold opt_is.
  destruct (User.walletAddress v); [exact H | reflexivity].
Qed.

(** C3.  A wallet address given to [create] is stored in its lowercase
    form, and [findByWalletAddress] finds the created user through every
    spelling with the same lowercase form. *)
Theorem wallet_address_case_insensitive (env : Env) (dto : CreateUserDto.t)
  (a : string) (db : Db) (r : UserResponseDto) (db' : Db) :
  CreateUserDto.walletAddress dto = Some a -> a <> "" ->
  UsersService.create env dto db = (Ok r, db') ->
  (exists saved,
      In saved (table db')
      /\ r = UsersService.toResponseDto saved
      /\ User.walletAddress saved = Some (toLowerCase a))
  /\ prop "walletAddress" r = Some (JString (toLowerCase a))
  /\ forall b, toLowerCase b = toLowerCase a ->
               answer (UsersService.findByWalletAddress b) db' = Ok r.
Proof.
  intros Ha Hne E.
  destruct (create_returned _ _ _ E) as (saved & Hr & Ht & Hid & Hv & Hw).
  rewrite Ha in Hw. apply truthy_true in Hne. rewrite Hne in Hw.
  split; [|split].
  - exists saved. rewrite Ht. split; [|split]; auto.
    apply in_or_app. right. left. reflexivity.
  - rewrite Hr. simpl. rewrite Hw. reflexivity.
  - intros b Hb. unfold answer, UsersService.findByWalletAddress.
    assert (Hbne : truthy b = true).
    { apply truthy_true. intros Eb. subst b. simpl in Hb. symmetry in Hb.
      apply (proj1 (toLowerCase_empty a)) in Hb. subst a. discriminate Hne. }
    rewrite Hbne. unfold bind, ret, throw. cbn [negb]. cbv beta iota. rewrite findByWalletAddress_run.
    rewrite Hb, Ht.
    rewrite (@find_app_fresh _ (table db) saved).
    + simpl. rewrite toResponseDto_project. rewrite Hr. reflexivity.
    + apply (insert_violation_wallet _ _ Hv Hw).
    + unfold matches. simpl. rewrite Hw. simpl. rewrite String.eqb_refl. reflexivity.
Qed.

(** C8.  Round trip: the record [create] returns is the record [findById]
    returns for its id (neither carries a password). *)
Theorem create_then_findById (env : Env) (dto : CreateUserDto.t) (db : Db)
  (r : UserResponseDto) (db' : Db) :
  uuid env <> "" ->
  UsersService.create env dto db = (Ok r, db') ->
  prop "id" r = Some (JString (uuid env))
  /\ answer (UsersService.findById (uuid env)) db' = Ok r.
Proof.
  intros Hne E.
  destruct (create_returned _ _ _ E) as (saved & Hr & Ht & Hid & Hv & Hw).
  split.
  - rewrite Hr. simpl. rewrite Hid. reflexivity.
  - unfold answer, UsersService.findById.
    apply truthy_true in Hne. rewrite Hne. unfold bind, ret, throw. cbn [negb].
    cbv beta iota. rewrite (@findById_run _ _ db' (uuid_ok env)). rewrite Ht.
    rewrite (@find_app_fresh _ (table db) saved).
    + simpl. rewrite toResponseDto_project. rewrite Hr. reflexivity.
    + rewrite <- Hid. apply insert_violation_key, Hv.
    + unfold matches. simpl. rewrite Hid, String.eqb_refl. reflexivity.
Qed.

(** *** [delete] *)

Lemma delete_run (i k : string) (db : Db) :
  uuid_in i = Some k ->
  UsersRepository.delete i db
  = (Ok (existsb (matches [IdIs k]) (table db)),
     mkDb (filter (fun u => negb (User.id u =? k)%string) (table db))
       (journal db ++ [Delete i])).
Proof.
  intros Hk. unfold UsersRepository.delete, TypeOrm.delete. rewrite Hk. run.
  rewrite count_positive. f_equal. f_equal.
  induction (table db) as [|u t IH]; simpl; [reflexivity|].
  rewrite andb_true_r, IH. reflexivity.
Qed.


Lemma service_delete_run (i k : string) (db : Db) :
  i <> "" -> uuid_in i = Some k ->
  UsersService.delete i db
  = if existsb (matches [IdIs k]) (table db)
    then (Ok tt,
          mkDb (filter (fun u => negb (User.id u =? k)%string) (table db))
            (journal db ++ [Count [IdIs i]; Delete i]))
    else (Throw (NotFoundException ("User with ID " ++ i ++ " not found")),
          logged db [Count [IdIs i]]).
Proof.
  intros Hne Hk. unfold UsersService.delete.
  apply truthy_true in Hne. rewrite Hne.
  unfold bind, ret, throw. cbn [negb]. cbv beta iota.
  rewrite (@exists_run i k db Hk).
  destruct (existsb (matches [IdIs k]) (table db)) eqn:Hex; cbv beta iota.
  - rewrite (@delete_run i k _ Hk). rewrite table_logged, Hex. cbv beta iota.
    unfold logged. cbn [journal]. rewrite <- app_assoc. reflexivity.
  - reflexivity.
Qed.

(** An id that is not a uuid: the first statement is refused. *)
Lemma service_delete_refused (i : string) (db : Db) :
  i <> "" -> uuid_in i = None ->
  UsersService.delete i db = (Throw TypeOrm.invalid_uuid, logged db [Count [IdIs i]]).
Proof.
  intros Hne Hk. unfold UsersService.delete.
  apply truthy_true in Hne. rewrite Hne.
  unfold bind, ret, throw. cbn [negb]. cbv beta iota.
  rewrite (@exists_refused i db Hk). reflexivity.
Qed.


(** *** [update] *)

Lemma repository_update_run (env : Env) (i k : string) (set : UpdateUserDto.t) (db : Db) :
  uuid_in i = Some k ->
  UsersRepository.update env i set db
  = if TypeOrm.update_violation k set (table db)
    then (Throw (QueryFailedError "duplicate key value violates unique constraint"),
          logged db [Update i set])
    else (Ok (option_map (TypeOrm.project (Some UsersRepository.read_columns))
                (find (matches [IdIs k])
                   (TypeOrm.update_rows k (now env) set (table db)))),
          mkDb (TypeOrm.update_rows k (now env) set (table db))
            (journal db
             ++ [Update i set; FindOne [IdIs i] (Some UsersRepository.read_columns)])).
Proof.
  intros Hk. unfold UsersRepository.update, TypeOrm.update. rewrite Hk.
  unfold bind, issue, rows, write, ret, throw. cbv beta iota. cbn [table journal].
  destruct (TypeOrm.update_violation k set (table db)); [reflexivity|].
  rewrite (@findById_run i k _ Hk). unfold logged. cbn [table journal].
  rewrite <- app_assoc. reflexivity.
Qed.

Lemma update_rows_key (k : string) (at_ : Z) (set : UpdateUserDto.t) (t : list User.t) :
  map User.id (TypeOrm.update_rows k at_ set t) = map User.id t.
Proof.
  unfold TypeOrm.update_rows. rewrite map_map. apply map_ext.
  intros u. destruct (User.id u =? k)%string; reflexivity.
Qed.

Lemma update_rows_In (k : string) (at_ : Z) (set : UpdateUserDto.t)
  (t : list User.t) (u : User.t) :
  In u (TypeOrm.update_rows k at_ set t) -> User.id u = k ->
  exists v, In v t /\ User.id v = k /\ u = TypeOrm.apply_set at_ set v.
Proof.
  unfold TypeOrm.update_rows. intros Hu Hi.
  apply in_map_iff in Hu. destruct Hu as (v & Hv & Hin).
  destruct (User.id v =? k)%string eqn:E.
  - exists v. apply String.eqb_eq in E. auto.
  - subst u. apply String.eqb_neq in E. contradiction.
Qed.

Lemma find_update_rows (k : string) (at_ : Z) (set : UpdateUserDto.t) (t : list User.t) :
  find (matches [IdIs k]) (TypeOrm.update_rows k at_ set t)
  = option_map (TypeOrm.apply_set at_ set) (find (matches [IdIs k]) t).
Proof.
  induction t as [|u t IH]; [reflexivity|].
  cbn [TypeOrm.update_rows map find]. unfold matches at 1 3. cbn [forallb holds].
  destruct (User.id u =? k)%string eqn:E.
  - cbn [TypeOrm.apply_set User.id]. rewrite E. reflexivity.
  - rewrite E. cbn [andb]. exact IH.
Qed.

Lemma find_by_id_some (k : string) (t : list User.t) :
  existsb (matches [IdIs k]) t = true ->
  exists u, find (matches [IdIs k]) t = Some u /\ In u t /\ User.id u = k.
Proof.
  intros H. rewrite find_existsb in H.
  destruct (find (matches [IdIs k]) t) as [u|] eqn:E; [|discriminate H].
  exists u. split; [reflexivity|]. apply find_some in E. destruct E as [Hin Hm].
  split; [exact Hin|]. unfold matches in Hm. cbn [forallb holds] in Hm.
  rewrite andb_true_r in Hm. apply String.eqb_eq, Hm.
Qed.


Lemma rehashed_fields (env : Env) (dto : UpdateUserDto.t) :
  UpdateUserDto.name (rehashed env dto) = UpdateUserDto.name dto
  /\ UpdateUserDto.email (rehashed env dto) = UpdateUserDto.email dto
  /\ UpdateUserDto.role (rehashed env dto) = UpdateUserDto.role dto
  /\ UpdateUserDto.walletAddress (rehashed env dto) = UpdateUserDto.walletAddress dto
  /\ (UpdateUserDto.password dto = None -> UpdateUserDto.password (rehashed env dto) = None)
  /\ (forall p, UpdateUserDto.password dto = Some p -> p <> "" ->
                UpdateUserDto.password (rehashed env dto)
                = Some (bcrypt_hash p PASSWORD_SALT_ROUNDS (salt env))).
Proof.
  unfold rehashed. destruct (UpdateUserDto.password dto) as [p|] eqn:Ep.
  - destruct (truthy p) eqn:Hp; repeat split; try reflexivity;
      try (intros E; discriminate E).
    + intros q E _. injection E as <-. reflexivity.
    + intros q E Hq. injection E as <-. apply truthy_true in Hq.
      rewrite Hq in Hp. discriminate Hp.
  - repeat split; try reflexivity; [intros _; exact Ep | intros q E; discriminate E].
Qed.

(** An id that is not a uuid: the first statement is refused. *)
Lemma service_update_refused (env : Env) (id : string) (dto : UpdateUserDto.t) (db : Db) :
  id <> "" -> uuid_in id = None ->
  UsersService.update env id dto db
  = (Throw TypeOrm.invalid_uuid, logged db [Count [IdIs id]]).
Proof.
  intros Hne Hk. unfold UsersService.update.
  rewrite (proj2 (truthy_true id) Hne).
  unfold bind at 1 2. cbn [negb]. cbv beta iota.
  rewrite (@exists_refused id db Hk). reflexivity.
Qed.

(** [update] for an id that spells the key [k], case by case. *)
Lemma service_update_cases (env : Env) (id k : string) (dto : UpdateUserDto.t) (db : Db) :
  let t := table db in
  let dto' := rehashed env dto in
  let not_found := NotFoundException ("User with ID " ++ id ++ " not found") in
  id <> "" -> uuid_in id = Some k ->
  exists reads, reads_only reads /\
    ((UsersService.update env id dto db = (Throw not_found, logged db reads)
      /\ ~ user_exists k t)
     \/ (UsersService.update env id dto db
         = (Throw (ConflictException "Email already exists"), logged db reads)
         /\ user_exists k t
         /\ exists e, UpdateUserDto.email dto = Some e /\ e <> ""
                      /\ email_taken_by_other e k t)
     \/ (UsersService.update env id dto db
         = (Throw (QueryFailedError "duplicate key value violates unique constraint"),
            logged db (reads ++ [Update id dto']))
         /\ TypeOrm.update_violation k dto' t = true
         /\ user_exists k t
         /\ (forall e, UpdateUserDto.email dto = Some e -> e <> "" ->
                       ~ email_taken_by_other e k t))
     \/ (exists u,
           find (matches [IdIs k]) t = Some u
           /\ UsersService.update env id dto db
              = (Ok (UsersService.toResponseDto (TypeOrm.apply_set (now env) dto' u)),
                 mkDb (TypeOrm.update_rows k (now env) dto' t)
                   (journal db ++ reads
                    ++ [Update id dto';
                        FindOne [IdIs id] (Some UsersRepository.read_columns)]))
           /\ TypeOrm.update_violation k dto' t = false
           /\ (forall e, UpdateUserDto.email dto = Some e -> e <> "" ->
                         ~ email_taken_by_other e k t))).
Proof.
  intros t dto' not_found Hne Hk. subst not_found.
  remember (UsersService.update env id dto db) as out eqn:Eout.
  unfold UsersService.update in Eout. fold (rehashed env dto) in Eout. fold dto' in Eout.
  rewrite (proj2 (truthy_true id) Hne) in Eout.
  unfold bind at 1 2 in Eout. unfold ret at 1 in Eout. unfold throw at 1 in Eout.
  cbn [negb] in Eout. cbv beta iota in Eout.
  rewrite (@exists_run id k db Hk) in Eout. fold t in Eout.
  destruct (existsb (matches [IdIs k]) t) eqn:Hex; cbv beta iota in Eout.
  2:{ eexists. split; [|left; split; [exact Eout|]]; [reflexivity|].
      intros H. apply by_id_spec in H. rewrite Hex in H. discriminate H. }
  assert (Hyes : user_exists k t) by (apply by_id_spec, Hex).
  destruct (find_by_id_some _ _ Hex) as (u & Hfind & _ & _).
  assert (fin : forall reads,
    (forall e, UpdateUserDto.email dto = Some e -> e <> "" ->
               ~ email_taken_by_other e k t) ->
    out = bind (UsersRepository.update env id dto')
            (fun updatedUser =>
               match updatedUser with
               | None => throw (NotFoundException ("User with ID " ++ id ++ " not found"))
               | Some updatedUser => ret (UsersService.toResponseDto updatedUser)
               end) (logged db reads) ->
    (out = (Throw (QueryFailedError "duplicate key value violates unique constraint"),
            logged db (reads ++ [Update id dto']))
     /\ TypeOrm.update_violation k dto' t = true
     /\ user_exists k t
     /\ (forall e, UpdateUserDto.email dto = Some e -> e <> "" ->
                   ~ email_taken_by_other e k t))
    \/ (exists u,
           find (matches [IdIs k]) t = Some u
           /\ out = (Ok (UsersService.toResponseDto (TypeOrm.apply_set (now env) dto' u)),
                     mkDb (TypeOrm.update_rows k (now env) dto' t)
                       (journal db ++ reads
                        ++ [Update id dto';
                            FindOne [IdIs id] (Some UsersRepository.read_columns)]))
           /\ TypeOrm.update_violation k dto' t = false
           /\ (forall e, UpdateUserDto.email dto = Some e -> e <> "" ->
                         ~ email_taken_by_other e k t))).
  { intros reads Hmail ->. unfold bind.
    rewrite (@repository_update_run env id k dto' _ Hk). rewrite table_logged. fold t.
    destruct (TypeOrm.update_violation k dto' t) eqn:Hv.
    - left. rewrite logged_logged. split; [reflexivity|]. split; [reflexivity|].
      split; [exact Hyes | exact Hmail].
    - right. exists u. split; [exact Hfind|].
      rewrite find_update_rows, Hfind. cbn [option_map]. cbv beta iota.
      unfold ret. rewrite toResponseDto_project. unfold logged. cbn [table journal].
      rewrite <- app_assoc. split; [reflexivity|]. split; [reflexivity | exact Hmail]. }
  destruct (UpdateUserDto.email dto) as [e|] eqn:He.
  - destruct (truthy e) eqn:Hte.
    + unfold bind at 1 2 in Eout.
      rewrite (@emailExists_other_run e id k _ Hne Hk) in Eout.
      rewrite table_logged in Eout. fold t in Eout. rewrite logged_logged in Eout.
      cbn [app] in Eout.
      destruct (existsb (matches [EmailIs e; IdIsNot k]) t) eqn:Hother;
        cbv beta iota in Eout.
      * eexists. split; [|right; left; split; [exact Eout|split; [exact Hyes|]]].
        -- reflexivity.
        -- exists e. split; [reflexivity|]. split; [apply truthy_true, Hte|].
           apply by_email_other_spec, Hother.
      * assert (Hm : forall e', Some e = Some e' -> e' <> "" ->
                                ~ email_taken_by_other e' k t).
        { intros e' E _ H. injection E as <-.
          apply by_email_other_spec in H. rewrite Hother in H. discriminate H. }
        unfold ret at 1 in Eout. cbv beta iota in Eout.
        eexists. split; [|right; right; apply (fin _ Hm Eout)]. reflexivity.
    + unfold bind at 1 in Eout. unfold ret at 1 in Eout. cbv beta iota in Eout.
      assert (Hm : forall e', Some e = Some e' -> e' <> "" ->
                              ~ email_taken_by_other e' k t).
      { intros e' E Hne' _. injection E as <-. apply truthy_true in Hne'.
        rewrite Hne' in Hte. discriminate Hte. }
      eexists. split; [|right; right; apply (fin _ Hm Eout)]. reflexivity.
  - unfold bind at 1 in Eout. unfold ret at 1 in Eout. cbv beta iota in Eout.
    assert (Hm : forall e', @None string = Some e' -> e' <> "" ->
                            ~ email_taken_by_other e' k t).
    { intros e' E. discriminate E. }
    eexists. split; [|right; right; apply (fin _ Hm Eout)]. reflexivity.
Qed.


(** *** [linkWallet] *)



(** Once no other account holds the address, setting it breaks no
    constraint. *)
Lemma link_allowed (a k : string) (t : list User.t) :
  existsb (matches [WalletAddressIs (toLowerCase a); IdIsNot k]) t = false ->
  TypeOrm.update_violation k (wallet_only a) t = false.
Proof.
  intros H. unfold TypeOrm.update_violation. apply andb_false_iff. right.
  rewrite existsb_false_forall in *. intros v Hv. specialize (H v Hv).
  unfold matches in H. cbn [forallb holds] in H. rewrite andb_true_r in H.
  cbn [wallet_only UpdateUserDto.email UpdateUserDto.walletAddress opt_is orb].
  rewrite andb_comm.
  unfold TypeOrm.wallet_clash, opt_is in *.
  destruct (User.walletAddress v) as [x|]; [|reflexivity].
  rewrite String.eqb_sym. exact H.
Qed.

Lemma service_linkWallet_run (env : Env) (i k : string) (dto : LinkWalletDto.t) (db : Db) :
  let a := LinkWalletDto.walletAddress dto in
  let t := table db in
  let c1 := Count [IdIs i] in
  let c2 := Count [WalletAddressIs (toLowerCase a); IdIsNot i] in
  i <> "" -> uuid_in i = Some k ->
  UsersService.linkWallet env i dto db
  = if existsb (matches [IdIs k]) t
    then
      if existsb (matches [WalletAddressIs (toLowerCase a); IdIsNot k]) t
      then (Throw (ConflictException
                     "Wallet address is already linked to another account"),
            logged db [c1; c2])
      else
        (match find (matches [IdIs k]) t with
         | Some u => Ok (UsersService.toResponseDto
                           (TypeOrm.apply_set (now env) (wallet_only a) u))
         | None => Throw (NotFoundException ("User with ID " ++ i ++ " not found"))
         end,
         mkDb (TypeOrm.update_rows k (now env) (wallet_only a) t)
           (journal db ++ [c1; c2; Update i (wallet_only a);
                           FindOne [IdIs i] (Some UsersRepository.read_columns)]))
    else (Throw (NotFoundException ("User with ID " ++ i ++ " not found")),
          logged db [c1]).
Proof.
  intros a t c1 c2 Hne Hk. unfold UsersService.linkWallet. fold a.
  rewrite (proj2 (truthy_true i) Hne).
  unfold bind at 1 2. unfold ret at 1. unfold throw at 1. cbn [negb]. cbv beta iota.
  rewrite (@exists_run i k db Hk). fold t. fold c1.
  destruct (existsb (matches [IdIs k]) t); cbv beta iota; [|reflexivity].
  unfold bind at 1 2. rewrite (@walletExists_other_run a i k _ Hne Hk).
  rewrite table_logged, logged_logged. fold t. fold c2. cbn [app].
  destruct (existsb _ t) eqn:Hw; cbv beta iota; [reflexivity|].
  unfold ret at 1. cbv beta iota. unfold bind.
  change (UsersRepository.linkWallet env i a)
    with (UsersRepository.update env i (wallet_only a)).
  rewrite (@repository_update_run env i k (wallet_only a) _ Hk).
  rewrite table_logged. fold t.
  rewrite (link_allowed _ _ _ Hw). rewrite find_update_rows.
  destruct (find (matches [IdIs k]) t) as [u|]; cbn [option_map]; cbv beta iota.
  - unfold ret. rewrite toResponseDto_project. unfold logged. cbn [journal table].
    rewrite <- app_assoc. reflexivity.
  - unfold throw, logged. cbn [journal table]. rewrite <- app_assoc. reflexivity.
Qed.

(** An id that is not a uuid: the first statement is refused. *)
Lemma service_linkWallet_refused (env : Env) (i : string) (dto : LinkWalletDto.t) (db : Db) :
  i <> "" -> uuid_in i = None ->
  UsersService.linkWallet env i dto db
  = (Throw TypeOrm.invalid_uuid, logged db [Count [IdIs i]]).
Proof.
  intros Hne Hk. unfold UsersService.linkWallet.
  rewrite (proj2 (truthy_true i) Hne).
  unfold bind at 1 2. cbn [negb]. cbv beta iota.
  rewrite (@exists_refused i db Hk). reflexivity.
Qed.


(** *** [findAll] *)

Lemma insert_desc_perm (x : User.t) (l : list User.t) :
  Permutation (TypeOrm.insert_desc x l) (x :: l).
Proof.
  induction l as [|y l IH]; simpl; [apply Permutation_refl|].
  destruct (User.createdAt y <=? User.createdAt x); [apply Permutation_refl|].
  eapply perm_trans; [apply perm_skip, IH | apply perm_swap].
Qed.

Lemma orderBy_perm (l : list User.t) : Permutation (TypeOrm.orderByCreatedAtDesc l) l.
Proof.
  induction l as [|x l IH]; simpl; [constructor|].
  eapply perm_trans; [apply insert_desc_perm | apply perm_skip, IH].
Qed.

Lemma insert_desc_sorted (x : User.t) (l : list User.t) :
  StronglySorted newer_or_same l -> StronglySorted newer_or_same (TypeOrm.insert_desc x l).
Proof.
  induction 1 as [|y l Hs IH Hy]; simpl.
  - constructor; constructor.
  - destruct (Z.leb_spec (User.createdAt y) (User.createdAt x)) as [Hle|Hlt].
    + constructor; [constructor; assumption|].
      constructor; [exact Hle|].
      eapply Forall_impl; [|exact Hy]. unfold newer_or_same. intros z Hz. lia.
    + constructor; [exact IH|].
      apply Forall_forall. intros z Hz.
      apply (Permutation_in _ (insert_desc_perm x l)) in Hz.
      destruct Hz as [<-|Hz].
      * unfold newer_or_same. lia.
      * rewrite Forall_forall in Hy. apply Hy, Hz.
Qed.

Lemma orderBy_sorted (l : list User.t) :
  StronglySorted newer_or_same (TypeOrm.orderByCreatedAtDesc l).
Proof.
  induction l as [|x l IH]; simpl; [constructor | apply insert_desc_sorted, IH].
Qed.

Lemma filter_all (t : list User.t) : filter (matches []) t = t.
Proof. induction t as [|u t IH]; simpl; [reflexivity | rewrite IH; reflexivity]. Qed.

Lemma map_toResponseDto_project (sel : option (list Column)) (l : list User.t) :
  map UsersService.toResponseDto (map (TypeOrm.project sel) l)
  = map UsersService.toResponseDto l.
Proof. rewrite map_map. apply map_ext. intros u. apply toResponseDto_project. Qed.

(** A listing whose page or limit is absent, zero or not a number: one
    SELECT without OFFSET and LIMIT. *)
Lemma service_findAll_unpaginated (page limit : option number) (db : Db) :
  (truthy_num page && truthy_num limit)%bool = false ->
  UsersService.findAll page limit db
  = (Ok (map UsersService.toResponseDto (TypeOrm.orderByCreatedAtDesc (table db)),
         Z.of_nat (length (table db))),
     logged db [Select select_all]).
Proof.
  intros H. unfold UsersService.findAll, UsersRepository.findAll.
  assert (E : match page, limit with
              | Some page, Some limit =>
                  if (Number.truthy page && Number.truthy limit)%bool
                  then
                    TypeOrm.take limit
                      (TypeOrm.skip (Number.mul (Number.sub page (Num 1)) limit)
                         (TypeOrm.orderBy_createdAt_DESC
                            (TypeOrm.select UsersRepository.read_columns
                               TypeOrm.createQueryBuilder)))
                  else
                    TypeOrm.orderBy_createdAt_DESC
                      (TypeOrm.select UsersRepository.read_columns
                         TypeOrm.createQueryBuilder)
              | _, _ =>
                  TypeOrm.orderBy_createdAt_DESC
                    (TypeOrm.select UsersRepository.read_columns
                       TypeOrm.createQueryBuilder)
              end = select_all).
  { destruct page as [pg|], limit as [lm|]; try reflexivity.
    simpl in H. rewrite H. reflexivity. }
  cbv zeta. rewrite E. unfold TypeOrm.getManyAndCount, select_all. run.
  rewrite filter_all, map_toResponseDto_project. reflexivity.
Qed.

(** A listing with a page and a limit that are numbers other than zero: one
    SELECT with OFFSET (page - 1) * limit and LIMIT limit. *)
Lemma service_findAll_paginated (p l : Z) (db : Db) :
  1 <= p -> 1 <= l ->
  UsersService.findAll (Some (Num p)) (Some (Num l)) db
  = (Ok (map UsersService.toResponseDto
           (firstn (Z.to_nat l)
              (List.skipn (Z.to_nat ((p - 1) * l))
                 (TypeOrm.orderByCreatedAtDesc (table db)))),
         Z.of_nat (length (table db))),
     logged db [Select (mkQB (Some UsersRepository.read_columns) true []
                          (Some (Num ((p - 1) * l))) (Some (Num l)))]).
Proof.
  intros Hp Hl. unfold UsersService.findAll, UsersRepository.findAll.
  cbn [Number.truthy Number.sub Number.mul].
  destruct (Z.eqb_spec p 0) as [->|_]; [lia|].
  destruct (Z.eqb_spec l 0) as [->|_]; [lia|].
  cbn [negb andb]. cbv beta iota zeta.
  unfold TypeOrm.getManyAndCount, bind, issue, rows, ret, throw.
  cbn [TypeOrm.take TypeOrm.skip TypeOrm.orderBy_createdAt_DESC TypeOrm.select
       TypeOrm.createQueryBuilder qb_select qb_orderBy qb_where qb_skip qb_take
       TypeOrm.window TypeOrm.read_where table].
  destruct (Z.ltb_spec ((p - 1) * l) 0) as [Hneg|_]; [nia|].
  destruct (Z.ltb_spec l 0) as [Hneg|_]; [lia|].
  cbv beta iota. cbn [TypeOrm.paginate].
  rewrite filter_all, map_toResponseDto_project. reflexivity.
Qed.

(** C5.  For page p >= 1 and limit l >= 1, [findAll] returns the rows
    ordered by createdAt descending, from offset (p-1)*l on, at most l of
    them, with the count of all rows as total; without page and limit it
    returns all rows in that order. *)
Theorem findAll_pagination (p l : Z) (db : Db) :
  1 <= p -> 1 <= l ->
  let sorted := TypeOrm.orderByCreatedAtDesc (table db) in
  let window := firstn (Z.to_nat l) (List.skipn (Z.to_nat ((p - 1) * l)) sorted) in
  answer (UsersService.findAll (Some (Num p)) (Some (Num l))) db
  = Ok (map UsersService.toResponseDto window, Z.of_nat (length (table db)))
  /\ StronglySorted newer_or_same sorted
  /\ Permutation sorted (table db)
  /\ Z.of_nat (length window) <= l
  /\ answer (UsersService.findAll None None) db
     = Ok (map UsersService.toResponseDto sorted, Z.of_nat (length (table db))).
Proof.
  intros Hp Hl sorted window. unfold answer.
  rewrite (service_findAll_paginated db Hp Hl).
  rewrite (@service_findAll_unpaginated None None db eq_refl).
  split; [reflexivity|]. split; [apply orderBy_sorted|].
  split; [apply orderBy_perm|]. split; [|reflexivity].
  subst window. pose proof (firstn_le_length (Z.to_nat l)
    (List.skipn (Z.to_nat ((p - 1) * l)) sorted)) as H. lia.
Qed.

(** *** GET /users *)

Lemma read_digits_some (a : Z) (s : string) : read_digits (Some a) s <> None.
Proof.
  revert a. induction s as [|c r IH]; intros a; simpl.
  - discriminate.
  - destruct (digit_value c); [apply IH | discriminate].
Qed.

Lemma read_digits_none (s : string) :
  read_digits None s = None <-> leading_digit s = false.
Proof.
  destruct s as [|c r]; simpl; [split; reflexivity|].
  destruct (digit_value c).
  - split; [intros H; apply read_digits_some in H; contradiction | discriminate].
  - split; reflexivity.
Qed.

Lemma parseInt_NaN (s : string) : parseInt s = NaN <-> numeric_prefix s = false.
Proof.
  unfold parseInt, numeric_prefix.
  destruct (split_sign (trim_start s)) as [sign body]. cbn [snd].
  rewrite <- read_digits_none.
  destruct (read_digits None body); split; intros H; try discriminate H; reflexivity.
Qed.

Lemma truthy_NaN (page limit : number) :
  page = NaN \/ limit = NaN ->
  (truthy_num (Some page) && truthy_num (Some limit))%bool = false.
Proof.
  intros [-> | ->]; [reflexivity|]. apply andb_false_r.
Qed.

(** C9, as the code has it.  GET /users takes "1" and "10" for an absent
    page and limit and reads both with [parseInt]; a string without a numeric
    prefix reads as NaN.  NaN is not refused: it goes on to the service and
    the repository and comes back in the envelope, but the repository treats
    it as an absent value, so no offset is computed from it and the listing
    is the whole table.  An offset (page - 1) * limit is computed when both
    read as numbers from 1 on. *)
Theorem findAll_query_parameters (page limit : option string) (db : Db) :
  let pageNumber := parseInt (or_else page "1") in
  let limitNumber := parseInt (or_else limit "10") in
  UsersController.findAll None None db
  = UsersController.findAll (Some "1") (Some "10") db
  /\ parseInt "1" = Num 1 /\ parseInt "10" = Num 10
  /\ (forall s, numeric_prefix s = false <-> parseInt s = NaN)
  /\ (pageNumber = NaN \/ limitNumber = NaN ->
      UsersController.findAll page limit db
      = (Ok (UsersController.mkPage "Users retrieved successfully"
               (map UsersService.toResponseDto
                  (TypeOrm.orderByCreatedAtDesc (table db)))
               (Z.of_nat (length (table db))) pageNumber limitNumber),
         logged db [Select select_all]))
  /\ (forall p l, pageNumber = Num p -> limitNumber = Num l -> 1 <= p -> 1 <= l ->
      journal_after (UsersController.findAll page limit) db
      = (journal db
         ++ [Select (mkQB (Some UsersRepository.read_columns) true []
                       (Some (Num ((p - 1) * l))) (Some (Num l)))])%list).
Proof.
  intros pageNumber limitNumber.
  split; [reflexivity|]. split; [reflexivity|]. split; [reflexivity|].
  split; [intros s; symmetry; apply parseInt_NaN|]. split.
  - intros H. unfold UsersController.findAll. fold pageNumber limitNumber.
    unfold bind. rewrite (service_findAll_unpaginated _ _ db (truthy_NaN H)).
    reflexivity.
  - intros p l Ep El Hp Hl. unfold journal_after, UsersController.findAll.
    fold pageNumber limitNumber. rewrite Ep, El.
    unfold bind. rewrite (service_findAll_paginated db Hp Hl). reflexivity.
Qed.

(** *** Emails are compared byte for byte *)

Lemma create_past_email_check (env : Env) (dto : CreateUserDto.t) (db : Db) :
  ~ email_taken (CreateUserDto.email dto) (table db) ->
  answer (UsersService.create env dto) db
  <> Throw (ConflictException "Email already exists")
  /\ ((forall w, CreateUserDto.walletAddress dto = Some w -> w <> "" ->
                 ~ wallet_taken w (table db)) ->
      forall m, answer (UsersService.create env dto) db <> Throw (ConflictException m)).
Proof.
  intros He. unfold answer, UsersService.create, bind, ret, throw.
  rewrite emailExists_run. cbv beta iota.
  rewrite (not_true_false (by_email_spec _ _) He). cbv beta iota.
  unfold UsersRepository.create, TypeOrm.create.
  destruct (CreateUserDto.walletAddress dto) as [w|] eqn:Hw.
  - destruct (truthy w) eqn:Htw; cbv beta iota.
    + rewrite walletExists_run. cbv beta iota. rewrite table_logged.
      destruct (existsb _ (table db)) eqn:Hwt; cbv beta iota.
      * split; [intros E; discriminate E|].
        intros Hfree. exfalso.
        apply (Hfree w eq_refl (proj1 (truthy_true w) Htw)).
        apply by_wallet_spec, Hwt.
      * rewrite save_run.
        destruct (TypeOrm.insert_violation _ _);
          (split; [intros E; discriminate E | intros _ m E; discriminate E]).
    + rewrite save_run.
      destruct (TypeOrm.insert_violation _ _);
        (split; [intros E; discriminate E | intros _ m E; discriminate E]).
  - cbv beta iota. rewrite save_run.
    destruct (TypeOrm.insert_violation _ _);
      (split; [intros E; discriminate E | intros _ m E; discriminate E]).
Qed.

(** C10.  The email probe answers by exact equality of the strings, so an
    email that differs from a stored one in letter case only is not taken:
    [create] with such an email does not fail with the email Conflict, with
    no Conflict at all when its wallet address is free, and, the store
    handing out an unused key, it succeeds, leaving both spellings in the
    table. *)
Theorem email_uniqueness_case_sensitive (env : Env) (dto : CreateUserDto.t)
  (db : Db) (e1 : string) :
  let e2 := CreateUserDto.email dto in
  let call := UsersService.create env dto in
  (forall e, answer (UsersRepository.emailExists e None) db = Ok true
             <-> exists u, In u (table db) /\ User.email u = e)
  /\
  (email_taken e1 (table db) ->
   e1 <> e2 -> toLowerCase e1 = toLowerCase e2 ->
   ~ email_taken e2 (table db) ->
   answer call db <> Throw (ConflictException "Email already exists")
   /\ ((forall w, CreateUserDto.walletAddress dto = Some w -> w <> "" ->
                  ~ wallet_taken w (table db)) ->
       (forall m, answer call db <> Throw (ConflictException m))
       /\ (~ user_exists (uuid env) (table db) ->
           exists r,
             answer call db = Ok r
             /\ prop "email" r = Some (JString e2)
             /\ email_taken e1 (rows_after call db)
             /\ email_taken e2 (rows_after call db)))).
Proof.
  intros e2 call. split.
  - intros e. unfold answer. rewrite emailExists_run. cbn [fst].
    rewrite <- (by_email_spec e (table db)).
    destruct (existsb (matches [EmailIs e]) (table db)); split; intros H;
      try reflexivity; discriminate H.
  - intros H1 Hdiff Hcase H2.
    destruct (@create_past_email_check env dto db H2) as [Hemail Hany].
    split; [exact Hemail|]. intros Hfree. split; [exact (Hany Hfree)|].
    intros Hid.
    destruct (@create_succeeds env dto db H2 Hfree Hid)
      as (saved & Ha & Hrows & _ & _ & Hmail & _).
    exists (UsersService.toResponseDto saved). split; [exact Ha|].
    split; [simpl; rewrite Hmail; reflexivity|].
    fold call in Hrows. rewrite Hrows. split.
    + destruct H1 as (u & Hu & Eu). exists u. split; [|exact Eu].
      apply in_or_app. left. exact Hu.
    + exists saved. split; [|exact Hmail].
      apply in_or_app. right. left. reflexivity.
Qed.

(** *** Stored wallet addresses stay lowercase *)

Lemma stored_lowercase_app (t : list User.t) (u : User.t) :
  stored_lowercase t ->
  (forall w, User.walletAddress u = Some w -> toLowerCase w = w) ->
  stored_lowercase (t ++ [u]).
Proof.
  intros Ht Hu v w Hv Hw. apply in_app_or in Hv. destruct Hv as [Hv | [<- | []]].
  - apply (Ht v w Hv Hw).
  - apply (Hu w Hw).
Qed.

Lemma stored_lowercase_link (i a : string) (at_ : Z) (t : list User.t) :
  stored_lowercase t ->
  stored_lowercase (TypeOrm.update_rows i at_ (wallet_only a) t).
Proof.
  intros Ht v w Hv Hw. unfold TypeOrm.update_rows in Hv.
  apply in_map_iff in Hv. destruct Hv as (u & E & Hu).
  destruct (User.id u =? i)%string.
  - subst v. cbn in Hw. injection Hw as <-. apply toLowerCase_idempotent.
  - subst v. apply (Ht u w Hu Hw).
Qed.

(** [create] keeps the addresses lowercase whatever its outcome. *)
Lemma create_keeps_lowercase (env : Env) (dto : CreateUserDto.t) (db : Db) :
  stored_lowercase (table db) ->
  stored_lowercase (rows_after (UsersService.create env dto) db).
Proof.
  intros Hlow. unfold rows_after.
  destruct (UsersService.create env dto db) as [[r|e] db'] eqn:E.
  - destruct (create_returned _ _ _ E) as (saved & _ & Ht & _ & _ & Hw).
    cbn [snd]. rewrite Ht. apply stored_lowercase_app; [exact Hlow|].
    intros w Hs. rewrite Hs in Hw.
    destruct (CreateUserDto.walletAddress dto) as [x|]; [|discriminate Hw].
    destruct (truthy x); [|discriminate Hw].
    injection Hw as ->. apply toLowerCase_idempotent.
  - cbn [snd]. revert E.
    unfold UsersService.create, bind, ret, throw.
    rewrite emailExists_run. cbv beta iota.
    destruct (existsb _ _); [intros E; injection E as _ <-; exact Hlow|].
    cbv beta iota. unfold UsersRepository.create, TypeOrm.create.
    assert (fin : forall d x, table d = table db ->
              (let (r0, db1) := TypeOrm.save env x d in
               match r0 with
               | Ok a => (Ok (UsersService.toResponseDto a), db1)
               | Throw e0 => (Throw e0, db1)
               end) = (Throw e, db') -> stored_lowercase (table db')).
    { intros d x Hd. rewrite save_run.
      destruct (TypeOrm.insert_violation _ _); intros E; [|discriminate E].
      injection E as _ <-. rewrite table_logged, Hd. exact Hlow. }
    destruct (CreateUserDto.walletAddress dto) as [w|].
    + destruct (truthy w); cbv beta iota.
      * rewrite walletExists_run. cbv beta iota.
        destruct (existsb _ _); cbv beta iota.
        -- intros E. injection E as _ <-. exact Hlow.
        -- apply fin. reflexivity.
      * apply fin. reflexivity.
    + cbv beta iota. apply fin. reflexivity.
Qed.

(** So does [linkWallet]. *)
Lemma linkWallet_keeps_lowercase (env : Env) (i : string) (dto : LinkWalletDto.t)
  (db : Db) :
  stored_lowercase (table db) ->
  stored_lowercase (rows_after (UsersService.linkWallet env i dto) db).
Proof.
  intros Hlow. unfold rows_after.
  destruct (String.eqb_spec i "") as [->|Hne]; [exact Hlow|].
  destruct (uuid_in i) as [k|] eqn:Hk.
  - rewrite (@service_linkWallet_run env i k dto db Hne Hk).
    destruct (existsb _ _); [|exact Hlow].
    destruct (existsb _ _); [exact Hlow|].
    cbn [snd table]. apply stored_lowercase_link, Hlow.
  - rewrite (@service_linkWallet_refused env i dto db Hne Hk). exact Hlow.
Qed.

End Properties.

(* ===================================================================== *)
(** ** The statements at sample inputs *)
(* ===================================================================== *)




Lemma sample_has (i : string) (u : User.t) (t : list User.t) :
  In u t -> User.id u = i -> user_exists i t.
Proof. intros Hin E. exists u. split; assumption. Defined.


Lemma sample_lowercase : stored_lowercase (table Sample.three).
Proof.
  intros u w [<- | [<- | [<- | []]]] E; try discriminate E.
  injection E as <-. reflexivity.
Defined.

Lemma sample_ann : user_exists Sample.ann_id (table Sample.three).
Proof. apply (@sample_has _ Sample.ann); [left; reflexivity | reflexivity]. Defined.

Lemma sample_bob : user_exists Sample.bob_id (table Sample.three).
Proof. apply (@sample_has _ Sample.bob); [right; left; reflexivity | reflexivity]. Defined.

Lemma sample_nobody : ~ user_exists Sample.nobody_id (table Sample.three).
Proof. intros (u & [<- | [<- | [<- | []]]] & E); discriminate E. Defined.




Lemma responses_omit_password_witness :
  answer (UsersService.create Sample.env4 Sample.dan) Sample.one
  = Ok Sample.dan_response
  /\ public_shape Sample.dan_response.
Proof.
  split; [reflexivity|].
  apply (proj1 (responses_omit_password (P := Sample.platform))
           Sample.env4 Sample.dan Sample.one).
  reflexivity.
Defined.

Lemma wallet_address_case_insensitive_witness :
  CreateUserDto.walletAddress Sample.dan = Some "0xABCdef0123"
  /\ "0xABCdef0123" <> ""
  /\ UsersService.create Sample.env4 Sample.dan Sample.one
     = (Ok Sample.dan_response, Sample.after_dan)
  /\ prop "walletAddress" Sample.dan_response = Some (JString "0xabcdef0123")
  /\ answer (UsersService.findByWalletAddress (P := Sample.platform) "0XABCDEF0123")
       Sample.after_dan
     = Ok Sample.dan_response.
Proof.
  assert (Hne : "0xABCdef0123" <> "") by discriminate.
  assert (Hrun : UsersService.create Sample.env4 Sample.dan Sample.one
                 = (Ok Sample.dan_response, Sample.after_dan)) by reflexivity.
  split; [reflexivity|]. split; [exact Hne|]. split; [exact Hrun|].
  destruct (wallet_address_case_insensitive Sample.env4
              Sample.dan Sample.one eq_refl Hne Hrun) as (_ & Hstored & Hfind).
  split; [exact Hstored|]. apply Hfind. reflexivity.
Defined.

Lemma create_then_findById_witness :
  uuid Sample.env4 <> ""
  /\ UsersService.create Sample.env4 Sample.dan Sample.one
     = (Ok Sample.dan_response, Sample.after_dan)
  /\ prop "id" Sample.dan_response = Some (JString Sample.dan_id)
  /\ answer (UsersService.findById (P := Sample.platform) Sample.dan_id) Sample.after_dan
     = Ok Sample.dan_response.
Proof.
  assert (Hne : uuid Sample.env4 <> "") by discriminate.
  assert (Hrun : UsersService.create Sample.env4 Sample.dan Sample.one
                 = (Ok Sample.dan_response, Sample.after_dan)) by reflexivity.
  split; [exact Hne|]. split; [exact Hrun|].
  exact (create_then_findById Sample.env4 Sample.dan Sample.one Hne Hrun).
Defined.



Lemma findAll_pagination_witness :
  1 <= 2 /\ 1 <= 1
  /\ answer (UsersService.findAll (P := Sample.platform) (Some (Num 2)) (Some (Num 1)))
       Sample.three
     = Ok ([UsersService.toResponseDto Sample.bob], 3).
Proof.
  assert (H2 : 1 <= 2) by lia. assert (H1 : 1 <= 1) by lia.
  split; [exact H2|]. split; [exact H1|].
  exact (proj1 (findAll_pagination (P := Sample.platform) Sample.three H2 H1)).
Defined.





Lemma findAll_query_parameters_witness :
  parseInt "abc" = NaN
  /\ UsersController.findAll (P := Sample.platform) (Some "abc") None Sample.three
     = (Ok (UsersController.mkPage "Users retrieved successfully"
              (map UsersService.toResponseDto [Sample.cy; Sample.bob; Sample.ann])
              3 NaN (Num 10)),
        logged Sample.three [Select select_all]).
Proof.
  split; [reflexivity|].
  destruct (findAll_query_parameters (P := Sample.platform) (Some "abc") None
              Sample.three) as (_ & _ & _ & _ & H & _).
  exact (H (or_introl eq_refl)).
Defined.

Lemma email_uniqueness_case_sensitive_witness :
  email_taken "ann@x.io" (table Sample.one)
  /\ "ann@x.io" <> "Ann@x.io"
  /\ toLowerCase "ann@x.io" = toLowerCase "Ann@x.io"
  /\ ~ email_taken "Ann@x.io" (table Sample.one)
  /\ ~ user_exists Sample.eve_id (table Sample.one)
  /\ exists r,
       answer (UsersService.create Sample.env5 Sample.ann_twin) Sample.one = Ok r
       /\ prop "email" r = Some (JString "Ann@x.io")
       /\ email_taken "ann@x.io"
            (rows_after (UsersService.create Sample.env5 Sample.ann_twin) Sample.one)
       /\ email_taken "Ann@x.io"
            (rows_after (UsersService.create Sample.env5 Sample.ann_twin) Sample.one).
Proof.
  assert (H1 : email_taken "ann@x.io" (table Sample.one)).
  { exists Sample.ann. split; [left; reflexivity | reflexivity]. }
  assert (Hdiff : "ann@x.io" <> "Ann@x.io") by discriminate.
  assert (H2 : ~ email_taken "Ann@x.io" (table Sample.one)).
  { intros (u & [<- | []] & E). discriminate E. }
  assert (Hid : ~ user_exists Sample.eve_id (table Sample.one)).
  { intros (u & [<- | []] & E). discriminate E. }
  assert (Hfree : forall w, CreateUserDto.walletAddress Sample.ann_twin = Some w ->
                            w <> "" -> ~ wallet_taken w (table Sample.one)).
  { intros w E. discriminate E. }
  split; [exact H1|]. split; [exact Hdiff|]. split; [reflexivity|].
  split; [exact H2|]. split; [exact Hid|].
  destruct (email_uniqueness_case_sensitive Sample.env5
              Sample.ann_twin Sample.one "ann@x.io") as (_ & H).
  destruct (H H1 Hdiff eq_refl H2) as (_ & H').
  exact (proj2 (H' Hfree) Hid).
Defined.

(** C9 as the spec words it fails at page "abc": the value parsed is NaN,
    and the SELECT issued carries no offset at all, so the answer holds all
    three rows although the limit is 2.  (And "12abc", not a number either,
    does not parse to NaN: [parseInt] reads its numeric prefix.) *)
Lemma nan_page_computes_no_offset :
  parseInt "abc" = NaN
  /\ ~ offset_computed_from (P := Sample.platform) "abc" "2" Sample.three
  /\ journal_after (UsersController.findAll (P := Sample.platform) (Some "abc") (Some "2"))
       Sample.three
     = [Select select_all]
  /\ (exists pg,
        answer (UsersController.findAll (P := Sample.platform) (Some "abc") (Some "2"))
          Sample.three = Ok pg
        /\ length (UsersController.data pg) = 3%nat)
  /\ parseInt "12abc" = Num 12.
Proof.
  split; [reflexivity|]. split; [|split; [reflexivity|split; [|reflexivity]]].
  - intros (qb & Hin & Hskip).
    destruct Hin as [E | []]. injection E as <-. discriminate Hskip.
  - eexists. split; reflexivity.
Qed.

(* ===================================================================== *)
(** ** Further properties of the repository, the service and the controller *)
(* ===================================================================== *)

Section Coverage.
Context {P : Platform}.

(** *** The mutating operations, case by case *)

Lemma service_create_cases (env : Env) (dto : CreateUserDto.t) (db : Db) :
  let t := table db in
  let stored :=
    match CreateUserDto.walletAddress dto with
    | Some w => if truthy w then Some (toLowerCase w) else None
    | None => None
    end in
  exists reads, reads_only reads /\
    ((UsersService.create env dto db
      = (Throw (ConflictException "Email already exists"), logged db reads)
      /\ email_taken (CreateUserDto.email dto) t)
     \/ (UsersService.create env dto db
         = (Throw (ConflictException
                     "Wallet address is already linked to another account"),
            logged db reads)
         /\ exists w, CreateUserDto.walletAddress dto = Some w /\ w <> ""
                      /\ wallet_taken w t)
     \/ (exists u,
           UsersService.create env dto db
           = (Throw (QueryFailedError "duplicate key value violates unique constraint"),
              logged db (reads ++ [Insert u]))
           /\ User.id u = uuid env
           /\ TypeOrm.insert_violation u t = true
           /\ ~ email_taken (User.email u) t
           /\ (forall w, User.walletAddress u = Some w ->
                         existsb (matches [WalletAddressIs w]) t = false))
     \/ (exists u,
           UsersService.create env dto db
           = (Ok (UsersService.toResponseDto u),
              mkDb (t ++ [u]) (journal db ++ reads ++ [Insert u]))
           /\ User.id u = uuid env
           /\ TypeOrm.insert_violation u t = false
           /\ User.email u = CreateUserDto.email dto
           /\ User.walletAddress u = stored)).
Proof.
  intros t stored.
  unfold UsersService.create, bind, ret, throw.
  rewrite emailExists_run. cbv beta iota.
  destruct (existsb (matches [EmailIs (CreateUserDto.email dto)]) (table db)) eqn:He.
  { eexists. split; [|left; split; [reflexivity | apply by_email_spec, He]].
    reflexivity. }
  cbv beta iota. unfold UsersRepository.create, TypeOrm.create.
  cbn [CreateUserDto.walletAddress CreateUserDto.name CreateUserDto.email
       CreateUserDto.password CreateUserDto.role].
  fold stored.
  assert (Hnot : ~ email_taken (CreateUserDto.email dto) t).
  { intros H. apply by_email_spec in H. fold t in He. rewrite He in H. discriminate H. }
  assert (fin : forall reads x,
    CreateUserDto.email x = CreateUserDto.email dto ->
    CreateUserDto.walletAddress x = stored ->
    (forall w, stored = Some w ->
               existsb (matches [WalletAddressIs w]) t = false) ->
    let out :=
      (let (r0, db1) := TypeOrm.save env x (logged db reads) in
       match r0 with
       | Ok a => (Ok (UsersService.toResponseDto a), db1)
       | Throw e => (Throw e, db1)
       end) in
    (exists u,
        out = (Throw (QueryFailedError "duplicate key value violates unique constraint"),
               logged db (reads ++ [Insert u]))
        /\ User.id u = uuid env
        /\ TypeOrm.insert_violation u t = true
        /\ ~ email_taken (User.email u) t
        /\ (forall w, User.walletAddress u = Some w ->
                      existsb (matches [WalletAddressIs w]) t = false))
    \/ (exists u,
           out = (Ok (UsersService.toResponseDto u),
                  mkDb (t ++ [u]) (journal db ++ reads ++ [Insert u]))
           /\ User.id u = uuid env
           /\ TypeOrm.insert_violation u t = false
           /\ User.email u = CreateUserDto.email dto
           /\ User.walletAddress u = stored)).
  { intros reads x Hx Hxw Hwx out. subst out. rewrite save_run. rewrite table_logged.
    fold t.
    match goal with
    | |- context [TypeOrm.insert_violation ?u t] =>
        destruct (TypeOrm.insert_violation u t) eqn:Hv; [left | right]; exists u
    end.
    - rewrite logged_logged. split; [reflexivity|]. split; [reflexivity|].
      split; [exact Hv|]. cbn [User.email User.walletAddress]. rewrite Hx, Hxw.
      split; [exact Hnot | exact Hwx].
    - unfold logged. cbn [table journal User.email User.walletAddress].
      rewrite <- app_assoc.
      split; [reflexivity|]. split; [reflexivity|]. split; [exact Hv|].
      split; [exact Hx | exact Hxw]. }
  subst stored.
  destruct (CreateUserDto.walletAddress dto) as [w|] eqn:Hw.
  - destruct (truthy w) eqn:Htw; cbv beta iota.
    + rewrite walletExists_run. cbv beta iota. rewrite table_logged. fold t.
      rewrite logged_logged.
      destruct (existsb (matches [WalletAddressIs (toLowerCase w)]) t) eqn:Hwt;
        cbv beta iota.
      * eexists. split; [|right; left; split; [reflexivity|]]; [reflexivity|].
        exists w. split; [reflexivity|]. split; [apply truthy_true, Htw|].
        apply by_wallet_spec, Hwt.
      * eexists. split; [|right; right; apply fin]; try reflexivity.
        intros w' E. injection E as <-. exact Hwt.
    + eexists. split; [|right; right; apply fin]; try reflexivity.
      intros w' E. discriminate E.
  - cbv beta iota. eexists. split; [|right; right; apply fin]; try reflexivity.
    intros w' E. discriminate E.
Qed.

(** *** Reading *)

Lemma keeps_ret {A} (a : A) : keeps_table (ret a).
Proof. intros db. reflexivity. Qed.

Lemma keeps_throw {A} (e : Exception) : keeps_table (@throw A e).
Proof. intros db. reflexivity. Qed.

Lemma keeps_bind {A B} (m : M A) (k : A -> M B) :
  keeps_table m -> (forall a, keeps_table (k a)) -> keeps_table (bind m k).
Proof.
  intros Hm Hk db. unfold rows_after, bind. specialize (Hm db). unfold rows_after in Hm.
  destruct (m db) as [[a|e] db1]; cbn [snd] in *.
  - rewrite <- Hm. apply (Hk a db1).
  - exact Hm.
Qed.

Lemma keeps_count (w : list Cond) : keeps_table (TypeOrm.count w).
Proof.
  intros db. unfold rows_after, TypeOrm.count, bind, issue, rows, ret, throw.
  cbv beta iota. destruct (TypeOrm.read_where w); reflexivity.
Qed.

Lemma keeps_findOne (w : list Cond) (sel : option (list Column)) :
  keeps_table (TypeOrm.findOne w sel).
Proof.
  intros db. unfold rows_after, TypeOrm.findOne, bind, issue, rows, ret, throw.
  cbv beta iota. destruct (TypeOrm.read_where w); reflexivity.
Qed.

Lemma keeps_getManyAndCount (qb : SelectQueryBuilder) :
  keeps_table (TypeOrm.getManyAndCount qb).
Proof.
  intros db. unfold rows_after, TypeOrm.getManyAndCount, bind, issue, rows, ret, throw.
  cbv beta iota. destruct (TypeOrm.read_where (qb_where qb)); [|reflexivity].
  destruct (TypeOrm.window (qb_skip qb)); destruct (TypeOrm.window (qb_take qb));
    reflexivity.
Qed.

Ltac keeps_steps :=
  repeat first
    [ apply keeps_ret
    | apply keeps_throw
    | apply keeps_count
    | apply keeps_findOne
    | apply keeps_getManyAndCount
    | apply keeps_bind; [|intros ?; cbv beta]
    | match goal with
      | |- keeps_table (if ?b then _ else _) => destruct b
      | |- keeps_table (match ?x with _ => _ end) => destruct x
      end ].

(** X4.  No read changes a row: the listing, the lookups by id, by wallet
    address and by email, and the three existence probes leave the table as
    it was, whether they answer or throw. *)
Theorem reads_keep_table :
  (forall page limit, keeps_table (UsersService.findAll page limit))
  /\ (forall id, keeps_table (UsersService.findById id))
  /\ (forall a, keeps_table (UsersService.findByWalletAddress a))
  /\ (forall page limit filters, keeps_table (UsersRepository.findAll page limit filters))
  /\ (forall e, keeps_table (UsersRepository.findByEmail e))
  /\ (forall id h, keeps_table (UsersRepository.findByIdOrThrow id h))
  /\ (forall id, keeps_table (UsersRepository.exists_ id))
  /\ (forall e x, keeps_table (UsersRepository.emailExists e x))
  /\ (forall a x, keeps_table (UsersRepository.walletExists a x)).
Proof.
  refine (conj _ (conj _ (conj _ (conj _ (conj _ (conj _ (conj _ (conj _ _)))))))).
  - intros page limit. unfold UsersService.findAll, UsersRepository.findAll. keeps_steps.
  - intros id. unfold UsersService.findById, UsersRepository.findById. keeps_steps.
  - intros a. unfold UsersService.findByWalletAddress,
      UsersRepository.findByWalletAddress. keeps_steps.
  - intros page limit filters. unfold UsersRepository.findAll. keeps_steps.
  - intros e. unfold UsersRepository.findByEmail. keeps_steps.
  - intros id h. unfold UsersRepository.findByIdOrThrow, UsersRepository.findById.
    keeps_steps.
  - intros id. unfold UsersRepository.exists_. keeps_steps.
  - intros e x. unfold UsersRepository.emailExists, TypeOrm.getCount. keeps_steps.
  - intros a x. unfold UsersRepository.walletExists, TypeOrm.getCount. keeps_steps.
Qed.

(** X1.  [findById] of the service: an empty id is refused with BadRequest
    before the store is asked anything; an id that is not a uuid is refused
    by the store; an id that spells a key no row has gives NotFound; an id
    that spells the key of a row, in whatever spelling, gives the public
    shape of a row with that key. *)
Theorem findById_outcomes (id : string) (db : Db) :
  let call := UsersService.findById id in
  let read := FindOne [IdIs id] (Some UsersRepository.read_columns) in
  (id = "" -> call db = (Throw (BadRequestException "User ID is required"), db))
  /\ (id <> "" -> uuid_in id = None ->
      call db = (Throw TypeOrm.invalid_uuid, logged db [read]))
  /\ (forall k, id <> "" -> uuid_in id = Some k -> ~ user_exists k (table db) ->
      call db
      = (Throw (NotFoundException ("User with ID " ++ id ++ " not found")),
         logged db [read]))
  /\ (forall k, id <> "" -> uuid_in id = Some k -> user_exists k (table db) ->
      exists u, In u (table db) /\ User.id u = k
                /\ call db = (Ok (UsersService.toResponseDto u), logged db [read])).
Proof.
  intros call read. subst call read. split; [intros ->; reflexivity|].
  assert (run : forall k, id <> "" -> uuid_in id = Some k ->
            UsersService.findById id db
            = (match find (matches [IdIs k]) (table db) with
               | Some u => Ok (UsersService.toResponseDto u)
               | None => Throw (NotFoundException ("User with ID " ++ id ++ " not found"))
               end,
               logged db [FindOne [IdIs id] (Some UsersRepository.read_columns)])).
  { intros k Hne Hk. unfold UsersService.findById.
    rewrite (proj2 (truthy_true id) Hne). unfold bind, ret, throw. cbn [negb].
    cbv beta iota. rewrite (@findById_run _ id k db Hk).
    destruct (find _ _); cbn [option_map]; cbv beta iota; [|reflexivity].
    rewrite toResponseDto_project. reflexivity. }
  split; [|split].
  - intros Hne Hk. unfold UsersService.findById.
    rewrite (proj2 (truthy_true id) Hne). unfold bind. cbn [negb]. cbv beta iota.
    rewrite (@findById_refused _ id db Hk). reflexivity.
  - intros k Hne Hk Hno. rewrite (run k Hne Hk).
    assert (H := not_true_false (by_id_spec _ _) Hno). rewrite find_existsb in H.
    destruct (find _ _); [discriminate H | reflexivity].
  - intros k Hne Hk Hyes. rewrite (run k Hne Hk).
    destruct (find_by_id_some _ _ (proj2 (by_id_spec _ _) Hyes)) as (u & -> & Hin & Hid).
    exists u. auto.
Qed.

(** X2.  [findByWalletAddress] of the service: an empty address is refused
    with BadRequest before the store is asked anything; an address no row
    holds in lowercase form gives NotFound, the message quoting the address
    as it was given; otherwise the answer is the public shape of a row that
    holds it. *)
Theorem findByWalletAddress_outcomes (a : string) (db : Db) :
  let call := UsersService.findByWalletAddress a in
  (a = "" -> call db = (Throw (BadRequestException "Wallet address is required"), db))
  /\ (a <> "" -> ~ wallet_taken a (table db) ->
      answer call db
      = Throw (NotFoundException ("No user found with wallet address " ++ a)))
  /\ (a <> "" -> wallet_taken a (table db) ->
      exists u, In u (table db) /\ User.walletAddress u = Some (toLowerCase a)
                /\ answer call db = Ok (UsersService.toResponseDto u)).
Proof.
  intros call. subst call. split; [intros ->; reflexivity|].
  assert (run : a <> "" ->
            answer (UsersService.findByWalletAddress a) db
            = match find (matches [WalletAddressIs (toLowerCase a)]) (table db) with
              | Some u => Ok (UsersService.toResponseDto u)
              | None => Throw (NotFoundException
                                 ("No user found with wallet address " ++ a))
              end).
  { intros Hne. unfold answer, UsersService.findByWalletAddress.
    rewrite (proj2 (truthy_true a) Hne). unfold bind, ret, throw. cbn [negb].
    cbv beta iota. rewrite findByWalletAddress_run.
    destruct (find _ _); cbn [option_map]; cbv beta iota; [|reflexivity].
    cbn [fst]. rewrite toResponseDto_project. reflexivity. }
  split.
  - intros Hne Hno. rewrite (run Hne).
    assert (H := not_true_false (by_wallet_spec _ _) Hno). rewrite find_existsb in H.
    destruct (find _ _); [discriminate H | reflexivity].
  - intros Hne Hyes. rewrite (run Hne).
    assert (H := proj2 (by_wallet_spec _ _) Hyes). rewrite find_existsb in H.
    destruct (find _ _) as [u|] eqn:E; [|discriminate H].
    apply find_some in E. destruct E as [Hin Hm].
    unfold matches in Hm. cbn [forallb holds] in Hm. rewrite andb_true_r in Hm.
    exists u. split; [exact Hin|]. split; [apply opt_is_eq, Hm | reflexivity].
Qed.

(** X3.  [linkWallet] checks the user before the address: an empty id is
    refused with BadRequest before the store is asked anything; an id that
    is not a uuid is refused by the store at the first count; and an id that
    spells a key no row has gives NotFound after that single count, also
    when another account holds the address; no row is written in any of
    these cases. *)
Theorem linkWallet_early_failures (env : Env) (id : string) (dto : LinkWalletDto.t)
  (db : Db) :
  (id = "" ->
   UsersService.linkWallet env id dto db
   = (Throw (BadRequestException "User ID is required"), db))
  /\ (id <> "" -> uuid_in id = None ->
      UsersService.linkWallet env id dto db
      = (Throw TypeOrm.invalid_uuid, logged db [Count [IdIs id]]))
  /\ (forall k, id <> "" -> uuid_in id = Some k -> ~ user_exists k (table db) ->
      UsersService.linkWallet env id dto db
      = (Throw (NotFoundException ("User with ID " ++ id ++ " not found")),
         logged db [Count [IdIs id]])).
Proof.
  split; [intros ->; reflexivity|]. split.
  - intros Hne Hk. apply (@service_linkWallet_refused _ env id dto db Hne Hk).
  - intros k Hne Hk Hno. rewrite (@service_linkWallet_run _ env id k dto db Hne Hk).
    rewrite (not_true_false (by_id_spec _ _) Hno). reflexivity.
Qed.

(** *** Failing *)

Lemma failed_reading {A} (m : M A) (db : Db) (e e' : Exception) (reads : list Statement) :
  m db = (Throw e', logged db reads) -> reads_only reads ->
  answer m db = Throw e -> nothing_written m db e.
Proof.
  intros E Hr _. unfold nothing_written, rows_after, journal_after. rewrite E.
  split; [reflexivity|]. intros _. exists reads. split; [exact Hr | reflexivity].
Qed.

Lemma failed_in_store {A} (m : M A) (db : Db) (e : Exception) (msg : string)
  (ss : list Statement) :
  m db = (Throw (QueryFailedError msg), logged db ss) ->
  answer m db = Throw e -> nothing_written m db e.
Proof.
  intros E Ha. unfold answer in Ha. unfold nothing_written, rows_after, journal_after.
  rewrite E in *. cbn [fst] in Ha. injection Ha as <-.
  split; [reflexivity|]. intros [].
Qed.

(** X5.  A mutating operation that fails changes nothing: whenever
    [create], [update], [linkWallet] or [delete] throws, the table is as it
    was, and when the failure is one the service raises itself (BadRequest,
    NotFound, Conflict) no INSERT, UPDATE or DELETE was issued at all. *)
Theorem failures_change_nothing (env : Env) (db : Db) (e : Exception) :
  (forall dto, answer (UsersService.create env dto) db = Throw e ->
               nothing_written (UsersService.create env dto) db e)
  /\ (forall id dto, answer (UsersService.update env id dto) db = Throw e ->
                     nothing_written (UsersService.update env id dto) db e)
  /\ (forall id dto, answer (UsersService.linkWallet env id dto) db = Throw e ->
                     nothing_written (UsersService.linkWallet env id dto) db e)
  /\ (forall id, answer (UsersService.delete id) db = Throw e ->
                 nothing_written (UsersService.delete id) db e).
Proof.
  assert (L0 : forall d : Db, d = logged d []).
  { intros [t j]. unfold logged. cbn. rewrite app_nil_r. reflexivity. }
  refine (conj _ (conj _ (conj _ _))).
  - intros dto.
    destruct (service_create_cases env dto db)
      as (reads & Hr & [[E _] | [[E _] | [(u & E & _) | (u & E & _)]]]).
    + apply (failed_reading _ E Hr).
    + apply (failed_reading _ E Hr).
    + apply (failed_in_store _ E).
    + intros H. unfold answer in H. rewrite E in H. discriminate H.
  - intros id dto. destruct (String.eqb_spec id "") as [->|Hne].
    + apply (@failed_reading _ _ db e (BadRequestException "User ID is required") []);
        [rewrite <- (L0 db); reflexivity | reflexivity].
    + destruct (uuid_in id) as [k|] eqn:Hk.
      2:{ apply (failed_in_store _ (@service_update_refused _ env id dto db Hne Hk)). }
      destruct (@service_update_cases _ env id k dto db Hne Hk)
        as (reads & Hr & [[E _] | [[E _] | [[E _] | (u & _ & E & _)]]]).
      * apply (failed_reading _ E Hr).
      * apply (failed_reading _ E Hr).
      * apply (failed_in_store _ E).
      * intros H. unfold answer in H. rewrite E in H. discriminate H.
  - intros id dto. destruct (String.eqb_spec id "") as [->|Hne].
    + apply (@failed_reading _ _ db e (BadRequestException "User ID is required") []);
        [rewrite <- (L0 db); reflexivity | reflexivity].
    + destruct (uuid_in id) as [k|] eqn:Hk.
      2:{ apply (failed_in_store _ (@service_linkWallet_refused _ env id dto db Hne Hk)). }
      pose proof (@service_linkWallet_run _ env id k dto db Hne Hk) as E. cbv zeta in E.
      destruct (existsb (matches [IdIs k]) (table db)) eqn:Hex.
      * destruct (existsb _ (table db)) eqn:Hw in E.
        -- apply (failed_reading _ E). reflexivity.
        -- destruct (find_by_id_some _ _ Hex) as (u & Hfind & _).
           rewrite Hfind in E. intros H. unfold answer in H. rewrite E in H.
           discriminate H.
      * apply (failed_reading _ E). reflexivity.
  - intros id. destruct (String.eqb_spec id "") as [->|Hne].
    + apply (@failed_reading _ _ db e (BadRequestException "User ID is required") []);
        [rewrite <- (L0 db); reflexivity | reflexivity].
    + destruct (uuid_in id) as [k|] eqn:Hk.
      2:{ apply (failed_in_store _ (@service_delete_refused _ id db Hne Hk)). }
      pose proof (@service_delete_run _ id k db Hne Hk) as E.
      destruct (existsb (matches [IdIs k]) (table db)).
      * intros H. unfold answer in H. rewrite E in H. discriminate H.
      * apply (failed_reading _ E). reflexivity.
Qed.

(** X6.  The pre-checks of the service leave the store little to refuse:
    [create] is refused by the store only when the generated key is already
    in use, and [linkWallet] and [delete] exactly when the id they are given
    is not empty and not a uuid. *)
Theorem store_refuses_only_a_used_key (env : Env) (db : Db) (msg : string) :
  (forall dto, answer (UsersService.create env dto) db = Throw (QueryFailedError msg) ->
               user_exists (uuid env) (table db))
  /\ (forall id dto,
         (exists m, answer (UsersService.linkWallet env id dto) db
                    = Throw (QueryFailedError m))
         <-> id <> "" /\ uuid_in id = None)
  /\ (forall id,
         (exists m, answer (UsersService.delete id) db = Throw (QueryFailedError m))
         <-> id <> "" /\ uuid_in id = None).
Proof.
  refine (conj _ (conj _ _)).
  - intros dto H. unfold answer in H.
    destruct (service_create_cases env dto db)
      as (reads & Hr & [[E _] | [[E _] | [(u & E & Hid & Hv & Hmail & Hw) | (u & E & _)]]]);
      rewrite E in H; try discriminate H.
    unfold TypeOrm.insert_violation in Hv. apply existsb_exists in Hv.
    destruct Hv as (v & Hin & Hv).
    apply orb_true_iff in Hv. destruct Hv as [Hv | Hv];
      [apply orb_true_iff in Hv; destruct Hv as [Hv | Hv]|].
    + exists v. split; [exact Hin|]. rewrite <- Hid. apply String.eqb_eq, Hv.
    + exfalso. apply Hmail. exists v. split; [exact Hin | apply String.eqb_eq, Hv].
    + exfalso. unfold TypeOrm.wallet_clash in Hv.
      destruct (User.walletAddress v) as [x|] eqn:Ev; [|discriminate Hv].
      destruct (User.walletAddress u) as [y|] eqn:Eu; [|discriminate Hv].
      apply String.eqb_eq in Hv. subst y.
      specialize (Hw x eq_refl). rewrite existsb_false_forall in Hw.
      specialize (Hw v Hin). unfold matches in Hw. cbn [forallb holds] in Hw.
      rewrite Ev in Hw. cbn [opt_is] in Hw. rewrite String.eqb_refl in Hw.
      discriminate Hw.
  - intros id dto. unfold answer. split.
    + intros [m H]. destruct (String.eqb_spec id "") as [->|Hne]; [discriminate H|].
      split; [exact Hne|]. destruct (uuid_in id) as [k|] eqn:Hk; [|reflexivity].
      exfalso. rewrite (@service_linkWallet_run _ env id k dto db Hne Hk) in H.
      destruct (existsb _ _); [|discriminate H].
      destruct (existsb _ _); [discriminate H|].
      destruct (find _ _); discriminate H.
    + intros [Hne Hk]. rewrite (@service_linkWallet_refused _ env id dto db Hne Hk).
      eexists. reflexivity.
  - intros id. unfold answer. split.
    + intros [m H]. destruct (String.eqb_spec id "") as [->|Hne]; [discriminate H|].
      split; [exact Hne|]. destruct (uuid_in id) as [k|] eqn:Hk; [|reflexivity].
      exfalso. rewrite (@service_delete_run _ id k db Hne Hk) in H.
      destruct (existsb _ _); discriminate H.
    + intros [Hne Hk]. rewrite (@service_delete_refused _ id db Hne Hk).
      eexists. reflexivity.
Qed.

(** *** Invariants of the table *)

Lemma rows_after_eq {A} (m : M A) (db : Db) (r : Result A) (db' : Db) :
  m db = (r, db') -> rows_after m db = table db'.
Proof. intros E. unfold rows_after. rewrite E. reflexivity. Qed.

(** What the rows are after [update], [linkWallet] and [delete], whatever
    they answer. *)
Lemma update_rows_after (env : Env) (id : string) (dto : UpdateUserDto.t) (db : Db) :
  rows_after (UsersService.update env id dto) db = table db
  \/ exists k,
       uuid_in id = Some k
       /\ rows_after (UsersService.update env id dto) db
          = TypeOrm.update_rows k (now env) (rehashed env dto) (table db).
Proof.
  destruct (String.eqb_spec id "") as [->|Hne]; [left; reflexivity|].
  destruct (uuid_in id) as [k|] eqn:Hk.
  2:{ left. unfold rows_after.
      rewrite (@service_update_refused _ env id dto db Hne Hk). reflexivity. }
  destruct (@service_update_cases _ env id k dto db Hne Hk)
    as (reads & Hr & [[E _] | [[E _] | [[E _] | (u & _ & E & _)]]]);
    rewrite (rows_after_eq _ _ E); [left | left | left | right]; try reflexivity.
  exists k. split; reflexivity.
Qed.

Lemma delete_rows_after (id : string) (db : Db) :
  rows_after (UsersService.delete id) db = table db
  \/ exists k,
       uuid_in id = Some k
       /\ rows_after (UsersService.delete id) db
          = filter (fun u => negb (User.id u =? k)%string) (table db).
Proof.
  destruct (String.eqb_spec id "") as [->|Hne]; [left; reflexivity|].
  unfold rows_after. destruct (uuid_in id) as [k|] eqn:Hk.
  - rewrite (@service_delete_run _ id k db Hne Hk).
    destruct (existsb _ _); [right; exists k; split | left]; reflexivity.
  - rewrite (@service_delete_refused _ id db Hne Hk). left. reflexivity.
Qed.

Lemma stored_lowercase_update (i : string) (at_ : Z) (set : UpdateUserDto.t)
  (t : list User.t) :
  UpdateUserDto.walletAddress set = None ->
  stored_lowercase t -> stored_lowercase (TypeOrm.update_rows i at_ set t).
Proof.
  intros Hset Ht v w Hv Hw. unfold TypeOrm.update_rows in Hv.
  apply in_map_iff in Hv. destruct Hv as (u & E & Hu).
  destruct (User.id u =? i)%string; subst v.
  - cbn in Hw. rewrite Hset in Hw. apply (Ht u w Hu Hw).
  - apply (Ht u w Hu Hw).
Qed.

Lemma rehashed_wallet (env : Env) (dto : UpdateUserDto.t) :
  UpdateUserDto.walletAddress (rehashed env dto) = UpdateUserDto.walletAddress dto.
Proof.
  unfold rehashed. destruct (UpdateUserDto.password dto) as [p|]; [|reflexivity].
  destruct (truthy p); reflexivity.
Qed.

(** X8.  Wallet addresses stay in lowercase form: on a table whose stored
    addresses are all lowercase, [create], [linkWallet] and [delete] leave
    such a table for every input, and so does [update] when its input
    carries no wallet address. *)
Theorem wallet_addresses_stay_lowercase (env : Env) (db : Db) :
  stored_lowercase (table db) ->
  (forall dto, stored_lowercase (rows_after (UsersService.create env dto) db))
  /\ (forall id dto, stored_lowercase (rows_after (UsersService.linkWallet env id dto) db))
  /\ (forall id, stored_lowercase (rows_after (UsersService.delete id) db))
  /\ (forall id dto, UpdateUserDto.walletAddress dto = None ->
                     stored_lowercase (rows_after (UsersService.update env id dto) db)).
Proof.
  intros Hlow. refine (conj _ (conj _ (conj _ _))).
  - intros dto. apply create_keeps_lowercase, Hlow.
  - intros id dto. apply linkWallet_keeps_lowercase, Hlow.
  - intros id. destruct (delete_rows_after id db) as [-> | (k & _ & ->)]; [exact Hlow|].
    intros u w Hu. apply filter_In in Hu. apply (Hlow u w (proj1 Hu)).
  - intros id dto Hnone.
    destruct (update_rows_after env id dto db) as [-> | (k & _ & ->)]; [exact Hlow|].
    apply stored_lowercase_update; [|exact Hlow].
    rewrite rehashed_wallet. exact Hnone.
Qed.

(** *** What [update] touches *)

Lemma update_ok_inv (env : Env) (id : string) (dto : UpdateUserDto.t) (db : Db)
  (r : UserResponseDto) (db' : Db) :
  UsersService.update env id dto db = (Ok r, db') ->
  id <> ""
  /\ exists k,
       uuid_in id = Some k
       /\ table db' = TypeOrm.update_rows k (now env) (rehashed env dto) (table db)
       /\ exists u, find (matches [IdIs k]) (table db) = Some u
                    /\ r = UsersService.toResponseDto
                             (TypeOrm.apply_set (now env) (rehashed env dto) u).
Proof.
  intros E. destruct (String.eqb_spec id "") as [->|Hne]; [discriminate E|].
  split; [exact Hne|].
  destruct (uuid_in id) as [k|] eqn:Hk.
  2:{ rewrite (@service_update_refused _ env id dto db Hne Hk) in E. discriminate E. }
  exists k. split; [reflexivity|].
  destruct (@service_update_cases _ env id k dto db Hne Hk)
    as (reads & Hr & [[E' _] | [[E' _] | [[E' _] | (u & Hfind & E' & _)]]]);
    rewrite E' in E; try discriminate E.
  injection E as <- <-. split; [reflexivity|]. exists u. split; [exact Hfind | reflexivity].
Qed.

(** X9.  A successful [update] touches the rows of its user and nothing
    else: the id spells a key, the keys and the creation dates of the table
    are as before, rows with another key are the same rows, and a row with
    the key has each field the input carries replaced and each field it
    omits kept (the password is kept when the input has none), with
    [updatedAt] set to the time of the call. *)
Theorem update_touches_one_user (env : Env) (id : string) (dto : UpdateUserDto.t)
  (db : Db) (r : UserResponseDto) (db' : Db) :
  UsersService.update env id dto db = (Ok r, db') ->
  exists k,
    uuid_in id = Some k
    /\ map User.id (table db') = map User.id (table db)
    /\ map User.createdAt (table db') = map User.createdAt (table db)
    /\ (forall u, User.id u <> k -> (In u (table db') <-> In u (table db)))
    /\ (forall u', In u' (table db') -> User.id u' = k ->
          exists u, In u (table db) /\ User.id u = k
            /\ User.name u' = or_else (UpdateUserDto.name dto) (User.name u)
            /\ User.email u' = or_else (UpdateUserDto.email dto) (User.email u)
            /\ User.role u' = or_else (UpdateUserDto.role dto) (User.role u)
            /\ User.walletAddress u'
               = match UpdateUserDto.walletAddress dto with
                 | Some w => Some w
                 | None => User.walletAddress u
                 end
            /\ (UpdateUserDto.password dto = None -> User.password u' = User.password u)
            /\ User.updatedAt u' = now env).
Proof.
  intros E.
  destruct (@update_ok_inv env id dto db r db' E) as (Hne & k & Hk & Ht & _).
  exists k. split; [exact Hk|]. rewrite Ht.
  destruct (rehashed_fields env dto) as (Hn & He & Hr & _ & Hp & _).
  split; [apply update_rows_key|]. split; [|split].
  - unfold TypeOrm.update_rows. rewrite map_map. apply map_ext. intros u.
    destruct (User.id u =? k)%string; reflexivity.
  - intros u Hu. unfold TypeOrm.update_rows. rewrite in_map_iff. split.
    + intros (v & Ev & Hv). destruct (User.id v =? k)%string eqn:Ei.
      * exfalso. apply Hu. subst u. cbn. apply String.eqb_eq, Ei.
      * subst u. exact Hv.
    + intros Hin. exists u. rewrite (proj2 (String.eqb_neq _ _) Hu). auto.
  - intros u' Hu' Hid.
    destruct (update_rows_In _ _ _ _ Hu' Hid) as (u & Hu & Hi & ->).
    exists u. split; [exact Hu|]. split; [exact Hi|].
    cbn. rewrite Hn, He, Hr, rehashed_wallet.
    repeat split; try reflexivity. intros Hnone. rewrite (Hp Hnone). reflexivity.
Qed.

(** *** Round trips *)

Lemma filter_others (i : string) (t : list User.t) :
  existsb (matches [IdIs i]) t = false ->
  filter (fun u => negb (User.id u =? i)%string) t = t.
Proof.
  intros H. rewrite existsb_false_forall in H.
  induction t as [|u t IH]; [reflexivity|]. cbn.
  assert (Hu := H u (or_introl eq_refl)). unfold matches in Hu. cbn in Hu.
  rewrite andb_true_r in Hu. rewrite Hu. cbn. f_equal.
  apply IH. intros v Hv. apply H. right. exact Hv.
Qed.

(** X10.  [create] then [delete]: deleting the user a successful [create]
    returned succeeds and leaves the table as it was before the [create]. *)
Theorem create_then_delete (env : Env) (dto : CreateUserDto.t) (db : Db)
  (r : UserResponseDto) (db' : Db) :
  uuid env <> "" ->
  UsersService.create env dto db = (Ok r, db') ->
  answer (UsersService.delete (uuid env)) db' = Ok tt
  /\ rows_after (UsersService.delete (uuid env)) db' = table db.
Proof.
  intros Hne E.
  destruct (create_returned _ _ _ E) as (saved & _ & Ht & Hid & Hv & _).
  assert (Hfresh := insert_violation_key _ _ Hv). rewrite Hid in Hfresh.
  assert (Hex : existsb (matches [IdIs (uuid env)]) (table db ++ [saved]) = true).
  { rewrite existsb_app. apply orb_true_iff. right. cbn.
    rewrite Hid, String.eqb_refl. reflexivity. }
  assert (Hfil : filter (fun u => negb (User.id u =? uuid env)%string)
                   (table db ++ [saved]) = table db).
  { rewrite filter_app, (filter_others _ _ Hfresh). cbn [filter].
    rewrite Hid, String.eqb_refl. cbn [negb]. apply app_nil_r. }
  unfold answer, rows_after.
  rewrite (@service_delete_run _ (uuid env) (uuid env) db' Hne (uuid_ok env)).
  rewrite Ht, Hex, Hfil. split; reflexivity.
Qed.

Lemma find_linked (a i : string) (at_ : Z) (t : list User.t) (u : User.t) :
  existsb (matches [WalletAddressIs (toLowerCase a); IdIsNot i]) t = false ->
  find (matches [IdIs i]) t = Some u ->
  find (matches [WalletAddressIs (toLowerCase a)])
    (TypeOrm.update_rows i at_ (wallet_only a) t)
  = Some (TypeOrm.apply_set at_ (wallet_only a) u).
Proof.
  intros Hother. induction t as [|v t IH]; [intros E; discriminate E|].
  cbn [existsb] in Hother. apply orb_false_iff in Hother. destruct Hother as [Hv Ht].
  unfold matches in Hv. cbn [forallb holds] in Hv. rewrite andb_true_r in Hv.
  cbn [find TypeOrm.update_rows map].
  fold (TypeOrm.update_rows i at_ (wallet_only a) t).
  assert (Hm : forall x, matches [IdIs i] x = (User.id x =? i)%string).
  { intros x. unfold matches. cbn. apply andb_true_r. }
  rewrite Hm. destruct (User.id v =? i)%string eqn:Ei.
  - intros E. injection E as <-.
    assert (Hw : matches [WalletAddressIs (toLowerCase a)]
                   (TypeOrm.apply_set at_ (wallet_only a) v) = true).
    { unfold matches. cbn. rewrite String.eqb_refl. reflexivity. }
    rewrite Hw. reflexivity.
  - cbn [negb] in Hv. rewrite andb_true_r in Hv.
    assert (Hw : matches [WalletAddressIs (toLowerCase a)] v = false).
    { unfold matches. cbn [forallb holds]. rewrite Hv. reflexivity. }
    rewrite Hw. intros E. apply (IH Ht E).
Qed.

(** X11.  [linkWallet] then [findByWalletAddress]: after a successful link
    of a non-empty address, looking the address up in any spelling with the
    same lowercase form returns the record the link returned. *)
Theorem linkWallet_then_findByWalletAddress (env : Env) (id : string)
  (dto : LinkWalletDto.t) (db : Db) (r : UserResponseDto) (db' : Db) :
  LinkWalletDto.walletAddress dto <> "" ->
  UsersService.linkWallet env id dto db = (Ok r, db') ->
  prop "walletAddress" r = Some (JString (toLowerCase (LinkWalletDto.walletAddress dto)))
  /\ forall b, toLowerCase b = toLowerCase (LinkWalletDto.walletAddress dto) ->
               answer (UsersService.findByWalletAddress b) db' = Ok r.
Proof.
  intros Ha E. destruct (String.eqb_spec id "") as [->|Hne]; [discriminate E|].
  destruct (uuid_in id) as [k|] eqn:Hk.
  2:{ rewrite (@service_linkWallet_refused _ env id dto db Hne Hk) in E.
      discriminate E. }
  rewrite (@service_linkWallet_run _ env id k dto db Hne Hk) in E.
  destruct (existsb (matches [IdIs k]) (table db)); [|discriminate E].
  destruct (existsb _ (table db)) eqn:Hother; [discriminate E|].
  destruct (find (matches [IdIs k]) (table db)) as [u|] eqn:Hfind; [|discriminate E].
  injection E as <- <-. split; [reflexivity|].
  intros b Hb. unfold answer, UsersService.findByWalletAddress.
  assert (Hbne : truthy b = true).
  { apply truthy_true. intros Eb. subst b. cbn in Hb. symmetry in Hb.
    apply (proj1 (toLowerCase_empty _)) in Hb. contradiction. }
  rewrite Hbne. unfold bind, ret, throw. cbn [negb]. cbv beta iota.
  rewrite findByWalletAddress_run. cbn [table]. rewrite Hb.
  rewrite (find_linked _ _ _ _ Hother Hfind). cbn [option_map fst].
  rewrite toResponseDto_project. reflexivity.
Qed.

(** X12.  The record a successful [update] or [linkWallet] returns is the
    record [findById] returns for that id right after. *)
Theorem write_then_findById (env : Env) (id : string) (db : Db)
  (r : UserResponseDto) (db' : Db) :
  (forall dto, UsersService.update env id dto db = (Ok r, db') ->
               answer (UsersService.findById id) db' = Ok r)
  /\ (forall dto, UsersService.linkWallet env id dto db = (Ok r, db') ->
                  answer (UsersService.findById id) db' = Ok r).
Proof.
  assert (read : forall k set u,
            id <> "" -> uuid_in id = Some k ->
            find (matches [IdIs k]) (table db) = Some u ->
            table db' = TypeOrm.update_rows k (now env) set (table db) ->
            answer (UsersService.findById id) db'
            = Ok (UsersService.toResponseDto (TypeOrm.apply_set (now env) set u))).
  { intros k set u Hne Hk Hfind Ht. unfold answer, UsersService.findById.
    rewrite (proj2 (truthy_true id) Hne). unfold bind, ret, throw. cbn [negb].
    cbv beta iota. rewrite (@findById_run _ id k db' Hk), Ht, find_update_rows, Hfind.
    cbn [option_map fst]. rewrite toResponseDto_project. reflexivity. }
  split.
  - intros dto E.
    destruct (@update_ok_inv env id dto db r db' E) as (Hne & k & Hk & Ht & u & Hfind & ->).
    apply (read _ _ _ Hne Hk Hfind Ht).
  - intros dto E. destruct (String.eqb_spec id "") as [->|Hne]; [discriminate E|].
    destruct (uuid_in id) as [k|] eqn:Hk.
    2:{ rewrite (@service_linkWallet_refused _ env id dto db Hne Hk) in E.
        discriminate E. }
    rewrite (@service_linkWallet_run _ env id k dto db Hne Hk) in E.
    destruct (existsb (matches [IdIs k]) (table db)); [|discriminate E].
    destruct (existsb _ (table db)); [discriminate E|].
    destruct (find (matches [IdIs k]) (table db)) as [u|] eqn:Hfind; [|discriminate E].
    injection E as <- <-. apply (read k _ _ Hne eq_refl Hfind). reflexivity.
Qed.

(** *** Creating twice *)

Lemma create_email_conflict (env : Env) (dto : CreateUserDto.t) (db : Db) :
  email_taken (CreateUserDto.email dto) (table db) ->
  UsersService.create env dto db
  = (Throw (ConflictException "Email already exists"),
     logged db [Count [EmailIs (CreateUserDto.email dto)]]).
Proof.
  intros He. unfold UsersService.create, bind, ret, throw.
  rewrite emailExists_run. cbv beta iota.
  rewrite (proj2 (by_email_spec _ _) He). reflexivity.
Qed.

Lemma create_wallet_conflict (env : Env) (dto : CreateUserDto.t) (db : Db) (w : string) :
  ~ email_taken (CreateUserDto.email dto) (table db) ->
  CreateUserDto.walletAddress dto = Some w -> w <> "" ->
  wallet_taken w (table db) ->
  UsersService.create env dto db
  = (Throw (ConflictException "Wallet address is already linked to another account"),
     logged db [Count [EmailIs (CreateUserDto.email dto)];
                Count [WalletAddressIs (toLowerCase w)]]).
Proof.
  intros He Hw Hne Hwt. unfold UsersService.create, bind, ret, throw.
  rewrite emailExists_run. cbv beta iota.
  rewrite (not_true_false (by_email_spec _ _) He). cbv beta iota.
  rewrite Hw, (proj2 (truthy_true w) Hne). rewrite walletExists_run. cbv beta iota.
  rewrite table_logged, (proj2 (by_wallet_spec _ _) Hwt), logged_logged. reflexivity.
Qed.

(** X13.  Creating twice: after a successful [create], a [create] with the
    same email fails with the email Conflict whatever its other fields, and
    a [create] with the wallet address of the first in any spelling fails
    with a Conflict; neither adds a row. *)
Theorem create_twice (env : Env) (dto : CreateUserDto.t) (db : Db)
  (r : UserResponseDto) (db' : Db) :
  UsersService.create env dto db = (Ok r, db') ->
  (forall env' dto',
      CreateUserDto.email dto' = CreateUserDto.email dto ->
      answer (UsersService.create env' dto') db'
      = Throw (ConflictException "Email already exists")
      /\ rows_after (UsersService.create env' dto') db' = table db')
  /\ (forall env' dto' a b,
         CreateUserDto.walletAddress dto = Some a -> a <> "" ->
         CreateUserDto.walletAddress dto' = Some b ->
         toLowerCase b = toLowerCase a ->
         exists m, answer (UsersService.create env' dto') db'
                   = Throw (ConflictException m)
                   /\ rows_after (UsersService.create env' dto') db' = table db').
Proof.
  intros E.
  destruct (service_create_cases env dto db)
    as (reads & Hr & [[E' _] | [[E' _] | [(u & E' & _) | (u & E' & _ & _ & Hmail & Hw)]]]);
    rewrite E' in E; try discriminate E.
  injection E as _ <-. cbn [table].
  assert (Hin : In u (table db ++ [u])) by (apply in_or_app; right; left; reflexivity).
  split.
  - intros env' dto' Hsame. unfold answer, rows_after.
    rewrite create_email_conflict; [split; reflexivity|].
    exists u. split; [exact Hin|]. rewrite Hsame. exact Hmail.
  - intros env' dto' a b Ha Hane Hb Hcase. unfold answer, rows_after.
    set (d := mkDb (table db ++ [u]) (journal db ++ reads ++ [Insert u])).
    destruct (existsb (matches [EmailIs (CreateUserDto.email dto')]) (table d)) eqn:He.
    + rewrite create_email_conflict; [|apply by_email_spec, He].
      eexists. split; reflexivity.
    + assert (Hbne : b <> "").
      { intros ->. cbn in Hcase. symmetry in Hcase.
        apply (proj1 (toLowerCase_empty _)) in Hcase. contradiction. }
      rewrite (@create_wallet_conflict env' dto' d b); try assumption.
      * eexists. split; reflexivity.
      * intros H. apply by_email_spec in H. rewrite He in H. discriminate H.
      * exists u. split; [exact Hin|]. rewrite Hw, Ha, Hcase.
        rewrite (proj2 (truthy_true a) Hane). reflexivity.
Qed.

(** *** The probes and the reads of the repository *)

(** X14.  The three probes answer by what the table holds, and the store
    refuses them when an id they are given is not a uuid.  [exists] tells
    whether a row has the key its id spells.  [emailExists] tells whether a
    row has exactly the email, and [walletExists] whether a row has the
    lowercase form of the address; with an [excludeId] that is not empty the
    rows with the key it spells do not count, and an empty [excludeId]
    excludes nothing. *)
Theorem probes_answer_by_the_table (db : Db) :
  let t := table db in
  (forall i k, uuid_in i = Some k -> decides (UsersRepository.exists_ i) db (user_exists k t))
  /\ (forall i, uuid_in i = None -> refused (UsersRepository.exists_ i) db)
  /\ (forall e x, x = None \/ x = Some "" ->
         decides (UsersRepository.emailExists e x) db (email_taken e t))
  /\ (forall e i k, i <> "" -> uuid_in i = Some k ->
         decides (UsersRepository.emailExists e (Some i)) db (email_taken_by_other e k t))
  /\ (forall a x, x = None \/ x = Some "" ->
         decides (UsersRepository.walletExists a x) db (wallet_taken a t))
  /\ (forall a i k, i <> "" -> uuid_in i = Some k ->
         decides (UsersRepository.walletExists a (Some i)) db
           (wallet_taken_by_other a k t))
  /\ (forall x i, i <> "" -> uuid_in i = None ->
         refused (UsersRepository.emailExists x (Some i)) db
         /\ refused (UsersRepository.walletExists x (Some i)) db).
Proof.
  intros t. subst t. unfold decides, refused, answer.
  refine (conj _ (conj _ (conj _ (conj _ (conj _ (conj _ _)))))).
  - intros i k Hk. eexists. rewrite (@exists_run _ i k db Hk).
    split; [reflexivity | apply by_id_spec].
  - intros i Hk. rewrite (@exists_refused _ i db Hk). reflexivity.
  - intros e x [-> | ->]; eexists.
    + rewrite emailExists_run. split; [reflexivity | apply by_email_spec].
    + change (UsersRepository.emailExists e (Some "") db)
        with (UsersRepository.emailExists e None db).
      rewrite emailExists_run. split; [reflexivity | apply by_email_spec].
  - intros e i k Hne Hk. eexists. rewrite (@emailExists_other_run _ e i k db Hne Hk).
    split; [reflexivity | apply by_email_other_spec].
  - intros a x [-> | ->]; eexists.
    + rewrite walletExists_run. split; [reflexivity | apply by_wallet_spec].
    + change (UsersRepository.walletExists a (Some "") db)
        with (UsersRepository.walletExists a None db).
      rewrite walletExists_run. split; [reflexivity | apply by_wallet_spec].
  - intros a i k Hne Hk. eexists. rewrite (@walletExists_other_run _ a i k db Hne Hk).
    split; [reflexivity | apply by_wallet_other_spec].
  - intros x i Hne Hk. destruct (@probes_refused _ x i db Hne Hk) as [-> ->].
    split; reflexivity.
Qed.

Lemma applyDateFilters_keeps (qb : SelectQueryBuilder) (f : DateRangeFilterDto.t) :
  qb_select (UsersRepository.applyDateFilters qb f) = qb_select qb
  /\ qb_orderBy (UsersRepository.applyDateFilters qb f) = qb_orderBy qb
  /\ qb_skip (UsersRepository.applyDateFilters qb f) = qb_skip qb
  /\ qb_take (UsersRepository.applyDateFilters qb f) = qb_take qb
  /\ qb_where (UsersRepository.applyDateFilters qb f)
     = (qb_where qb
        ++ qb_where (UsersRepository.applyDateFilters TypeOrm.createQueryBuilder f))%list.
Proof.
  unfold UsersRepository.applyDateFilters.
  destruct (DateRangeFilterDto.startDate f) as [s1|]; [destruct (truthy s1)|];
    (destruct (DateRangeFilterDto.endDate f) as [s2|]; [destruct (truthy s2)|]);
    cbn; rewrite <- ?app_assoc, ?app_nil_r; repeat split; reflexivity.
Qed.

(** The listing is one SELECT of the read columns, newest first, whose WHERE
    clause is the date filter's. *)
Lemma findAll_query (page limit : option number) (filters : option DateRangeFilterDto.t) :
  exists qb,
    UsersRepository.findAll page limit filters = TypeOrm.getManyAndCount qb
    /\ qb_select qb = Some UsersRepository.read_columns
    /\ qb_orderBy qb = true
    /\ qb_where qb
       = match filters with
         | Some f => qb_where (UsersRepository.applyDateFilters TypeOrm.createQueryBuilder f)
         | None => []
         end
    /\ ((truthy_num page && truthy_num limit)%bool = false ->
        qb_skip qb = None /\ qb_take qb = None)
    /\ TypeOrm.read_where (qb_where qb) = Some (qb_where qb).
Proof.
  assert (Hdates : forall f,
            TypeOrm.read_where
              (qb_where (UsersRepository.applyDateFilters TypeOrm.createQueryBuilder f))
            = Some (qb_where
                      (UsersRepository.applyDateFilters TypeOrm.createQueryBuilder f))).
  { intros f. unfold UsersRepository.applyDateFilters.
    destruct (DateRangeFilterDto.startDate f) as [s1|]; [destruct (truthy s1)|];
      (destruct (DateRangeFilterDto.endDate f) as [s2|]; [destruct (truthy s2)|]);
      reflexivity. }
  assert (Hread : forall w,
            w = match filters with
                | Some f =>
                    qb_where (UsersRepository.applyDateFilters
                                TypeOrm.createQueryBuilder f)
                | None => []
                end -> TypeOrm.read_where w = Some w).
  { intros w ->. destruct filters as [f|]; [apply Hdates | reflexivity]. }
  unfold UsersRepository.findAll. cbv zeta. eexists. split; [reflexivity|].
  set (base := match filters with
               | Some f => UsersRepository.applyDateFilters _ f
               | None => _
               end).
  assert (Hbase : qb_select base = Some UsersRepository.read_columns
                  /\ qb_orderBy base = true
                  /\ qb_where base
                     = match filters with
                       | Some f =>
                           qb_where (UsersRepository.applyDateFilters
                                       TypeOrm.createQueryBuilder f)
                       | None => []
                       end
                  /\ qb_skip base = None /\ qb_take base = None).
  { subst base. destruct filters as [f|]; [|repeat split; reflexivity].
    destruct (applyDateFilters_keeps
                (TypeOrm.orderBy_createdAt_DESC
                   (TypeOrm.select UsersRepository.read_columns
                      TypeOrm.createQueryBuilder)) f) as (-> & -> & -> & -> & ->).
    repeat split; reflexivity. }
  destruct Hbase as (H1 & H2 & H3 & H4 & H5).
  destruct page as [pg|]; [|repeat split; try assumption; apply Hread, H3].
  destruct limit as [lm|]; [|repeat split; try assumption; apply Hread, H3].
  cbn [truthy_num].
  destruct (Number.truthy pg && Number.truthy lm)%bool;
    (split; [assumption|]; split; [assumption|]; split; [assumption|];
     split; [|apply Hread, H3]);
    intros E; [discriminate E | split; assumption].
Qed.

Lemma in_firstn {A} (n : nat) (l : list A) (x : A) : In x (firstn n l) -> In x l.
Proof. intros H. rewrite <- (firstn_skipn n l). apply in_or_app. left. exact H. Qed.

Lemma in_skipn {A} (n : nat) (l : list A) (x : A) : In x (List.skipn n l) -> In x l.
Proof. intros H. rewrite <- (firstn_skipn n l). apply in_or_app. right. exact H. Qed.

Lemma in_page (off lim : option nat) (l : list User.t) (x : User.t) :
  In x (TypeOrm.paginate off lim l) -> In x l.
Proof.
  unfold TypeOrm.paginate. intros H.
  destruct lim as [k|]; [apply in_firstn in H|];
    (destruct off as [n|]; [apply in_skipn in H|]); exact H.
Qed.

Lemma getManyAndCount_rows (qb : SelectQueryBuilder) (db : Db)
  (us : list User.t) (total : Z) :
  TypeOrm.read_where (qb_where qb) = Some (qb_where qb) ->
  answer (TypeOrm.getManyAndCount qb) db = Ok (us, total) ->
  total = Z.of_nat (length (filter (matches (qb_where qb)) (table db)))
  /\ forall u, In u us ->
       exists v, In v (table db) /\ matches (qb_where qb) v = true
                 /\ u = TypeOrm.project (qb_select qb) v.
Proof.
  intros Hread.
  unfold answer, TypeOrm.getManyAndCount, bind, issue, rows, ret, throw.
  rewrite Hread. cbv beta iota. cbn [table].
  destruct (TypeOrm.window (qb_skip qb)) as [off|]; [|intros H; discriminate H].
  destruct (TypeOrm.window (qb_take qb)) as [lim|]; [|intros H; discriminate H].
  cbn [fst]. intros H. injection H as <- <-. split; [reflexivity|].
  intros u Hu. apply in_map_iff in Hu. destruct Hu as (v & <- & Hv).
  exists v. apply in_page in Hv.
  assert (Hv' : In v (filter (matches (qb_where qb)) (table db))).
  { destruct (qb_orderBy qb); [apply (Permutation_in _ (orderBy_perm _)) in Hv|];
      exact Hv. }
  apply filter_In in Hv'. destruct Hv' as [Hin Hm].
  split; [exact Hin|]. split; [exact Hm | reflexivity].
Qed.

(** X15.  What the reads of the repository hand out: [findById],
    [findByWalletAddress] and [findAll] return rows of the table without
    their password, the row [findById] returns having the key its id spells,
    while [findByEmail] returns the first row with exactly that email as it
    is stored, password hash included, and nothing when no row has the
    email. *)
Theorem repository_reads (db : Db) :
  (forall i u, answer (UsersRepository.findById i) db = Ok (Some u) ->
               User.password u = None
               /\ exists v, In v (table db) /\ uuid_in i = Some (User.id v)
                            /\ u = without_password v)
  /\ (forall a u, answer (UsersRepository.findByWalletAddress a) db = Ok (Some u) ->
                  User.password u = None
                  /\ exists v, In v (table db)
                               /\ User.walletAddress v = Some (toLowerCase a)
                               /\ u = without_password v)
  /\ (forall page limit filters us total,
         answer (UsersRepository.findAll page limit filters) db = Ok (us, total) ->
         forall u, In u us ->
                   User.password u = None
                   /\ exists v, In v (table db) /\ u = without_password v)
  /\ (forall e u, answer (UsersRepository.findByEmail e) db = Ok (Some u) ->
                  In u (table db) /\ User.email u = e)
  /\ (forall e, answer (UsersRepository.findByEmail e) db = Ok None
                <-> ~ email_taken e (table db)).
Proof.
  refine (conj _ (conj _ (conj _ (conj _ _)))).
  - intros i u H. unfold answer in H. destruct (uuid_in i) as [k|] eqn:Hk.
    2:{ rewrite (@findById_refused _ i db Hk) in H. discriminate H. }
    rewrite (@findById_run _ i k db Hk) in H. cbn [fst] in H.
    destruct (find _ _) as [v|] eqn:E; [|discriminate H].
    injection H as <-. split; [reflexivity|]. exists v.
    apply find_some in E. destruct E as [Hin Hm].
    unfold matches in Hm. cbn in Hm. rewrite andb_true_r in Hm.
    apply String.eqb_eq in Hm. rewrite Hm.
    split; [exact Hin|]. split; reflexivity.
  - intros a u H. unfold answer in H. rewrite findByWalletAddress_run in H.
    cbn [fst] in H. destruct (find _ _) as [v|] eqn:E; [|discriminate H].
    injection H as <-. split; [reflexivity|]. exists v.
    apply find_some in E. destruct E as [Hin Hm].
    unfold matches in Hm. cbn [forallb holds] in Hm. rewrite andb_true_r in Hm.
    split; [exact Hin|]. split; [apply opt_is_eq, Hm | reflexivity].
  - intros page limit filters us total H u Hu.
    destruct (findAll_query page limit filters) as (qb & Eq & Hsel & _ & _ & _ & Hread).
    rewrite Eq in H.
    destruct (proj2 (getManyAndCount_rows _ _ Hread H) u Hu) as (v & Hv & _ & ->).
    rewrite Hsel. split; [reflexivity|]. exists v. split; [exact Hv | reflexivity].
  - intros e u H. unfold answer, UsersRepository.findByEmail, TypeOrm.findOne,
      bind, issue, rows, ret in H. cbn [fst table TypeOrm.read_where TypeOrm.read_cond] in H.
    destruct (find _ _) as [v|] eqn:E; [|discriminate H].
    cbn in H. injection H as <-. apply find_some in E. destruct E as [Hin Hm].
    unfold matches in Hm. cbn in Hm. rewrite andb_true_r in Hm.
    split; [exact Hin | apply String.eqb_eq, Hm].
  - intros e. unfold answer, UsersRepository.findByEmail, TypeOrm.findOne,
      bind, issue, rows, ret. cbn [fst table TypeOrm.read_where TypeOrm.read_cond].
    rewrite <- (by_email_spec e (table db)), find_existsb.
    destruct (find _ _); cbn; split; intros H; try reflexivity; try discriminate H.
    + exfalso. apply H. reflexivity.
    + intros H'. discriminate H'.
Qed.

(** X16.  [findByIdOrThrow]: when a row has the key the id spells, the
    answer is that row without its password; when none has, the call throws
    what the handler throws, and without a handler a BadRequest "cannot find
    user"; and when the id is not a uuid the store's refusal comes through,
    the handler not being asked. *)
Theorem findByIdOrThrow_outcomes (i : string) (onNotFound : option Exception) (db : Db) :
  (forall k, uuid_in i = Some k -> user_exists k (table db) ->
   exists v, In v (table db) /\ User.id v = k
             /\ answer (UsersRepository.findByIdOrThrow i onNotFound) db
                = Ok (without_password v))
  /\ (forall k, uuid_in i = Some k -> ~ user_exists k (table db) ->
      answer (UsersRepository.findByIdOrThrow i onNotFound) db
      = Throw (or_else onNotFound (BadRequestException "cannot find user")))
  /\ (uuid_in i = None ->
      answer (UsersRepository.findByIdOrThrow i onNotFound) db
      = Throw TypeOrm.invalid_uuid).
Proof.
  unfold answer, UsersRepository.findByIdOrThrow, bind, ret, throw.
  split; [|split].
  - intros k Hk Hex. rewrite (@findById_run _ i k db Hk). cbv beta iota.
    destruct (find_by_id_some _ _ (proj2 (by_id_spec _ _) Hex))
      as (v & -> & Hin & Hid).
    exists v. split; [exact Hin|]. split; [exact Hid | reflexivity].
  - intros k Hk Hno. rewrite (@findById_run _ i k db Hk). cbv beta iota.
    assert (H := not_true_false (by_id_spec _ _) Hno).
    rewrite find_existsb in H. destruct (find _ _); [discriminate H|].
    destruct onNotFound; reflexivity.
  - intros Hk. rewrite (@findById_refused _ i db Hk). reflexivity.
Qed.

(** *** Date filters *)

Lemma date_conditions_spec (f : DateRangeFilterDto.t) (v : User.t) :
  matches (qb_where (UsersRepository.applyDateFilters TypeOrm.createQueryBuilder f)) v
  = true
  <-> in_range f v.
Proof.
  unfold in_range, UsersRepository.applyDateFilters, matches.
  destruct (DateRangeFilterDto.startDate f) as [s1|]; [destruct (truthy s1) eqn:T1|];
    (destruct (DateRangeFilterDto.endDate f) as [s2|]; [destruct (truthy s2) eqn:T2|]);
    cbn [TypeOrm.andWhere TypeOrm.createQueryBuilder qb_where app forallb holds];
    rewrite ?andb_true_r, ?andb_true_iff, ?Z.leb_le;
    (split;
     [ intros H; split; intros s E Hs; try discriminate E;
       try (injection E as <-); try (apply truthy_true in Hs; congruence);
       try apply H; try exact H
     | intros [Ha Hb]; repeat split;
       try (apply (Ha _ eq_refl); apply truthy_true; assumption);
       try (apply (Hb _ eq_refl); apply truthy_true; assumption) ]).
Qed.

Lemma getManyAndCount_all (qb : SelectQueryBuilder) (db : Db) :
  TypeOrm.read_where (qb_where qb) = Some (qb_where qb) ->
  qb_orderBy qb = true -> qb_skip qb = None -> qb_take qb = None ->
  answer (TypeOrm.getManyAndCount qb) db
  = Ok (map (TypeOrm.project (qb_select qb))
          (TypeOrm.orderByCreatedAtDesc (filter (matches (qb_where qb)) (table db))),
        Z.of_nat (length (filter (matches (qb_where qb)) (table db)))).
Proof.
  intros Hread Ho Hs Ht.
  unfold answer, TypeOrm.getManyAndCount, bind, issue, rows, ret, throw.
  rewrite Hread. cbv beta iota. rewrite Ho, Hs, Ht. reflexivity.
Qed.

(** X17.  The date filter of the repository's listing: every row listed has
    its [createdAt] within the bounds given (an absent or empty bound is no
    bound), the total is the number of rows within the bounds whatever the
    page, and the listing without page and limit holds every such row. *)
Theorem findAll_date_filter (page limit : option number) (f : DateRangeFilterDto.t)
  (db : Db) (us : list User.t) (total : Z) :
  answer (UsersRepository.findAll page limit (Some f)) db = Ok (us, total) ->
  (forall u, In u us ->
             exists v, In v (table db) /\ in_range f v /\ u = without_password v)
  /\ exists all,
       answer (UsersRepository.findAll None None (Some f)) db = Ok (all, total)
       /\ total = Z.of_nat (length all)
       /\ (forall v, In v (table db) -> in_range f v -> In (without_password v) all).
Proof.
  intros H.
  destruct (findAll_query page limit (Some f)) as (qb & Eq & Hsel & _ & Hw & _ & Hread).
  rewrite Eq in H. destruct (getManyAndCount_rows _ _ Hread H) as (Htotal & Hrows).
  split.
  - intros u Hu. destruct (Hrows u Hu) as (v & Hv & Hm & ->).
    exists v. split; [exact Hv|]. rewrite Hw in Hm.
    split; [apply date_conditions_spec, Hm|]. rewrite Hsel. reflexivity.
  - destruct (findAll_query None None (Some f))
      as (qb0 & Eq0 & Hsel0 & Ho0 & Hw0 & Hp0 & Hread0).
    destruct (Hp0 eq_refl) as [Hs0 Ht0].
    eexists. rewrite Eq0, (@getManyAndCount_all qb0 db Hread0 Ho0 Hs0 Ht0).
    rewrite Htotal, Hw, Hw0, Hsel0. split; [reflexivity|]. split.
    + rewrite length_map. rewrite (Permutation_length (orderBy_perm _)). reflexivity.
    + intros v Hv Hr. apply in_map_iff. exists v. split; [reflexivity|].
      apply (Permutation_in _ (Permutation_sym (orderBy_perm _))).
      apply filter_In. split; [exact Hv | apply date_conditions_spec, Hr].
Qed.

(** *** Pages *)

Lemma firstn_plus {A} (a b : nat) (l : list A) :
  firstn (a + b) l = (firstn a l ++ firstn b (List.skipn a l))%list.
Proof.
  revert l. induction a as [|a IH]; intros l; [reflexivity|].
  destruct l as [|x l]; cbn.
  - rewrite firstn_nil. reflexivity.
  - rewrite IH. reflexivity.
Qed.

(** With all instants different, newest first is one order only. *)
Lemma newest_first_unique (l1 l2 : list User.t) :
  NoDup (map User.createdAt l1) -> Permutation l1 l2 ->
  StronglySorted newer_or_same l1 -> StronglySorted newer_or_same l2 -> l1 = l2.
Proof.
  revert l2. induction l1 as [|a l1 IH]; intros l2 Hnd Hp H1 H2.
  - apply Permutation_nil in Hp. subst l2. reflexivity.
  - destruct l2 as [|b l2].
    { apply Permutation_sym, Permutation_nil in Hp. discriminate Hp. }
    inversion H1 as [|? ? Hs1 Ha]; subst. inversion H2 as [|? ? Hs2 Hb]; subst.
    cbn [map] in Hnd. apply NoDup_cons_iff in Hnd. destruct Hnd as [Hna Hnd].
    assert (Eab : a = b).
    { assert (Hin_a : In a (b :: l2)).
      { apply (Permutation_in _ Hp). left. reflexivity. }
      assert (Hin_b : In b (a :: l1)).
      { apply (Permutation_in _ (Permutation_sym Hp)). left. reflexivity. }
      destruct Hin_a as [E|Hin_a]; [symmetry; exact E|].
      destruct Hin_b as [E|Hin_b]; [exact E|].
      exfalso. rewrite Forall_forall in Ha, Hb.
      specialize (Ha b Hin_b). specialize (Hb a Hin_a). unfold newer_or_same in *.
      apply Hna. replace (User.createdAt a) with (User.createdAt b) by lia.
      apply in_map, Hin_b. }
    subst b. f_equal. apply IH; try assumption.
    apply (Permutation_cons_inv Hp).
Qed.

Lemma listing_page (p l : Z) (db : Db) :
  1 <= p -> 1 <= l ->
  listing (Some (Num p)) (Some (Num l)) db
  = firstn (Z.to_nat l) (List.skipn (Z.to_nat ((p - 1) * l)) (listing None None db)).
Proof.
  intros Hp Hl. unfold listing, answer.
  rewrite (service_findAll_paginated db Hp Hl).
  rewrite (@service_findAll_unpaginated _ None None db eq_refl). cbn [fst].
  rewrite skipn_map, firstn_map. reflexivity.
Qed.

Lemma listing_length (db : Db) :
  length (listing None None db) = length (table db).
Proof.
  unfold listing, answer.
  rewrite (@service_findAll_unpaginated _ None None db eq_refl). cbn [fst].
  rewrite length_map. apply Permutation_length, orderBy_perm.
Qed.

(** X18.  Pages tile the listing.  On a table whose rows all differ in
    their creation instant, ORDER BY createdAt DESC leaves no order open
    from one query to the next: the listing without page and limit is the
    one arrangement of the rows that is newest first.  Then, for a limit
    l >= 1, pages 1 to n laid end to end are the first n*l records of that
    listing, with no record repeated or skipped, and are the whole listing
    once n*l reaches the number of rows; a page that starts at or past the
    end is empty. *)
Theorem pages_tile_the_listing (l : Z) (n : nat) (db : Db) :
  NoDup (map User.createdAt (table db)) ->
  1 <= l ->
  let pages :=
    concat (map (fun p => listing (Some (Num (Z.of_nat p))) (Some (Num l)) db)
              (seq 1 n)) in
  (forall rows, Permutation rows (table db) -> StronglySorted newer_or_same rows ->
                listing None None db = map UsersService.toResponseDto rows)
  /\ pages = firstn (n * Z.to_nat l) (listing None None db)
  /\ (Z.of_nat (length (table db)) <= Z.of_nat n * l -> pages = listing None None db)
  /\ (forall p, 1 <= p -> Z.of_nat (length (table db)) <= (p - 1) * l ->
                listing (Some (Num p)) (Some (Num l)) db = []).
Proof.
  intros Hnd Hl pages.
  assert (Htile : pages = firstn (n * Z.to_nat l) (listing None None db)).
  { subst pages. induction n as [|n IH]; [reflexivity|].
    rewrite seq_S, map_app, concat_app, IH. cbn [map concat]. rewrite app_nil_r.
    rewrite listing_page by lia.
    replace (Z.to_nat ((Z.of_nat (1 + n) - 1) * l)) with (n * Z.to_nat l)%nat by nia.
    replace (S n * Z.to_nat l)%nat with (n * Z.to_nat l + Z.to_nat l)%nat by lia.
    symmetry. apply firstn_plus. }
  split.
  { intros rows Hp Hs. unfold listing, answer.
    rewrite (@service_findAll_unpaginated _ None None db eq_refl). cbn [fst].
    f_equal. symmetry. apply newest_first_unique; try assumption.
    - apply (Permutation_NoDup (l := map User.createdAt (table db))); [|exact Hnd].
      apply Permutation_map, Permutation_sym, Hp.
    - apply (perm_trans Hp), Permutation_sym, orderBy_perm.
    - apply orderBy_sorted. }
  split; [exact Htile|]. split.
  - intros Hall. rewrite Htile. apply firstn_all2. rewrite listing_length. nia.
  - intros p Hp Hpast. rewrite (listing_page db Hp Hl).
    rewrite skipn_all2; [apply firstn_nil|]. rewrite listing_length. lia.
Qed.

(** X19.  A page or a limit that is absent or zero turns pagination off:
    the service lists every row, newest first, with one SELECT that has no
    OFFSET and no LIMIT; so GET /users with page or limit "0" answers with
    the whole table and echoes the 0. *)
Theorem zero_turns_pagination_off (db : Db) :
  let everything :=
    (map UsersService.toResponseDto (TypeOrm.orderByCreatedAtDesc (table db)),
     Z.of_nat (length (table db))) in
  (forall page limit,
      page = None \/ limit = None \/ page = Some (Num 0) \/ limit = Some (Num 0) ->
      UsersService.findAll page limit db
      = (Ok everything, logged db [Select select_all]))
  /\ (forall page limit,
         parseInt (or_else page "1") = Num 0 \/ parseInt (or_else limit "10") = Num 0 ->
         UsersController.findAll page limit db
         = (Ok (UsersController.mkPage "Users retrieved successfully"
                  (fst everything) (snd everything)
                  (parseInt (or_else page "1")) (parseInt (or_else limit "10"))),
            logged db [Select select_all])).
Proof.
  intros everything. split.
  - intros page limit H. apply service_findAll_unpaginated.
    destruct H as [-> | [-> | [-> | ->]]]; try reflexivity; apply andb_false_r.
  - intros page limit H. unfold UsersController.findAll, bind.
    rewrite service_findAll_unpaginated; [reflexivity|].
    destruct H as [-> | ->]; [reflexivity | apply andb_false_r].
Qed.

End Coverage.

(* ===================================================================== *)
(** ** The further properties at sample inputs *)
(* ===================================================================== *)

Ltac sample_nodup :=
  repeat (apply NoDup_cons;
          [ cbn; let H := fresh in
            intros H; repeat (destruct H as [H|H]; [discriminate H|]); exact H
          | ]);
  apply NoDup_nil.

Lemma sample_instants : NoDup (map User.createdAt (table Sample.three)).
Proof. cbn. sample_nodup. Defined.

Lemma findById_outcomes_witness :
  Sample.ann_id_upper <> ""
  /\ @uuid_in Sample.platform Sample.ann_id_upper = Some Sample.ann_id
  /\ user_exists Sample.ann_id (table Sample.three)
  /\ exists u, In u (table Sample.three) /\ User.id u = Sample.ann_id
               /\ UsersService.findById (P := Sample.platform) Sample.ann_id_upper
                    Sample.three
                  = (Ok (UsersService.toResponseDto u),
                     logged Sample.three
                       [FindOne [IdIs Sample.ann_id_upper]
                          (Some UsersRepository.read_columns)]).
Proof.
  assert (Hne : Sample.ann_id_upper <> "") by discriminate.
  assert (Hk : @uuid_in Sample.platform Sample.ann_id_upper = Some Sample.ann_id)
    by reflexivity.
  split; [exact Hne|]. split; [exact Hk|]. split; [exact sample_ann|].
  destruct (findById_outcomes (P := Sample.platform) Sample.ann_id_upper Sample.three)
    as (_ & _ & _ & H).
  exact (H Sample.ann_id Hne Hk sample_ann).
Defined.

Lemma findByWalletAddress_outcomes_witness :
  "0xABCDEF" <> "" /\ wallet_taken "0xABCDEF" (table Sample.three)
  /\ exists u, In u (table Sample.three)
               /\ User.walletAddress u = Some (toLowerCase "0xABCDEF")
               /\ answer (UsersService.findByWalletAddress (P := Sample.platform)
                            "0xABCDEF") Sample.three
                  = Ok (UsersService.toResponseDto u).
Proof.
  assert (Hne : "0xABCDEF" <> "") by discriminate.
  assert (Hw : wallet_taken "0xABCDEF" (table Sample.three)).
  { exists Sample.ann. split; [left; reflexivity | reflexivity]. }
  split; [exact Hne|]. split; [exact Hw|].
  exact (proj2 (proj2 (findByWalletAddress_outcomes (P := Sample.platform)
                         "0xABCDEF" Sample.three)) Hne Hw).
Defined.

Lemma linkWallet_early_failures_witness :
  Sample.nobody_id <> ""
  /\ @uuid_in Sample.platform Sample.nobody_id = Some Sample.nobody_id
  /\ ~ user_exists Sample.nobody_id (table Sample.three)
  /\ UsersService.linkWallet Sample.env4 Sample.nobody_id (LinkWalletDto.mk "0xABCDEF")
       Sample.three
     = (Throw (NotFoundException
                 "User with ID a0000000-0000-4000-8000-000000000009 not found"),
        logged Sample.three [Count [IdIs Sample.nobody_id]])
  /\ @uuid_in Sample.platform Sample.not_a_uuid = None
  /\ UsersService.linkWallet Sample.env4 Sample.not_a_uuid (LinkWalletDto.mk "0xABCDEF")
       Sample.three
     = (Throw (QueryFailedError "invalid input syntax for type uuid"),
        logged Sample.three [Count [IdIs Sample.not_a_uuid]]).
Proof.
  assert (Hne : Sample.nobody_id <> "") by discriminate.
  assert (Hk : @uuid_in Sample.platform Sample.nobody_id = Some Sample.nobody_id)
    by reflexivity.
  assert (Hne' : Sample.not_a_uuid <> "") by discriminate.
  assert (Hk' : @uuid_in Sample.platform Sample.not_a_uuid = None) by reflexivity.
  split; [exact Hne|]. split; [exact Hk|]. split; [exact sample_nobody|].
  destruct (linkWallet_early_failures Sample.env4 Sample.nobody_id
              (LinkWalletDto.mk "0xABCDEF") Sample.three) as (_ & _ & H).
  split; [exact (H Sample.nobody_id Hne Hk sample_nobody)|].
  split; [exact Hk'|].
  destruct (linkWallet_early_failures Sample.env4 Sample.not_a_uuid
              (LinkWalletDto.mk "0xABCDEF") Sample.three) as (_ & H' & _).
  exact (H' Hne' Hk').
Defined.

Lemma failures_change_nothing_witness :
  answer (UsersService.create Sample.env5 Sample.dan_again) Sample.after_dan
  = Throw (ConflictException "Email already exists")
  /\ nothing_written (UsersService.create Sample.env5 Sample.dan_again)
       Sample.after_dan (ConflictException "Email already exists").
Proof.
  split; [reflexivity|].
  apply (proj1 (failures_change_nothing Sample.env5
                  Sample.after_dan (ConflictException "Email already exists"))).
  reflexivity.
Defined.

Lemma store_refuses_only_a_used_key_witness :
  answer (UsersService.create Sample.env_clash Sample.dan) Sample.one
  = Throw (QueryFailedError "duplicate key value violates unique constraint")
  /\ user_exists (uuid Sample.env_clash) (table Sample.one)
  /\ Sample.not_a_uuid <> ""
  /\ @uuid_in Sample.platform Sample.not_a_uuid = None
  /\ exists m, answer (UsersService.delete (P := Sample.platform) Sample.not_a_uuid)
                 Sample.one
               = Throw (QueryFailedError m).
Proof.
  assert (Hne : Sample.not_a_uuid <> "") by discriminate.
  assert (Hk : @uuid_in Sample.platform Sample.not_a_uuid = None) by reflexivity.
  destruct (store_refuses_only_a_used_key Sample.env_clash
              Sample.one "duplicate key value violates unique constraint")
    as (Hcreate & _ & Hdelete).
  split; [reflexivity|].
  split; [apply (Hcreate Sample.dan); reflexivity|].
  split; [exact Hne|]. split; [exact Hk|].
  apply (proj2 (Hdelete Sample.not_a_uuid)). split; [exact Hne | exact Hk].
Defined.

Lemma wallet_addresses_stay_lowercase_witness :
  stored_lowercase (table Sample.three)
  /\ stored_lowercase
       (rows_after (UsersService.linkWallet Sample.env4 Sample.bob_id Sample.beef)
          Sample.three).
Proof.
  split; [exact sample_lowercase|].
  apply (proj1 (proj2 (wallet_addresses_stay_lowercase
                         Sample.env4 Sample.three sample_lowercase))).
Defined.

Lemma update_touches_one_user_witness :
  UsersService.update Sample.env4 Sample.ann_id Sample.rename_ann Sample.three
  = (Ok Sample.anna_response, Sample.after_rename)
  /\ exists k,
       @uuid_in Sample.platform Sample.ann_id = Some k
       /\ map User.id (table Sample.after_rename) = map User.id (table Sample.three)
       /\ forall u, User.id u <> k ->
                    (In u (table Sample.after_rename) <-> In u (table Sample.three)).
Proof.
  assert (E : UsersService.update Sample.env4 Sample.ann_id
                Sample.rename_ann Sample.three
              = (Ok Sample.anna_response, Sample.after_rename)) by reflexivity.
  split; [exact E|].
  destruct (update_touches_one_user Sample.env4 Sample.ann_id
              Sample.rename_ann Sample.three E) as (k & Hk & Hid & _ & Hother & _).
  exists k. split; [exact Hk|]. split; [exact Hid | exact Hother].
Defined.

Lemma create_then_delete_witness :
  uuid Sample.env4 <> ""
  /\ UsersService.create Sample.env4 Sample.dan Sample.one
     = (Ok Sample.dan_response, Sample.after_dan)
  /\ answer (UsersService.delete (P := Sample.platform) Sample.dan_id) Sample.after_dan
     = Ok tt
  /\ rows_after (UsersService.delete (P := Sample.platform) Sample.dan_id)
       Sample.after_dan
     = table Sample.one.
Proof.
  assert (Hne : uuid Sample.env4 <> "") by discriminate.
  assert (E : UsersService.create Sample.env4 Sample.dan Sample.one
              = (Ok Sample.dan_response, Sample.after_dan)) by reflexivity.
  split; [exact Hne|]. split; [exact E|].
  exact (create_then_delete Sample.env4 Sample.dan Sample.one Hne E).
Defined.

Lemma linkWallet_then_findByWalletAddress_witness :
  LinkWalletDto.walletAddress Sample.beef <> ""
  /\ UsersService.linkWallet Sample.env4 Sample.bob_id Sample.beef Sample.three
     = (Ok Sample.bob_linked, Sample.after_link)
  /\ answer (UsersService.findByWalletAddress (P := Sample.platform) "0XBEEF")
       Sample.after_link
     = Ok Sample.bob_linked.
Proof.
  assert (Hne : LinkWalletDto.walletAddress Sample.beef <> "") by discriminate.
  assert (E : UsersService.linkWallet Sample.env4 Sample.bob_id Sample.beef Sample.three
              = (Ok Sample.bob_linked, Sample.after_link)) by reflexivity.
  split; [exact Hne|]. split; [exact E|].
  apply (proj2 (linkWallet_then_findByWalletAddress Sample.env4 Sample.bob_id
                  Sample.beef Sample.three Hne E)).
  reflexivity.
Defined.

Lemma write_then_findById_witness :
  UsersService.update Sample.env4 Sample.ann_id Sample.rename_ann Sample.three
  = (Ok Sample.anna_response, Sample.after_rename)
  /\ answer (UsersService.findById (P := Sample.platform) Sample.ann_id)
       Sample.after_rename
     = Ok Sample.anna_response.
Proof.
  assert (E : UsersService.update Sample.env4 Sample.ann_id
                Sample.rename_ann Sample.three
              = (Ok Sample.anna_response, Sample.after_rename)) by reflexivity.
  split; [exact E|].
  exact (proj1 (write_then_findById Sample.env4 Sample.ann_id
                  Sample.three Sample.anna_response Sample.after_rename)
           Sample.rename_ann E).
Defined.

Lemma create_twice_witness :
  UsersService.create Sample.env4 Sample.dan Sample.one
  = (Ok Sample.dan_response, Sample.after_dan)
  /\ CreateUserDto.email Sample.dan_again = CreateUserDto.email Sample.dan
  /\ answer (UsersService.create Sample.env5 Sample.dan_again) Sample.after_dan
     = Throw (ConflictException "Email already exists").
Proof.
  assert (E : UsersService.create Sample.env4 Sample.dan Sample.one
              = (Ok Sample.dan_response, Sample.after_dan)) by reflexivity.
  split; [exact E|]. split; [reflexivity|].
  exact (proj1 (proj1 (create_twice Sample.env4 Sample.dan
                         Sample.one E) Sample.env5 Sample.dan_again eq_refl)).
Defined.

Lemma probes_answer_by_the_table_witness :
  Sample.ann_id <> ""
  /\ @uuid_in Sample.platform Sample.ann_id = Some Sample.ann_id
  /\ email_taken_by_other "bob@x.io" Sample.ann_id (table Sample.three)
  /\ answer (UsersRepository.emailExists (P := Sample.platform) "bob@x.io"
               (Some Sample.ann_id)) Sample.three
     = Ok true
  /\ @uuid_in Sample.platform Sample.not_a_uuid = None
  /\ refused (UsersRepository.exists_ (P := Sample.platform) Sample.not_a_uuid)
       Sample.three.
Proof.
  assert (Hne : Sample.ann_id <> "") by discriminate.
  assert (Hk : @uuid_in Sample.platform Sample.ann_id = Some Sample.ann_id)
    by reflexivity.
  assert (Hk' : @uuid_in Sample.platform Sample.not_a_uuid = None) by reflexivity.
  assert (Hother : email_taken_by_other "bob@x.io" Sample.ann_id (table Sample.three)).
  { exists Sample.bob. split; [right; left; reflexivity|].
    split; [reflexivity | discriminate]. }
  destruct (probes_answer_by_the_table (P := Sample.platform) Sample.three)
    as (_ & Hrefused & _ & Hmail & _).
  split; [exact Hne|]. split; [exact Hk|]. split; [exact Hother|].
  split.
  - destruct (Hmail "bob@x.io" Sample.ann_id Sample.ann_id Hne Hk) as (b & Hb & Hiff).
    rewrite Hb. f_equal. apply Hiff, Hother.
  - split; [exact Hk' | exact (Hrefused Sample.not_a_uuid Hk')].
Defined.

Lemma repository_reads_witness :
  answer (UsersRepository.findByEmail (P := Sample.platform) "ann@x.io") Sample.three
  = Ok (Some Sample.ann)
  /\ In Sample.ann (table Sample.three)
  /\ User.email Sample.ann = "ann@x.io"
  /\ answer (UsersRepository.findById (P := Sample.platform) Sample.ann_id_upper)
       Sample.three
     = Ok (Some (without_password Sample.ann))
  /\ User.password (without_password Sample.ann) = None.
Proof.
  assert (E : answer (UsersRepository.findByEmail (P := Sample.platform) "ann@x.io")
                Sample.three
              = Ok (Some Sample.ann)) by reflexivity.
  assert (F : answer (UsersRepository.findById (P := Sample.platform)
                        Sample.ann_id_upper) Sample.three
              = Ok (Some (without_password Sample.ann))) by reflexivity.
  destruct (repository_reads (P := Sample.platform) Sample.three)
    as (Hid & _ & _ & Hmail & _).
  split; [exact E|].
  split; [exact (proj1 (Hmail _ _ E))|]. split; [exact (proj2 (Hmail _ _ E))|].
  split; [exact F|]. exact (proj1 (Hid _ _ F)).
Defined.

Lemma findByIdOrThrow_outcomes_witness :
  @uuid_in Sample.platform Sample.nobody_id = Some Sample.nobody_id
  /\ ~ user_exists Sample.nobody_id (table Sample.three)
  /\ answer (UsersRepository.findByIdOrThrow (P := Sample.platform) Sample.nobody_id None)
       Sample.three
     = Throw (BadRequestException "cannot find user")
  /\ @uuid_in Sample.platform Sample.bob_id = Some Sample.bob_id
  /\ user_exists Sample.bob_id (table Sample.three)
  /\ (exists v, In v (table Sample.three) /\ User.id v = Sample.bob_id
                /\ answer (UsersRepository.findByIdOrThrow (P := Sample.platform)
                             Sample.bob_id None) Sample.three
                   = Ok (without_password v))
  /\ @uuid_in Sample.platform Sample.not_a_uuid = None
  /\ answer (UsersRepository.findByIdOrThrow (P := Sample.platform) Sample.not_a_uuid
               None) Sample.three
     = Throw (QueryFailedError "invalid input syntax for type uuid").
Proof.
  assert (Hk1 : @uuid_in Sample.platform Sample.nobody_id = Some Sample.nobody_id)
    by reflexivity.
  assert (Hk2 : @uuid_in Sample.platform Sample.bob_id = Some Sample.bob_id)
    by reflexivity.
  assert (Hk3 : @uuid_in Sample.platform Sample.not_a_uuid = None) by reflexivity.
  destruct (findByIdOrThrow_outcomes (P := Sample.platform) Sample.nobody_id None
              Sample.three) as (_ & Hno & _).
  destruct (findByIdOrThrow_outcomes (P := Sample.platform) Sample.bob_id None
              Sample.three) as (Hyes & _).
  destruct (findByIdOrThrow_outcomes (P := Sample.platform) Sample.not_a_uuid None
              Sample.three) as (_ & _ & Hbad).
  split; [exact Hk1|]. split; [exact sample_nobody|].
  split; [exact (Hno _ Hk1 sample_nobody)|].
  split; [exact Hk2|]. split; [exact sample_bob|].
  split; [exact (Hyes _ Hk2 sample_bob)|].
  split; [exact Hk3 | exact (Hbad Hk3)].
Defined.

Lemma findAll_date_filter_witness :
  answer (UsersRepository.findAll (P := Sample.calendar) None None
            (Some Sample.between_150_and_250)) Sample.three
  = Ok ([without_password Sample.bob], 1)
  /\ forall u, In u [without_password Sample.bob] ->
               exists v, In v (table Sample.three)
                         /\ in_range (P := Sample.calendar) Sample.between_150_and_250 v
                         /\ u = without_password v.
Proof.
  assert (E : answer (UsersRepository.findAll (P := Sample.calendar) None None
                        (Some Sample.between_150_and_250)) Sample.three
              = Ok ([without_password Sample.bob], 1)) by reflexivity.
  split; [exact E|].
  exact (proj1 (findAll_date_filter (P := Sample.calendar) None None
                  Sample.between_150_and_250 Sample.three E)).
Defined.

Lemma pages_tile_the_listing_witness :
  NoDup (map User.createdAt (table Sample.three))
  /\ 1 <= 2
  /\ (listing (P := Sample.platform) (Some (Num 1)) (Some (Num 2)) Sample.three
      ++ listing (P := Sample.platform) (Some (Num 2)) (Some (Num 2)) Sample.three)%list
     = listing (P := Sample.platform) None None Sample.three
  /\ listing (P := Sample.platform) None None Sample.three
     = map UsersService.toResponseDto [Sample.cy; Sample.bob; Sample.ann].
Proof.
  assert (H : 1 <= 2) by lia.
  split; [exact sample_instants|]. split; [exact H|].
  destruct (pages_tile_the_listing (P := Sample.platform) 2 Sample.three
              sample_instants H) as (_ & _ & Hall & _).
  split; [|reflexivity].
  rewrite <- Hall; [reflexivity | cbn; lia].
Defined.

Lemma zero_turns_pagination_off_witness :
  parseInt "0" = Num 0
  /\ UsersController.findAll (P := Sample.platform) (Some "3") (Some "0") Sample.three
     = (Ok (UsersController.mkPage "Users retrieved successfully"
              (map UsersService.toResponseDto [Sample.cy; Sample.bob; Sample.ann])
              3 (Num 3) (Num 0)),
        logged Sample.three [Select select_all]).
Proof.
  split; [reflexivity|].
  exact (proj2 (zero_turns_pagination_off (P := Sample.platform) Sample.three)
           (Some "3") (Some "0") (or_intror eq_refl)).
Defined.
